(** * RapidAD-AI: provider routing and response normalisation

  A shallow embedding of the decision logic of the RapidAD-AI backend
  ([app.py], [services/lifestyle_shot.py], [services/background_removal.py],
  [services/video_generator.py], [services/puter_video.py],
  [utils/image_utils.py], [fix_logo.py]) together with the properties its
  specification states about it and further properties of the code.

  Python values are modelled as follows.
  - [str] is [string]; a character is a code point below 256 (the
    pictographs of three log lines appear as their UTF-8 bytes).
  - A decoded JSON document is [json]; a [dict] is a [gmap string json].
  - A computation that may raise is a value of [exc A]; one that also
    acts on the outside world is a value of [io A], the trace of what it
    did paired with its outcome; [try]/[except Exception] is [try_io].
  - The outside world (file system, HTTP provider, vision model, video
    operations) is a record [World] of oracles passed explicitly to the
    function that uses it; what the video services, the overlay route and
    the logo script use beyond it is a second record, [Runtime].
  - The trace records the provider calls, the downloads, the waits, the
    status checks and the lines printed; the dumps of request headers,
    request bodies and response bodies that some functions print are left
    out of it. *)

From Stdlib Require Import String Ascii ZArith List Lia Bool.
From stdpp Require Import base tactics option list gmap strings pretty.

Set Warnings "-register-all".
Open Scope string_scope.
Open Scope Z_scope.

(** ** JSON documents *)

Inductive json :=
| JNull
| JBool (b : bool)
| JInt (n : Z)
| JFloat (m e : Z)
| JStr (s : string)
| JList (l : list json)
| JDict (d : gmap string json).

(** ** Python primitives *)

Module Py.

(** Exceptions.  [HTTPError] is the error of [requests] that carries a
    response: its message, and the status, text and JSON body (if any) of
    the response.  [LibraryError] is any other [Exception] raised inside a
    library call (network failure, image decoding, model call). *)
Inductive exn :=
| TypeError (msg : string)
| KeyError (key : string)
| IndexError (msg : string)
| ValueError (msg : string)
| HTTPError (msg : string) (status : Z) (text : string) (body : option json)
| LibraryError (msg : string)
| Exception (msg : string).

Inductive exc (A : Type) :=
| Ok (a : A)
| Raise (e : exn).
Arguments Ok {A} a.
Arguments Raise {A} e.

#[export] Instance exc_ret : MRet exc := fun _ a => Ok a.
#[export] Instance exc_bind : MBind exc := fun _ _ f m =>
  match m with
  | Ok a => f a
  | Raise e => Raise e
  end.

Definition raises {A} (m : exc A) : Prop := exists e, m = Raise e.

(** [str(e)]: the text of an exception. *)
Definition str_of_exn (e : exn) : string :=
  match e with
  | TypeError msg | IndexError msg | ValueError msg
  | HTTPError msg _ _ _ | LibraryError msg | Exception msg => msg
  | KeyError key => "'" ++ key ++ "'"
  end.

(** Truth value of a string, of an optional string ([None] or [str]) and
    of [bytes]. *)
Definition truthy (s : string) : bool :=
  match s with
  | EmptyString => false
  | String _ _ => true
  end.

Definition truthy_opt (o : option string) : bool :=
  match o with
  | None => false
  | Some s => truthy s
  end.

Definition truthy_bytes (b : list ascii) : bool :=
  match b with
  | [] => false
  | _ :: _ => true
  end.

(** [s.startswith(p)] *)
Definition startswith (s p : string) : bool := String.prefix p s.

(** [c.isspace()] on code points below 256. *)
Definition isspace (c : ascii) : bool :=
  let n := N_of_ascii c in
  ((9 <=? n) && (n <=? 13) || (28 <=? n) && (n <=? 32)
   || (n =? 133) || (n =? 160))%N.

Fixpoint lstrip_by (p : ascii -> bool) (s : string) : string :=
  match s with
  | EmptyString => EmptyString
  | String c s' => if p c then lstrip_by p s' else s
  end.

Definition rstrip_by (p : ascii -> bool) (s : string) : string :=
  String.rev (lstrip_by p (String.rev s)).

(** [s.strip()] *)
Definition strip (s : string) : string :=
  rstrip_by isspace (lstrip_by isspace s).

(** [s.lstrip(c)] for a one-character argument. *)
Definition lstrip_char (c : ascii) (s : string) : string :=
  lstrip_by (Ascii.eqb c) s.

(** [s.split(",", 1)]: the text before the first comma and, when there is
    a comma, the text after it. *)
Fixpoint split_comma_1 (s : string) : string * option string :=
  match s with
  | EmptyString => (EmptyString, None)
  | String c s' =>
      if Ascii.eqb c ","%char then (EmptyString, Some s')
      else let '(hd, tl) := split_comma_1 s' in (String c hd, tl)
  end.

(** [s.split(",", 1)[1]] *)
Definition split_comma_1_snd (s : string) : exc string :=
  match snd (split_comma_1 s) with
  | Some tl => Ok tl
  | None => Raise (IndexError "list index out of range")
  end.

(** [len(v)] *)
Definition len (v : json) : exc Z :=
  match v with
  | JStr s => Ok (Z.of_nat (String.length s))
  | JList l => Ok (Z.of_nat (length l))
  | JDict d => Ok (Z.of_nat (size d))
  | JNull | JBool _ | JInt _ | JFloat _ _ =>
      Raise (TypeError "object has no len()")
  end.

(** [v[0]].  The keys of a decoded JSON object are strings, so the
    integer key [0] is never found in one. *)
Definition getitem0 (v : json) : exc json :=
  match v with
  | JList l =>
      match l !! 0%nat with
      | Some x => Ok x
      | None => Raise (IndexError "list index out of range")
      end
  | JStr s =>
      match s with
      | String c _ => Ok (JStr (String c EmptyString))
      | EmptyString => Raise (IndexError "string index out of range")
      end
  | JDict _ => Raise (KeyError "0")
  | JNull | JBool _ | JInt _ | JFloat _ _ =>
      Raise (TypeError "object is not subscriptable")
  end.

(** [d[k]] *)
Definition getitem (d : gmap string json) (k : string) : exc json :=
  match d !! k with
  | Some v => Ok v
  | None => Raise (KeyError k)
  end.

(** [d.get(k)] *)
Definition dict_get (d : gmap string json) (k : string) : json :=
  default JNull (d !! k).

(** [k in d] *)
Definition contains (d : gmap string json) (k : string) : bool :=
  bool_decide (is_Some (d !! k)).

Definition is_list (v : json) : bool :=
  match v with
  | JList _ => true
  | _ => false
  end.

(** [None] or a string, as a JSON value. *)
Definition json_of_opt (o : option string) : json :=
  match o with
  | None => JNull
  | Some s => JStr s
  end.

End Py.
Import Py.

(** ** Base64 ([base64.b64encode(b).decode('utf-8')]) *)

Module Base64.

Definition alphabet : string :=
  "ABCDEFGHIJKLMNOPQRSTUVWXYZabcdefghijklmnopqrstuvwxyz0123456789+/".

Definition digit (n : N) : ascii :=
  match String.get (N.to_nat n) alphabet with
  | Some c => c
  | None => "="%char
  end.

Fixpoint b64encode (b : list ascii) : string :=
  match b with
  | [] => EmptyString
  | [x] =>
      let n := (N_of_ascii x * 65536)%N in
      String (digit (n / 262144)) (String (digit (n / 4096 mod 64)) "==")
  | [x; y] =>
      let n := (N_of_ascii x * 65536 + N_of_ascii y * 256)%N in
      String (digit (n / 262144)) (String (digit (n / 4096 mod 64))
        (String (digit (n / 64 mod 64)) "="))
  | x :: y :: z :: rest =>
      let n := (N_of_ascii x * 65536 + N_of_ascii y * 256 + N_of_ascii z)%N in
      String (digit (n / 262144)) (String (digit (n / 4096 mod 64))
        (String (digit (n / 64 mod 64)) (String (digit (n mod 64))
          (b64encode rest))))
  end.

End Base64.

(** ** Effects: the trace of a run and the outside world *)

Module Effects.

(** What a run does to the outside world, in order. *)
Inductive event :=
| Print (msg : string)
| Post (url : string) (headers data : gmap string json)
| Get (url : string)
| Sleep (seconds : Z)
| Poll (name : string).

(** A computation that leaves a trace and returns or raises. *)
Definition io (A : Type) : Type := list event * exc A.

#[export] Instance io_ret : MRet io := fun _ a => ([], Ok a).
#[export] Instance io_bind : MBind io := fun _ _ f m =>
  match m with
  | (t, Ok a) => let '(t', r) := f a in ((t ++ t')%list, r)
  | (t, Raise e) => (t, Raise e)
  end.

Definition emit (e : event) : io unit := ([e], Ok tt).
Definition print (msg : string) : io unit := emit (Print msg).
Definition lift {A} (m : exc A) : io A := ([], m).
Definition raise {A} (e : exn) : io A := ([], Raise e).

Definition trace {A} (m : io A) : list event := fst m.
Definition outcome {A} (m : io A) : exc A := snd m.

(** [try: body except Exception as e: handler e] with effects. *)
Definition try_io {A} (body : io A) (handler : exn -> io A) : io A :=
  match body with
  | (t, Ok a) => (t, Ok a)
  | (t, Raise e) => let '(t', r) := handler e in ((t ++ t')%list, r)
  end.

(** A [requests] response. [json_body] is [response.json()]. *)
Record response := {
  status_code : Z;
  reason : string;
  url : string;
  text : string;
  content : list ascii;
  json_body : exc json
}.

(** A decoded picture ([PIL.Image]). *)
Record image := { pixels : list ascii }.

(** [status] of a video operation as [client.operations.get] returns it;
    [video_uri] is [status.response.generated_videos[0].video.uri]. *)
Record op_status := {
  done : bool;
  error : option string;
  video_uri : exc string
}.

(** The outside world.  The services [generate_hd_image],
    [create_packshot] and [add_shadow] and the builtin [int] are taken
    as given. *)
Record World := {
  BRIA_API_KEY : option string;
  GOOGLE_API_KEY : option string;
  (* file system *)
  path_exists : string -> bool;
  read_file : string -> exc (list ascii);
  (* HTTP *)
  requests_post : string -> gmap string json -> gmap string json -> exc response;
  requests_get : string -> exc response;
  (* imaging *)
  b64decode : string -> exc (list ascii);
  image_open_bytes : list ascii -> exc image;
  image_open_path : string -> exc image;
  (* vision model *)
  genai_available : bool;
  genai_configure : string -> exc unit;
  generative_model : string -> exc unit;
  generate_content : string -> option image -> exc (exc string);
  (* video model *)
  genai_client : option string -> exc unit;
  generate_videos : string -> json -> image -> gmap string json -> exc string;
  operations_get : string -> nat -> exc op_status;
  (* services and builtins taken as given *)
  generate_hd_image : json -> option string -> json -> json -> bool -> exc json;
  create_packshot : option string -> option (list ascii) -> string -> exc json;
  add_shadow : option string -> option (list ascii) -> Z -> exc json;
  py_int : json -> exc Z
}.

(** [requests.post(url, headers=headers, json=data)] *)
Definition post (w : World) (url : string) (headers data : gmap string json)
  : io response :=
  _ ← emit (Post url headers data); lift (requests_post w url headers data).

(** [requests.get(url)] *)
Definition get (w : World) (url : string) : io response :=
  _ ← emit (Get url); lift (requests_get w url).

(** [response.raise_for_status()] *)
Definition raise_for_status (r : response) : exc unit :=
  let raise_http kind :=
    Raise (HTTPError (pretty (status_code r) ++ kind ++ reason r
                      ++ " for url: " ++ url r)
             (status_code r) (text r)
             (match json_body r with Ok j => Some j | Raise _ => None end)) in
  if (400 <=? status_code r) && (status_code r <? 500)
  then raise_http " Client Error: "
  else if (500 <=? status_code r) && (status_code r <? 600)
  then raise_http " Server Error: "
  else Ok tt.

Definition headers_of (api_key : option string) : gmap string json :=
  {[ "api_token" := json_of_opt api_key;
     "Accept" := JStr "application/json";
     "Content-Type" := JStr "application/json" ]}.

End Effects.
Import Effects.

(** ** [services/background_removal.py] *)

Module BackgroundRemoval.

Definition primary_url : string :=
  "https://engine.prod.bria-api.com/v1/background/remove".
Definition alt_url : string :=
  "https://engine.prod.bria-api.com/v1/remove_background".
Definition alt_url_v2 : string :=
  "https://engine.prod.bria-api.com/v2/background/remove".

(** Lines 33-44: the request body, or [ValueError]. *)
Definition request_data (image_data : option (list ascii))
    (image_url : option string) (sync content_moderation : bool)
  : exc (gmap string json) :=
  let data : gmap string json :=
    {[ "sync" := JBool sync; "content_moderation" := JBool content_moderation ]} in
  if truthy_opt image_url
  then Ok (<["image_url" := json_of_opt image_url]> data)
  else if truthy_bytes (default [] image_data)
  then Ok (<["file" := JStr (Base64.b64encode (default [] image_data))]> data)
  else Raise (ValueError "Either image_data or image_url must be provided").

(** Lines 46-68: the body of the [try]. *)
Definition attempt (w : World) (headers data : gmap string json) : io json :=
  _ ← print ("Making request to: " ++ primary_url);
  response ← post w primary_url headers data;
  response ←
    (if status_code response =? 400
     then
       _ ← print "Primary endpoint failed with 400, trying alternative v1/remove_background...";
       response ← post w alt_url headers data;
       if status_code response =? 400
       then
         _ ← print "Alternative 1 failed, trying v2/background/remove...";
         post w alt_url_v2 headers data
       else mret response
     else mret response);
  _ ← (if negb (status_code response =? 200)
       then
         _ ← print ("Bria Error Status: " ++ pretty (status_code response));
         print ("Bria Error Response: " ++ text response)
       else mret tt);
  _ ← lift (raise_for_status response);
  _ ← print ("Response status: " ++ pretty (status_code response));
  lift (json_body response).

Definition remove_background (w : World) (api_key : option string)
    (image_data : option (list ascii)) (image_url : option string)
    (sync content_moderation : bool) : io json :=
  let headers := headers_of api_key in
  data ← lift (request_data image_data image_url sync content_moderation);
  try_io (attempt w headers data)
    (fun e =>
       let error_msg :=
         match e with
         | HTTPError _ status text _ => pretty status ++ " - " ++ text
         | _ => str_of_exn e
         end in
       raise (Exception ("Background removal failed: " ++ error_msg))).

End BackgroundRemoval.

(** ** [services/lifestyle_shot.py] *)

Module LifestyleShot.

Definition dquote : string := String "034"%char EmptyString.

Definition prompt_head : string := "
        Act as a Professional Product Photographer.
        1. ANALYZE THE REFERENCE IMAGE: Identify the exact physical surface (e.g. wooden table, marble floor), the perspective (e.g. eye-level, top-down), and the lighting.
        2. ANALYZE THE USER REQUEST: ".

Definition prompt_tail : string := "
        3. MERGE THEM: Create a single, detailed prompt that recreates the EXACT setting of the reference image but incorporates the user's specific request.
        
        CRITICAL: The product must be naturally placed ON the physical surface from the reference image.
        Describe the materials, textures, and camera depth (e.g. 'sharp focus on the product on the rustic wooden surface, soft bokeh background').
        
        Output ONLY the final merged prompt string.
        ".

(** The f-string of lines 43-53. *)
Definition prompt_text (user_prompt : string) : string :=
  prompt_head ++ dquote ++ user_prompt ++ dquote ++ prompt_tail.

(** Lines 29-41: the picture handed to the model, if any. *)
Definition load_reference (w : World) (ref_image_data : string)
  : io (option image) :=
  if startswith ref_image_data "data:image"
  then
    base64_data ← lift (split_comma_1_snd ref_image_data);
    raw ← lift (b64decode w base64_data);
    img ← lift (image_open_bytes w raw);
    mret (Some img)
  else if startswith ref_image_data "http"
  then
    response ← get w ref_image_data;
    img ← lift (image_open_bytes w (content response));
    mret (Some img)
  else if path_exists w ref_image_data
  then img ← lift (image_open_path w ref_image_data); mret (Some img)
  else mret None.

(** Lines 25-60: the body of the [try]. *)
Definition merge_attempt (w : World) (gemini_api_key : string)
    (ref_image_data user_prompt : string) : io string :=
  _ ← lift (genai_configure w gemini_api_key);
  _ ← lift (generative_model w "gemini-1.5-pro");
  img ← load_reference w ref_image_data;
  response ← lift (generate_content w (prompt_text user_prompt) img);
  response_text ← lift response;
  mret (strip response_text).

Definition merge_vision_and_prompt (w : World)
    (gemini_api_key : option string) (ref_image_data user_prompt : string)
  : io string :=
  if negb (genai_available w) || negb (truthy_opt gemini_api_key)
  then mret user_prompt
  else
    try_io
      (merge_attempt w (default EmptyString gemini_api_key)
         ref_image_data user_prompt)
      (fun e =>
         _ ← print ("Gemini prompt merging failed: " ++ str_of_exn e);
         mret user_prompt).

(** [_prepare_image], the local function of [generate_product_shot]:
    the key under which the picture is sent and its value. *)
Definition _prepare_image (w : World) (data : option string)
  : io (option string * option string) :=
  if negb (truthy_opt data) then mret (None, None)
  else
    let data := default EmptyString data in
    if startswith data "data:image"
    then
      try_io
        (base64_data ← lift (split_comma_1_snd data);
         mret (Some "file", Some base64_data))
        (fun _ => mret (Some "url", Some data))
    else if startswith data "http"
    then mret (Some "url", Some data)
    else
      let clean_path := lstrip_char "/"%char data in
      found ←
        (if path_exists w clean_path
         then
           try_io
             (raw ← lift (read_file w clean_path);
              mret (Some (Some "file", Some (Base64.b64encode raw))))
             (fun e =>
                _ ← print ("Failed to read local file " ++ clean_path
                            ++ ": " ++ str_of_exn e);
                mret None)
         else mret None);
      match found with
      | Some r => mret r
      | None => mret (Some "file", Some data)
      end.

Definition by_image_url : string :=
  "https://engine.prod.bria-api.com/v1/product/lifestyle_shot_by_image".
Definition by_text_url : string :=
  "https://engine.prod.bria-api.com/v1/product/lifestyle_shot_by_text".

Definition DEFAULT_PROMPT : string :=
  "High-end studio product photography, professional lighting, photorealistic, integrated shadows, 8k.".

(** Line 230.  Only the truth value of [is_custom_prompt] is used. *)
Definition is_custom_prompt (scene_description : option string) : bool :=
  truthy_opt scene_description
  && negb (String.eqb (strip (default EmptyString scene_description))
                      (strip DEFAULT_PROMPT)).

(** [if key == 'file': data[file_key] = val else: data[url_key] = val] *)
Definition put_image (file_key url_key : string)
    (kv : option string * option string) (data : gmap string json)
  : gmap string json :=
  if bool_decide (fst kv = Some "file")
  then <[file_key := json_of_opt (snd kv)]> data
  else <[url_key := json_of_opt (snd kv)]> data.

(** Lines 215-272: the endpoint and the request body.  (Lines 274-283
    print a summary of the request and change nothing.) *)
Definition build_request (w : World)
    (image_data ref_image_data scene_description gemini_api_key : option string)
    (num_results : Z) (sync force_rmbg content_moderation : bool)
  : io (string * gmap string json) :=
  let data : gmap string json :=
    {[ "num_results" := JInt num_results;
       "sync" := JBool sync;
       "force_rmbg" := JBool force_rmbg;
       "content_moderation" := JBool content_moderation ]} in
  prod ← _prepare_image w image_data;
  let data := put_image "file" "image_url" prod data in
  '(url, data) ←
    (if negb (is_custom_prompt scene_description) && truthy_opt ref_image_data
     then
       _ ← print "🎯 Using Exact Composition route (by_image)...";
       ref ← _prepare_image w ref_image_data;
       mret (by_image_url, put_image "ref_image_file" "ref_image_url" ref data)
     else if is_custom_prompt scene_description && truthy_opt ref_image_data
             && truthy_opt gemini_api_key
     then
       _ ← print "🤖 Gemini is merging your template and custom prompt...";
       merged_prompt ←
         merge_vision_and_prompt w gemini_api_key
           (default EmptyString ref_image_data)
           (default EmptyString scene_description);
       mret (by_text_url, <["scene_description" := JStr merged_prompt]> data)
     else if truthy_opt scene_description
     then
       _ ← print "📝 Using Text-only route (by_text)...";
       mret (by_text_url,
             <["scene_description" := json_of_opt scene_description]> data)
     else
       if truthy_opt ref_image_data
       then
         ref ← _prepare_image w ref_image_data;
         mret (by_image_url,
               put_image "ref_image_file" "ref_image_url" ref data)
       else mret (by_image_url, data));
  mret (url, <["placement_type" := JStr "original"]> data).

(** Lines 294-304: the [except] clause.  An exception without a response
    gives status 400 and its own text; the [raise] of line 304 is reached
    only when building the error object itself raises, which does not
    happen here. *)
Definition error_object (url : string) (e : exn) : json :=
  match e with
  | HTTPError _ status text (Some error_json) =>
      JDict {[ "error" := error_json; "status_code" := JInt status;
               "url_attempted" := JStr url ]}
  | HTTPError _ status text None =>
      JDict {[ "error" := JStr text; "status_code" := JInt status;
               "url_attempted" := JStr url ]}
  | _ =>
      JDict {[ "error" := JStr (str_of_exn e); "status_code" := JInt 400;
               "url_attempted" := JStr url ]}
  end.

Definition generate_product_shot (w : World) (api_key : option string)
    (image_data ref_image_data scene_description gemini_api_key : option string)
    (num_results : Z) (sync force_rmbg content_moderation : bool)
  : io json :=
  let headers := headers_of api_key in
  '(url, data) ← build_request w image_data ref_image_data scene_description
                   gemini_api_key num_results sync force_rmbg
                   content_moderation;
  try_io
    (response ← post w url headers data;
     _ ← print ("Bria Request to " ++ url);
     _ ← print ("Bria Status: " ++ pretty (status_code response));
     _ ← lift (raise_for_status response);
     lift (json_body response))
    (fun e => mret (error_object url e)).

End LifestyleShot.

(** ** [app.py] *)

Module App.

(** One iteration of [for item in data["result"]]; [urls] is the list
    being appended to. *)
Definition extract_item (item : json) (urls : list json) : exc (list json) :=
  match item with
  | JDict d =>
      has_urls ←
        (if contains d "urls"
         then u ← getitem d "urls"; n ← len u; mret (0 <? n)
         else mret false);
      if has_urls : bool
      then u ← getitem d "urls"; x ← getitem0 u; mret (urls ++ [x])%list
      else if contains d "url"
      then x ← getitem d "url"; mret (urls ++ [x])%list
      else mret urls
  | JList l =>
      if 0 <? Z.of_nat (length l)
      then x ← getitem0 item; mret (urls ++ [x])%list
      else mret urls
  | JStr _ => mret (urls ++ [item])%list
  | JNull | JBool _ | JInt _ | JFloat _ _ => mret urls
  end.

Fixpoint extract_items (items : list json) (urls : list json)
  : exc (list json) :=
  match items with
  | [] => mret urls
  | item :: rest => urls' ← extract_item item urls; extract_items rest urls'
  end.

Definition _extract_urls (data : json) : exc (list json) :=
  let urls := [] in
  match data with
  | JDict d =>
      match d !! "result_urls" with
      | Some (JList l) => mret (urls ++ l)%list
      | _ =>
          match d !! "result_url" with
          | Some u => mret (urls ++ [u])%list
          | None =>
              match d !! "result" with
              | Some (JList items) => extract_items items urls
              | _ =>
                  match d !! "urls" with
                  | Some (JList l) => mret (urls ++ l)%list
                  | _ => mret urls
                  end
              end
          end
      end
  | _ => mret urls
  end.

(** Truth value of a JSON value. *)
Definition json_truthy (v : json) : bool :=
  match v with
  | JNull => false
  | JBool b => b
  | JInt n => negb (n =? 0)
  | JFloat m _ => negb (m =? 0)
  | JStr s => truthy s
  | JList l => negb (bool_decide (l = []))
  | JDict d => negb (bool_decide (d = ∅))
  end.

(** What a route returns: the JSON body and the HTTP status. *)
Record reply := { body : json; status : json }.

Definition error_reply (msg : string) (code : Z) : reply :=
  {| body := JDict {[ "error" := JStr msg ]}; status := JInt code |}.

Definition download_image (w : World) (url : json)
  : io (option (list ascii)) :=
  if negb (json_truthy url) then mret None
  else
    try_io
      (response ←
         match url with
         | JStr u => get w u
         | _ => raise (LibraryError "Invalid URL")
         end;
       _ ← lift (raise_for_status response);
       mret (Some (content response)))
      (fun e =>
         _ ← print ("Download failed: " ++ str_of_exn e);
         mret None).

(** [utils/image_utils.py], on [bytes] or [None]. *)
Definition image_to_base64 (image_input : option (list ascii))
  : option string :=
  if negb (truthy_bytes (default [] image_input)) then None
  else Some (Base64.b64encode (default [] image_input)).

(** [urls[0] if urls else None] (lines 98-102). *)
Definition normalized_hd (urls : list json) (result : json) : json :=
  JDict {[ "urls" := JList urls;
           "result_url" := default JNull (urls !! 0%nat);
           "raw" := result ]}.

(** [urls[0] if urls else (result.get('result_url') if
    isinstance(result, dict) else None)] (lines 166-170). *)
Definition normalized_photography (urls : list json) (result : json) : json :=
  JDict {[ "urls" := JList urls;
           "result_url" :=
             match urls !! 0%nat with
             | Some u => u
             | None =>
                 match result with
                 | JDict d => dict_get d "result_url"
                 | _ => JNull
                 end
             end;
           "raw" := result ]}.

(** Lines 97-102. *)
Definition respond_hd (result : json) : exc reply :=
  urls ← _extract_urls result;
  mret {| body := normalized_hd urls result; status := JInt 200 |}.

Definition api_generate_hd (w : World) (request_json : gmap string json)
  : io reply :=
  let prompt := dict_get request_json "prompt" in
  let aspect_ratio := default (JStr "1:1") (request_json !! "aspect_ratio") in
  let style := default (JStr "photography") (request_json !! "style") in
  try_io
    (result ← lift (generate_hd_image w prompt (BRIA_API_KEY w)
                      aspect_ratio style true);
     lift (respond_hd result))
    (fun e => mret (error_reply (str_of_exn e) 500)).

(** An uploaded file; it is true when it has a file name. *)
Record file_storage := { filename : string; stream : list ascii }.

(** Lines 131-163: the provider result, or the reply of an early
    [return]. *)
Definition dispatch (w : World) (form : gmap string string)
    (operation image_url : option string) (img_bytes : option (list ascii))
  : io (reply + json) :=
  if bool_decide (operation = Some "remove_bg")
  then
    result ←
      (if truthy_opt image_url
       then BackgroundRemoval.remove_background w (BRIA_API_KEY w)
              None image_url true false
       else BackgroundRemoval.remove_background w (BRIA_API_KEY w)
              img_bytes None true false);
    mret (inr result)
  else if bool_decide (operation = Some "packshot")
  then
    let bg_color := default "#FFFFFF" (form !! "bg_color") in
    result ← lift (create_packshot w (BRIA_API_KEY w) img_bytes bg_color);
    mret (inr result)
  else if bool_decide (operation = Some "shadow")
  then
    intensity ← lift (py_int w (default (JInt 60) (JStr <$> form !! "intensity")));
    result ← lift (add_shadow w (BRIA_API_KEY w) img_bytes intensity);
    mret (inr result)
  else if bool_decide (operation = Some "lifestyle")
  then
    let prompt := default EmptyString (form !! "prompt") in
    let ref_url := form !! "ref_url" in
    let ref_url :=
      if truthy_opt ref_url
         && startswith (default EmptyString ref_url) "/assets/templates/"
      then Some (lstrip_char "/"%char (default EmptyString ref_url))
      else ref_url in
    result ←
      LifestyleShot.generate_product_shot w (BRIA_API_KEY w)
        (image_to_base64 img_bytes)
        (if truthy_opt ref_url then ref_url else None)
        (Some prompt) (GOOGLE_API_KEY w) 4 true false false;
    match result with
    | JDict d =>
        if contains d "error"
        then mret (inl {| body := result;
                          status := default (JInt 500) (d !! "status_code") |})
        else mret (inr result)
    | _ => mret (inr result)
    end
  else mret (inl (error_reply "Invalid operation" 400)).

(** Lines 165-170. *)
Definition respond_photography (result : json) : exc reply :=
  urls ← _extract_urls result;
  mret {| body := normalized_photography urls result; status := JInt 200 |}.

(** Lines 130-174: the [try] once [img_bytes] is known.  (The traceback
    that the handler prints is not part of the trace.) *)
Definition process (w : World) (form : gmap string string)
    (operation image_url : option string) (img_bytes : option (list ascii))
  : io reply :=
  try_io
    (r ← dispatch w form operation image_url img_bytes;
     match r with
     | inl early => mret early
     | inr result => lift (respond_photography result)
     end)
    (fun e => mret (error_reply (str_of_exn e) 500)).

Definition api_process_photography (w : World) (form : gmap string string)
    (image_file : option file_storage) : io reply :=
  let image_url := form !! "image_url" in
  let operation := form !! "operation" in
  if truthy (default EmptyString (filename <$> image_file))
  then process w form operation image_url (stream <$> image_file)
  else if truthy_opt image_url
  then
    img_bytes ← download_image w (json_of_opt image_url);
    process w form operation image_url img_bytes
  else mret (error_reply "No image provided" 400).

(** [client.operations.get(name=operation.name)], the [i]-th time. *)
Definition poll (w : World) (name : string) (i : nat) : io op_status :=
  _ ← emit (Poll name); lift (operations_get w name i).

(** The [for _ in range(40)] loop of lines 224-230 over the remaining
    values of the range: the reply of a [return] inside the loop, or
    [None] when the range is exhausted. *)
Fixpoint poll_loop (w : World) (name : string) (range : list nat)
  : io (option reply) :=
  match range with
  | [] => mret None
  | i :: rest =>
      _ ← emit (Sleep 10);
      status ← poll w name i;
      if done status
      then
        match error status with
        | Some err => mret (Some (error_reply err 500))
        | None =>
            uri ← lift (video_uri status);
            mret (Some {| body := JDict {[ "video_url" := JStr uri ]};
                          status := JInt 200 |})
        end
      else poll_loop w name rest
  end.

Definition max_attempts : nat := 40.

(** Lines 203-221: everything of the [try] before the loop; the result
    is [operation.name]. *)
Definition submit (w : World) (image_url prompt aspect_ratio duration : json)
  : io string :=
  img_bytes ← download_image w image_url;
  img ← lift (match img_bytes with
              | Some raw => image_open_bytes w raw
              | None => Raise (TypeError "a bytes-like object is required")
              end);
  _ ← lift (genai_client w (GOOGLE_API_KEY w));
  duration_seconds ← lift (py_int w duration);
  let config : gmap string json :=
    {[ "duration_seconds" := JInt duration_seconds;
       "aspect_ratio" := aspect_ratio ]} in
  lift (generate_videos w "veo-3.1-generate-001" prompt img config).

Definition api_generate_video (w : World) (request_json : gmap string json)
  : io reply :=
  let image_url := dict_get request_json "image_url" in
  let prompt := dict_get request_json "prompt" in
  let aspect_ratio := default (JStr "16:9") (request_json !! "aspect_ratio") in
  let duration := default (JStr "5") (request_json !! "duration") in
  if negb (json_truthy image_url) || negb (json_truthy prompt)
  then mret (error_reply "Missing data" 400)
  else
    try_io
      (operation ← submit w image_url prompt aspect_ratio duration;
       r ← poll_loop w operation (seq 0 max_attempts);
       match r with
       | Some early => mret early
       | None => mret (error_reply "Timeout" 504)
       end)
      (fun e => mret (error_reply (str_of_exn e) 500)).

End App.
Import BackgroundRemoval LifestyleShot App.

(** ** The specification's wording

  The definitions below follow the sentences of the specification, not
  the code; the theorems compare the two. *)

Module Spec.

(** §4.2, rule 3: what one element of [result] contributes. *)
Definition element_url (item : json) : option json :=
  match item with
  | JDict d =>
      match d !! "urls" with
      | Some (JList (first :: _)) => Some first
      | _ => d !! "url"
      end
  | JList (first :: _) => Some first
  | JStr _ => Some item
  | _ => None
  end.

(** §4.2: the four shapes in priority order, first match wins. *)
Definition extract_urls (data : json) : list json :=
  match data with
  | JDict d =>
      match d !! "result_urls" with
      | Some (JList l) => l
      | _ =>
          match d !! "result_url" with
          | Some u => [u]
          | None =>
              match d !! "result" with
              | Some (JList items) => omap element_url items
              | _ =>
                  match d !! "urls" with
                  | Some (JList l) => l
                  | _ => []
                  end
              end
          end
      end
  | _ => []
  end.

(** §3: [primaryUrl] is the first element of [urls] or null. *)
Definition primaryUrl (urls : list json) : json :=
  match urls with
  | first :: _ => first
  | [] => JNull
  end.

(** §4.4: the routes of the decision table. *)
Inductive route :=
| ExactComposition
| CreativeMerge
| TextOnly
| FallbackImage.

(** §4.4: the decision table, top to bottom.  [same] is the comparison
    of a scene description with the default prompt. *)
Definition decision_table (same : string -> string -> bool)
    (scene_description ref_image_data gemini_api_key : option string)
  : option route :=
  let present := truthy_opt scene_description in
  let is_default :=
    present && same (default EmptyString scene_description) DEFAULT_PROMPT in
  let custom := present && negb is_default in
  if (negb present || is_default) && truthy_opt ref_image_data
  then Some ExactComposition
  else if custom && truthy_opt ref_image_data && truthy_opt gemini_api_key
  then Some CreativeMerge
  else if present then Some TextOnly
  else if truthy_opt ref_image_data then Some FallbackImage
  else None.

(** "equals the fixed default studio prompt", read literally. *)
Definition same_literally : string -> string -> bool := String.eqb.

(** Equal once the white space around both is trimmed. *)
Definition same_trimmed (a b : string) : bool :=
  String.eqb (strip a) (strip b).

(** §4.1: "strip a single leading path separator if present". *)
Definition strip_single_separator (path : string) : string :=
  match path with
  | String c rest => if Ascii.eqb c "/"%char then rest else path
  | EmptyString => path
  end.

End Spec.

(** ** Reading traces and replies *)

Module Trace.

(** The provider calls of a trace, in order. *)
Definition posts (t : list event)
  : list (string * gmap string json * gmap string json) :=
  omap (fun e => match e with
                 | Post url headers data => Some (url, headers, data)
                 | _ => None
                 end) t.

Definition posted_urls (t : list event) : list string :=
  (fun p => fst (fst p)) <$> posts t.

Definition is_poll (e : event) : bool :=
  match e with Poll _ => true | _ => false end.

Definition is_sleep (e : event) : bool :=
  match e with Sleep _ => true | _ => false end.

(** The number of status checks of a trace. *)
Fixpoint polls (t : list event) : nat :=
  match t with
  | [] => O
  | Poll _ :: rest => S (polls rest)
  | _ :: rest => polls rest
  end.

(** [n] rounds of the poll loop: wait ten seconds, then check. *)
Fixpoint rounds (name : string) (n : nat) : list event :=
  match n with
  | O => []
  | S n' => Sleep 10 :: Poll name :: rounds name n'
  end.

(** A member of a JSON object. *)
Definition field (k : string) (b : json) : option json :=
  match b with
  | JDict d => d !! k
  | _ => None
  end.

End Trace.
Import Trace.

(** ** Sample worlds *)

Module Sample.

Definition respond (code : Z) (msg : string) (j : exc json) : response :=
  {| status_code := code; reason := msg; url := "https://provider.example/";
     text := msg; content := []; json_body := j |}.

Definition no_json : exc json := Raise (LibraryError "Expecting value").

Definition pending : op_status :=
  {| done := false; error := None; video_uri := Raise (LibraryError "no response") |}.

(** A world given by its provider, the web it downloads from, its file
    system, its vision model and its video operations; nothing else is
    available. *)
Definition world
    (provider : string -> exc response)
    (web : string -> exc response)
    (files : string -> option (list ascii))
    (model : string -> option image -> exc (exc string))
    (operations : nat -> exc op_status) : World :=
  {| BRIA_API_KEY := Some "bria-key";
     GOOGLE_API_KEY := Some "google-key";
     path_exists := fun p => bool_decide (is_Some (files p));
     read_file := fun p =>
       match files p with
       | Some raw => Ok raw
       | None => Raise (LibraryError "No such file")
       end;
     requests_post := fun url _ _ => provider url;
     requests_get := web;
     b64decode := fun _ => Raise (LibraryError "Incorrect padding");
     image_open_bytes := fun raw => Ok {| pixels := raw |};
     image_open_path := fun p =>
       match files p with
       | Some raw => Ok {| pixels := raw |}
       | None => Raise (LibraryError "No such file")
       end;
     genai_available := true;
     genai_configure := fun _ => Ok tt;
     generative_model := fun _ => Ok tt;
     generate_content := model;
     genai_client := fun _ => Ok tt;
     generate_videos := fun _ _ _ _ => Ok "operations/1";
     operations_get := fun _ i => operations i;
     generate_hd_image := fun _ _ _ _ _ => Raise (LibraryError "unavailable");
     create_packshot := fun _ _ _ => Raise (LibraryError "unavailable");
     add_shadow := fun _ _ _ => Raise (LibraryError "unavailable");
     py_int := fun v => match v with
                        | JInt n => Ok n
                        | JStr "5" => Ok 5
                        | _ => Raise (ValueError "invalid literal for int()")
                        end |}.

Definition no_web : string -> exc response :=
  fun _ => Raise (LibraryError "Connection refused").
Definition no_files : string -> option (list ascii) := fun _ => None.
Definition no_model : string -> option image -> exc (exc string) :=
  fun _ _ => Raise (LibraryError "model unavailable").
Definition no_operations : nat -> exc op_status :=
  fun _ => Raise (LibraryError "unknown operation").

(** A provider that answers every call with the same JSON document. *)
Definition answering (j : json) : World :=
  world (fun _ => Ok (respond 200 "ok" (Ok j))) no_web no_files no_model
    no_operations.

End Sample.

(** ** Shapes of provider responses *)

(** An element of [result] whose [urls] member, if it has one, is a
    list. *)
Definition urls_is_list (item : json) : Prop :=
  match item with
  | JDict d =>
      match d !! "urls" with
      | Some u => is_list u = true
      | None => True
      end
  | _ => True
  end.

Definition well_shaped (data : json) : Prop :=
  match data with
  | JDict d =>
      match d !! "result" with
      | Some (JList items) => Forall urls_is_list items
      | _ => True
      end
  | _ => True
  end.

(** ** Sample inputs *)

(** A provider answer whose only element gives [urls] as a text, not as
    a list. *)
Definition text_urls_answer : json :=
  JDict {[ "result" := JList [JDict {[ "urls" := JStr "https://cdn.example/a.png" ]}] ]}.

(** A provider answer whose only element has a null [urls]. *)
Definition null_urls_answer : json :=
  JDict {[ "result" := JList [JDict {[ "urls" := JNull ]}] ]}.

(** A provider answer with an empty [result_urls] beside a [result_url]. *)
Definition empty_list_answer : json :=
  JDict {[ "result_urls" := JList [];
           "result_url" := JStr "https://cdn.example/a.png" ]}.

(** A provider answer in the [result_urls] shape. *)
Definition two_urls_answer : json :=
  JDict {[ "result_urls" := JList [JStr "https://cdn.example/a.png";
                                   JStr "https://cdn.example/b.png"] ]}.

(** A background-removal request by URL. *)
Definition remove_bg_form : gmap string string :=
  {[ "operation" := "remove_bg"; "image_url" := "https://shop.example/p.png" ]}.

(** ** Provider answers *)

(** The call returned a response with status 400. *)
Definition answers_400 (r : exc response) : bool :=
  match r with
  | Ok resp => status_code resp =? 400
  | Raise _ => false
  end.

(** The call returned a response with status 200 and the JSON body [j]. *)
Definition answers_200 (r : exc response) (j : json) : Prop :=
  exists resp, r = Ok resp /\ status_code resp = 200 /\ json_body resp = Ok j.

(** A provider that answers 400 on every endpoint. *)
Definition refusing : World :=
  Sample.world (fun _ => Ok (Sample.respond 400 "bad request" Sample.no_json))
    Sample.no_web Sample.no_files Sample.no_model Sample.no_operations.

(** A provider that answers 400 on the first two endpoints and 200 on
    the third. *)
Definition third_time_lucky : World :=
  Sample.world
    (fun url =>
       if String.eqb url alt_url_v2
       then Ok (Sample.respond 200 "ok" (Ok two_urls_answer))
       else Ok (Sample.respond 400 "bad request" Sample.no_json))
    Sample.no_web Sample.no_files Sample.no_model Sample.no_operations.

(** ** Reading the video poller's trace *)

(** The time a trace spends asleep. *)
Fixpoint slept (t : list event) : Z :=
  match t with
  | [] => 0
  | Sleep seconds :: rest => seconds + slept rest
  | _ :: rest => slept rest
  end.

(** Neither a status check nor a wait. *)
Definition idle (e : event) : bool := negb (is_poll e) && negb (is_sleep e).

(** No status check of the operation [name] in [range] reports
    completion. *)
Definition never_done (w : World) (name : string) (range : list nat) : Prop :=
  Forall (fun i => exists st, operations_get w name i = Ok st /\ done st = false)
         range.

(** A video request with a picture and a prompt. *)
Definition video_request : gmap string json :=
  {[ "image_url" := JStr "https://shop.example/p.png";
     "prompt" := JStr "slow pan around the product" ]}.

(** A world whose video operation stays pending. *)
Definition stalled : World :=
  Sample.world (fun _ => Raise (LibraryError "Connection refused"))
    (fun _ => Ok (Sample.respond 200 "ok" Sample.no_json))
    Sample.no_files Sample.no_model (fun _ => Ok Sample.pending).

(** ** Local paths *)

(** A file system with the single file [a.png]. *)
Definition shelf : World :=
  Sample.world (fun _ => Raise (LibraryError "Connection refused")) Sample.no_web
    (fun p => if String.eqb p "a.png"
              then Some (list_ascii_of_string "Man") else None)
    Sample.no_model Sample.no_operations.

(** ** Failures of the prompt merger *)

(** The reference image cannot be fetched, decoded or opened. *)
Definition load_failure (w : World) (ref_image_data : string) : Prop :=
  if startswith ref_image_data "data:image"
  then
    match split_comma_1_snd ref_image_data with
    | Raise _ => True
    | Ok base64_data =>
        match b64decode w base64_data with
        | Raise _ => True
        | Ok raw => raises (image_open_bytes w raw)
        end
    end
  else if startswith ref_image_data "http"
  then
    match requests_get w ref_image_data with
    | Raise _ => True
    | Ok response => raises (image_open_bytes w (content response))
    end
  else if path_exists w ref_image_data
  then raises (image_open_path w ref_image_data)
  else False.

(** The model call fails, whatever picture it is given. *)
Definition model_failure (w : World) (user_prompt : string) (img : option image)
  : Prop :=
  match generate_content w (prompt_text user_prompt) img with
  | Raise _ => True
  | Ok response => raises response
  end.

(** A failure of the merge: no key, no library, or an error while setting
    up the model, loading the reference image or calling the model. *)
Definition merge_failure (w : World) (gemini_api_key : option string)
    (ref_image_data user_prompt : string) : Prop :=
  truthy_opt gemini_api_key = false
  \/ genai_available w = false
  \/ raises (genai_configure w (default EmptyString gemini_api_key))
  \/ raises (generative_model w "gemini-1.5-pro")
  \/ load_failure w ref_image_data
  \/ (exists img, outcome (load_reference w ref_image_data) = Ok img
                  /\ model_failure w user_prompt img).

(** A world whose vision model answers with a padded line. *)
Definition describing : World :=
  Sample.world (fun _ => Raise (LibraryError "Connection refused")) Sample.no_web
    Sample.no_files
    (fun _ _ => Ok (Ok "  a bottle on a rustic wooden table, soft bokeh
"))
    Sample.no_operations.

(** ** Requests of the route selector *)

(** The body carries the resolved picture [kv] under [file_key] when it
    is inline and under [url_key] otherwise, and not under the other
    key. *)
Definition carries_image (file_key url_key : string)
    (kv : option string * option string) (data : gmap string json) : Prop :=
  if bool_decide (fst kv = Some "file")
  then data !! file_key = Some (json_of_opt (snd kv)) /\ data !! url_key = None
  else data !! url_key = Some (json_of_opt (snd kv)) /\ data !! file_key = None.

(** What §4.4 says is called on a route: the endpoint, and in the body the
    product image with the reference image (by-image routes), the merged
    prompt (Creative Merge) or the scene description (Text Only). *)
Definition route_request (w : World) (r : Spec.route)
    (image_data ref_image_data scene_description gemini_api_key : option string)
    (url : string) (data : gmap string json) : Prop :=
  (exists prod, outcome (_prepare_image w image_data) = Ok prod
                /\ carries_image "file" "image_url" prod data)
  /\ match r with
     | Spec.ExactComposition | Spec.FallbackImage =>
         url = by_image_url
         /\ truthy_opt ref_image_data = true
         /\ (exists ref, outcome (_prepare_image w ref_image_data) = Ok ref
                         /\ carries_image "ref_image_file" "ref_image_url" ref data)
         /\ data !! "scene_description" = None
     | Spec.CreativeMerge =>
         url = by_text_url
         /\ exists merged,
              outcome (merge_vision_and_prompt w gemini_api_key
                         (default EmptyString ref_image_data)
                         (default EmptyString scene_description)) = Ok merged
              /\ data !! "scene_description" = Some (JStr merged)
     | Spec.TextOnly =>
         url = by_text_url
         /\ data !! "scene_description" = Some (json_of_opt scene_description)
     end.

(** The body the selector starts from (lines 216-224). *)
Definition base_data (prod : option string * option string)
    (num_results : Z) (sync force_rmbg content_moderation : bool)
  : gmap string json :=
  put_image "file" "image_url" prod
    {[ "num_results" := JInt num_results;
       "sync" := JBool sync;
       "force_rmbg" := JBool force_rmbg;
       "content_moderation" := JBool content_moderation ]}.

(** The default prompt followed by a space. *)
Definition padded_default : string := DEFAULT_PROMPT ++ " ".

(** A product image as base64 text and a reference image by URL. *)
Definition product_b64 : string := "aGVsbG8gd29ybGQ=".
Definition template_url : string := "https://shop.example/template.png".

(** A world with a provider, a reachable web and a vision model. *)
Definition studio : World :=
  Sample.world (fun _ => Ok (Sample.respond 200 "ok" (Ok two_urls_answer)))
    (fun _ => Ok (Sample.respond 200 "ok" Sample.no_json))
    Sample.no_files
    (fun _ _ => Ok (Ok "  a bottle on a rustic wooden table, soft bokeh
"))
    Sample.no_operations.

(** ** Further predicates and sample inputs *)

(** The character occurs in the text. *)
Fixpoint mentions (c : ascii) (s : string) : bool :=
  match s with
  | EmptyString => false
  | String a rest => Ascii.eqb a c || mentions c rest
  end.

(** A status for which [raise_for_status] raises. *)
Definition is_http_error (code : Z) : bool := (400 <=? code) && (code <? 600).

(** The downloads of a trace, in order. *)
Definition gets (t : list event) : list string :=
  omap (fun e => match e with Get url => Some url | _ => None end) t.

(** A provider answer in the [result] shape, with elements of every
    kind. *)
Definition mixed_answer : json :=
  JDict {[ "result" := JList [
             JDict {[ "urls" := JList [JStr "https://cdn.example/a.png";
                                       JStr "https://cdn.example/b.png"] ]};
             JDict {[ "url" := JStr "https://cdn.example/c.png" ]};
             JList [JStr "https://cdn.example/d.png"; JStr "seed"];
             JStr "https://cdn.example/e.png";
             JInt 7;
             JDict {[ "urls" := JList [] ]} ];
           "urls" := JList [JStr "https://cdn.example/ignored.png"] ]}.

(** A provider that answers 422 with a JSON error body. *)
Definition rejecting : World :=
  Sample.world
    (fun _ => Ok (Sample.respond 422 "Unprocessable Entity"
                    (Ok (JDict {[ "message" := JStr "image too small" ]}))))
    Sample.no_web Sample.no_files Sample.no_model Sample.no_operations.

(** The exception carries a response ([e.response] is not [None]). *)
Definition carries_response (e : exn) : bool :=
  match e with
  | HTTPError _ _ _ _ => true
  | _ => false
  end.

(** A web that serves one picture. *)
Definition serving : World :=
  Sample.world (fun _ => Raise (LibraryError "Connection refused"))
    (fun u => if String.eqb u "https://shop.example/p.png"
              then Ok {| status_code := 200; reason := "OK"; url := u;
                         text := "Man"; content := list_ascii_of_string "Man";
                         json_body := Sample.no_json |}
              else Ok (Sample.respond 404 "Not Found" Sample.no_json))
    Sample.no_files Sample.no_model Sample.no_operations.

(** An upload named [name] with the bytes [raw]. *)
Definition upload (name : string) (raw : list ascii) : option file_storage :=
  Some {| filename := name; stream := raw |}.

(** A request by URL for an operation the route does not have. *)
Definition upscale_form : gmap string string :=
  {[ "operation" := "upscale"; "image_url" := "https://shop.example/p.png" ]}.

(** The form names one of the four operations of the route. *)
Definition known_operation (operation : option string) : bool :=
  bool_decide (operation = Some "remove_bg")
  || bool_decide (operation = Some "packshot")
  || bool_decide (operation = Some "shadow")
  || bool_decide (operation = Some "lifestyle").

(** A background-removal request by upload. *)
Definition upload_form : gmap string string := {[ "operation" := "remove_bg" ]}.

(** The reference image the photography route hands to
    [generate_product_shot] (lines 144-154 of [app.py]). *)
Definition form_reference (form : gmap string string) : option string :=
  let ref_url := form !! "ref_url" in
  let ref_url :=
    if truthy_opt ref_url
       && startswith (default EmptyString ref_url) "/assets/templates/"
    then Some (lstrip_char "/"%char (default EmptyString ref_url))
    else ref_url in
  if truthy_opt ref_url then ref_url else None.

(** The reply of the photography route to what [generate_product_shot]
    returned (lines 160-170 of [app.py]). *)
Definition lifestyle_reply (result : json) : reply :=
  match result with
  | JDict d =>
      if contains d "error"
      then {| body := result; status := default (JInt 500) (d !! "status_code") |}
      else match respond_photography result with
           | Ok r => r
           | Raise e => error_reply (str_of_exn e) 500
           end
  | _ => match respond_photography result with
         | Ok r => r
         | Raise e => error_reply (str_of_exn e) 500
         end
  end.

(** The value a run returned, if it returned. *)
Definition outcome_value {A} (m : io A) : option A :=
  match outcome m with
  | Ok a => Some a
  | Raise _ => None
  end.

(** A lifestyle request with a prompt. *)
Definition lifestyle_form : gmap string string :=
  {[ "operation" := "lifestyle"; "prompt" := "on a rustic table" ]}.

(** A provider that answers 200 with an error payload. *)
Definition complaining : World :=
  Sample.answering (JDict {[ "error" := JStr "quota exceeded" ]}).

(** A lifestyle request with a template and no prompt. *)
Definition template_form : gmap string string :=
  {[ "operation" := "lifestyle"; "ref_url" := "https://shop.example/template.png" ]}.

(** A status that reports completion with the video at [uri]. *)
Definition finished (uri : string) : op_status :=
  {| done := true; error := None; video_uri := Ok uri |}.

(** A status that reports completion with an error. *)
Definition failed (detail : string) : op_status :=
  {| done := true; error := Some detail;
     video_uri := Raise (LibraryError "no response") |}.

(** A world whose video operation completes at the fourth status check. *)
Definition rendering : World :=
  Sample.world (fun _ => Raise (LibraryError "Connection refused"))
    (fun _ => Ok (Sample.respond 200 "ok" Sample.no_json))
    Sample.no_files Sample.no_model
    (fun i => if (i <? 3)%nat then Ok Sample.pending
              else Ok (finished "https://video.example/v.mp4")).

(** A world whose video operation fails at the second status check. *)
Definition crashing : World :=
  Sample.world (fun _ => Raise (LibraryError "Connection refused"))
    (fun _ => Ok (Sample.respond 200 "ok" Sample.no_json))
    Sample.no_files Sample.no_model
    (fun i => if (i <? 1)%nat then Ok Sample.pending
              else Ok (failed "quota exceeded")).

(** ** [services/lifestyle_shot.py]: the two single-purpose clients *)

Module LifestyleClients.

Definition json_ints (l : list Z) : json := JList (JInt <$> l).
Definition json_strs (l : list string) : json := JList (JStr <$> l).

(** Truth value of an optional list. *)
Definition truthy_list {A} (o : option (list A)) : bool :=
  match o with
  | Some (_ :: _) => true
  | _ => false
  end.

(** The placement parameters, added to the body by placement type
    (lines 136-149 of [lifestyle_shot_by_text], and the same lines 355-368
    of [lifestyle_shot_by_image]). *)
Definition with_placement (placement_type : string) (shot_size : list Z)
    (manual_placement_selection : list string) (padding_values : list Z)
    (foreground_image_size foreground_image_location : option (list Z))
    (data : gmap string json) : gmap string json :=
  let data :=
    if bool_decide (placement_type ∈ ["automatic"; "manual_placement";
                                      "custom_coordinates"])
    then <["shot_size" := json_ints shot_size]> data else data in
  let data :=
    if bool_decide (placement_type = "manual_placement")
    then <["manual_placement_selection" := json_strs manual_placement_selection]> data
    else data in
  let data :=
    if bool_decide (placement_type = "manual_padding")
    then <["padding_values" := json_ints padding_values]> data else data in
  if bool_decide (placement_type = "custom_coordinates")
  then
    let data :=
      if truthy_list foreground_image_size
      then <["foreground_image_size" :=
               json_ints (default [] foreground_image_size)]> data
      else data in
    if truthy_list foreground_image_location
    then <["foreground_image_location" :=
             json_ints (default [] foreground_image_location)]> data
    else data
  else data.

(** [if sku: data['sku'] = sku] *)
Definition with_sku (sku : option string) (data : gmap string json)
  : gmap string json :=
  if truthy_opt sku then <["sku" := json_of_opt sku]> data else data.

(** Lines 115-152 of [lifestyle_shot_by_text]: the request body. *)
Definition by_text_data (image_data : list ascii)
    (scene_description placement_type : string) (num_results : Z)
    (sync fast optimize_description original_quality : bool)
    (exclude_elements : option string) (shot_size : list Z)
    (manual_placement_selection : list string) (padding_values : list Z)
    (foreground_image_size foreground_image_location : option (list Z))
    (force_rmbg content_moderation : bool) (sku : option string)
  : gmap string json :=
  let image_base64 := Base64.b64encode image_data in
  let data : gmap string json :=
    {[ "file" := JStr image_base64;
       "scene_description" := JStr scene_description;
       "placement_type" := JStr placement_type;
       "num_results" := JInt num_results;
       "sync" := JBool sync;
       "fast" := JBool fast;
       "optimize_description" := JBool optimize_description;
       "original_quality" := JBool original_quality;
       "force_rmbg" := JBool force_rmbg;
       "content_moderation" := JBool content_moderation ]} in
  let data :=
    if truthy_opt exclude_elements && negb fast
    then <["exclude_elements" := json_of_opt exclude_elements]> data
    else data in
  let data :=
    with_placement placement_type shot_size manual_placement_selection
      padding_values foreground_image_size foreground_image_location data in
  with_sku sku data.

(** Lines 154-167 and 373-386: the call, with every failure raised again
    as one [Exception]. *)
Definition call (w : World) (url : string) (headers data : gmap string json)
  : io json :=
  try_io
    (_ ← print ("Making request to: " ++ url);
     response ← post w url headers data;
     _ ← lift (raise_for_status response);
     _ ← print ("Response status: " ++ pretty (status_code response));
     lift (json_body response))
    (fun e =>
       raise (Exception ("Lifestyle shot generation failed: " ++ str_of_exn e))).

Definition lifestyle_shot_by_text (w : World) (api_key : option string)
    (image_data : list ascii) (scene_description placement_type : string)
    (num_results : Z) (sync fast optimize_description original_quality : bool)
    (exclude_elements : option string) (shot_size : list Z)
    (manual_placement_selection : list string) (padding_values : list Z)
    (foreground_image_size foreground_image_location : option (list Z))
    (force_rmbg content_moderation : bool) (sku : option string) : io json :=
  call w by_text_url (headers_of api_key)
    (by_text_data image_data scene_description placement_type num_results
       sync fast optimize_description original_quality exclude_elements
       shot_size manual_placement_selection padding_values
       foreground_image_size foreground_image_location force_rmbg
       content_moderation sku).

(** Lines 336-371 of [lifestyle_shot_by_image]: the request body.
    [ref_image_influence] is a number, kept as the JSON value it is sent
    as. *)
Definition by_image_data (image_data reference_image : list ascii)
    (placement_type : string) (num_results : Z)
    (sync original_quality : bool) (shot_size : list Z)
    (manual_placement_selection : list string) (padding_values : list Z)
    (foreground_image_size foreground_image_location : option (list Z))
    (force_rmbg content_moderation : bool) (sku : option string)
    (enhance_ref_image : bool) (ref_image_influence : json)
  : gmap string json :=
  let image_base64 := Base64.b64encode image_data in
  let reference_base64 := Base64.b64encode reference_image in
  let data : gmap string json :=
    {[ "file" := JStr image_base64;
       "ref_image_file" := JStr reference_base64;
       "placement_type" := JStr placement_type;
       "num_results" := JInt num_results;
       "sync" := JBool sync;
       "original_quality" := JBool original_quality;
       "force_rmbg" := JBool force_rmbg;
       "content_moderation" := JBool content_moderation;
       "enhance_ref_image" := JBool enhance_ref_image;
       "ref_image_influence" := ref_image_influence ]} in
  let data :=
    with_placement placement_type shot_size manual_placement_selection
      padding_values foreground_image_size foreground_image_location data in
  with_sku sku data.

Definition lifestyle_shot_by_image (w : World) (api_key : option string)
    (image_data reference_image : list ascii) (placement_type : string)
    (num_results : Z) (sync original_quality : bool) (shot_size : list Z)
    (manual_placement_selection : list string) (padding_values : list Z)
    (foreground_image_size foreground_image_location : option (list Z))
    (force_rmbg content_moderation : bool) (sku : option string)
    (enhance_ref_image : bool) (ref_image_influence : json) : io json :=
  call w by_image_url (headers_of api_key)
    (by_image_data image_data reference_image placement_type num_results
       sync original_quality shot_size manual_placement_selection
       padding_values foreground_image_size foreground_image_location
       force_rmbg content_moderation sku enhance_ref_image
       ref_image_influence).

End LifestyleClients.
Import LifestyleClients.

(** The placement keys of a request body. *)
Definition placement_keys : list string :=
  ["shot_size"; "manual_placement_selection"; "padding_values";
   "foreground_image_size"; "foreground_image_location"].

(** A manual placement of a product, and a padded one. *)
Definition manual_body : gmap string json :=
  by_text_data (list_ascii_of_string "Man") "on a rustic table"
    "manual_placement" 4 true true true false (Some "people") [1000; 1000]
    ["upper_left"] [0; 0; 0; 0] None None false false None.

Definition padded_body : gmap string json :=
  by_text_data (list_ascii_of_string "Man") "on a rustic table"
    "manual_padding" 4 true false true false (Some "people") [1000; 1000]
    ["upper_left"] [10; 10; 0; 0] (Some [100; 100]) None false false
    (Some "SKU-1").

(** ** What the video services and the remaining routes use *)

(** A Python value handed over as an image: [bytes], or any other value
    ([None], a [str], ...) as the JSON value it would be sent as.  Objects
    with a [read] method are not modelled. *)
Inductive image_arg :=
| Bytes (raw : list ascii)
| Value (v : json).

(** The builtins and libraries used beyond those of [World]: [str] of a
    value that is not a [str], [os.environ], the Replicate client (which
    reads its token from the environment), the overlay drawn with PIL, the
    prompt enhancement service and the writing of a file. *)
Record Runtime := {
  str_json : json -> string;
  setenv : string -> string -> exc unit;
  replicate_run : string -> string -> image_arg -> gmap string json -> exc json;
  add_cta_to_image : list ascii -> json -> json -> exc (list ascii);
  enhance_prompt : option string -> json -> exc json;
  write_file : string -> list ascii -> exc unit
}.

Module Builtins.

(** [AttributeError] is told from other exceptions by no handler of the
    program: it is an exception with a text. *)
Definition AttributeError (msg : string) : exn := LibraryError msg.

(** [type(v).__name__] *)
Definition type_name (v : json) : string :=
  match v with
  | JNull => "NoneType"
  | JBool _ => "bool"
  | JInt _ => "int"
  | JFloat _ _ => "float"
  | JStr _ => "str"
  | JList _ => "list"
  | JDict _ => "dict"
  end.

(** [v.get(k, d)] on a value that may not be a [dict]. *)
Definition attr_get (v : json) (k : string) (d : json) : exc json :=
  match v with
  | JDict m => Ok (default d (m !! k))
  | _ => Raise (AttributeError ("'" ++ type_name v
                                ++ "' object has no attribute 'get'"))
  end.

(** [str(v)], [f"{v}"] *)
Definition py_str (h : Runtime) (v : json) : string :=
  match v with
  | JStr s => s
  | _ => str_json h v
  end.

(** [f"{o}"] for [o] a [str] or [None]. *)
Definition format_opt (o : option string) : string :=
  match o with
  | Some s => s
  | None => "None"
  end.

(** [p in s] for two texts. *)
Fixpoint substring_of (p s : string) : bool :=
  String.prefix p s
  || match s with
     | EmptyString => false
     | String _ rest => substring_of p rest
     end.

(** [s.lower()] on code points below 256. *)
Definition lower_char (c : ascii) : ascii :=
  let n := N_of_ascii c in
  if ((65 <=? n) && (n <=? 90)
      || (192 <=? n) && (n <=? 222) && negb (n =? 215))%N
  then ascii_of_N (n + 32)
  else c.

Fixpoint lower (s : string) : string :=
  match s with
  | EmptyString => EmptyString
  | String c rest => String (lower_char c) (lower rest)
  end.

(** Truth value of an image argument. *)
Definition arg_truthy (a : image_arg) : bool :=
  match a with
  | Bytes raw => truthy_bytes raw
  | Value v => json_truthy v
  end.

End Builtins.
Import Builtins.

(** ** [utils/image_utils.py] *)

Module ImageUtils.

Definition image_to_base64 (w : World) (image_input : image_arg)
  : exc (option string) :=
  if negb (arg_truthy image_input) then Ok None
  else
    match image_input with
    | Bytes raw => Ok (Some (Base64.b64encode raw))
    | Value (JStr path) =>
        if path_exists w path
        then raw ← read_file w path; Ok (Some (Base64.b64encode raw))
        else Ok None
    | Value _ => Ok None
    end.

End ImageUtils.

(** ** [services/video_generator.py] *)

Module VideoGenerator.

Definition model_name : string := "wavespeedai/wan-2.1-i2v-480p".

Definition default_prompt : string := "cinematic product ad video".

(** The [input] of [replicate.run] apart from the image (lines 35-41). *)
Definition run_input (prompt : option string) : gmap string json :=
  {[ "prompt" := JStr (if truthy_opt prompt
                       then default EmptyString prompt
                       else default_prompt);
     "fast_mode" := JStr "Balanced";
     "aspect_ratio" := JStr "16:9";
     "fps" := JInt 16 ]}.

Definition no_output : gmap string json :=
  {[ "error" := JStr "No output URL returned from Replicate." ]}.

Definition content_filter : gmap string json :=
  {[ "error" := JStr "❌ **Content Filter Triggered**: Replicate safety filters flagged the content." ]}.

Definition authentication_failed : gmap string json :=
  {[ "error" := JStr "❌ **Authentication Failed**: Please check your Replicate API Token." ]}.

(** Lines 53-59: the handler. *)
Definition explain (e : exn) : gmap string json :=
  let error_str := str_of_exn e in
  if substring_of "NSFW" error_str then content_filter
  else if substring_of "authentication" (lower error_str)
  then authentication_failed
  else {[ "error" := JStr ("Failed to generate video (Replicate): "
                           ++ error_str) ]}.

Definition generate_video_with_replicate (h : Runtime) (api_token : string)
    (image_data : image_arg) (prompt : option string)
  : io (gmap string json) :=
  try_io
    (_ ← lift (setenv h "REPLICATE_API_TOKEN" api_token);
     let image_input := image_data in
     _ ← print "🎬 Starting Replicate generation (Wan 2.1)...";
     output ← lift (replicate_run h api_token model_name image_input
                      (run_input prompt));
     if negb (json_truthy output)
     then mret no_output
     else mret ({[ "video_url" := output; "video_data" := output ]}
                : gmap string json))
    (fun e => mret (explain e)).

End VideoGenerator.

(** ** [services/puter_video.py] *)

Module PuterVideo.

Definition signup_url : string := "https://puter.com/signup".

Definition signup_headers : gmap string json :=
  {[ "User-Agent" := JStr "Mozilla/5.0 (Windows NT 10.0; Win64; x64) AppleWebKit/537.36 (KHTML, like Gecko) Chrome/120.0.0.0 Safari/537.36";
     "Origin" := JStr "https://puter.com";
     "Referer" := JStr "https://puter.com/" ]}.

Definition signup_body : gmap string json := {[ "is_temp" := JBool true ]}.

Definition driver_url : string := "https://api.puter.com/drivers/call".

(** The token, or [None].  (The timeouts of the two calls are not part of
    the trace.) *)
Definition get_puter_token (w : World) : io json :=
  try_io
    (response ← post w signup_url signup_headers signup_body;
     _ ← lift (raise_for_status response);
     data ← lift (json_body response);
     lift (attr_get data "token" JNull))
    (fun e =>
       _ ← print ("Error getting Puter token: " ++ str_of_exn e);
       mret JNull).

Definition not_authenticated : gmap string json :=
  {[ "error" := JStr "Failed to authenticate with Puter.js (Temporary signup failed)." ]}.

(** Lines 58-72: the [image_url] of the call. *)
Definition prepare_image (w : World) (image_data : image_arg) : exc json :=
  match image_data with
  | Bytes raw =>
      Ok (JStr ("data:image/png;base64," ++ Base64.b64encode raw))
  | Value (JStr s) =>
      if negb (startswith s "http")
      then
        if path_exists w s
        then
          img_b64 ← ImageUtils.image_to_base64 w image_data;
          Ok (JStr ("data:image/png;base64," ++ format_opt img_b64))
        else Ok (JStr s)
      else Ok (JStr s)
  | Value v => Ok v
  end.

Definition driver_headers (h : Runtime) (token : json) : gmap string json :=
  {[ "Authorization" := JStr ("Bearer " ++ py_str h token);
     "Content-Type" := JStr "application/json" ]}.

Definition payload (prompt model : string) (image_url : json)
    (test_mode : bool) : gmap string json :=
  {[ "interface" := JStr "puter-txt2vid";
     "driver" := JStr "openai-txt2vid";
     "method" := JStr "txt2vid";
     "args" := JDict {[ "prompt" := JStr prompt;
                        "model" := JStr model;
                        "image_url" := image_url;
                        "test_mode" := JBool test_mode ]} ]}.

Definition video (v : json) : gmap string json := {[ "video_url" := v ]}.

Definition failure (msg : string) : gmap string json :=
  {[ "error" := JStr msg ]}.

(** Lines 116-123: what is returned when [result] gave no URL. *)
Definition read_direct (h : Runtime) (result : json) : gmap string json :=
  match result with
  | JDict d =>
      if contains d "url" then video (dict_get d "url")
      else if contains d "error"
      then failure ("Puter API Error: " ++ py_str h (dict_get d "error"))
      else failure ("Unexpected response format from Puter: "
                    ++ py_str h result)
  | _ => failure ("Unexpected response format from Puter: " ++ py_str h result)
  end.

(** Lines 107-123. *)
Definition read_result (h : Runtime) (result : json) : gmap string json :=
  match result with
  | JDict d =>
      match d !! "result" with
      | Some (JStr inner_result) =>
          if startswith inner_result "http"
             || startswith inner_result "data:video"
          then video (JStr inner_result)
          else read_direct h result
      | Some (JDict inner_result) =>
          if contains inner_result "url"
          then video (dict_get inner_result "url")
          else read_direct h result
      | _ => read_direct h result
      end
  | _ => read_direct h result
  end.

(** Lines 126-130: the message of an HTTP error. *)
Definition http_error_message (e : exn) : json :=
  let fallback := JStr (str_of_exn e) in
  match e with
  | HTTPError _ _ _ (Some err_data) =>
      match attr_get err_data "error" (JDict ∅) with
      | Ok inner =>
          match attr_get inner "message" fallback with
          | Ok err_msg => err_msg
          | Raise _ => fallback
          end
      | Raise _ => fallback
      end
  | _ => fallback
  end.

(** Lines 125-133: the two handlers. *)
Definition explain (h : Runtime) (e : exn) : gmap string json :=
  match e with
  | HTTPError _ _ _ _ =>
      failure ("Puter API HTTP Error: " ++ py_str h (http_error_message e))
  | _ => failure ("Failed to generate video with Puter: " ++ str_of_exn e)
  end.

(** Lines 94-133. *)
Definition call_driver (w : World) (h : Runtime) (token : json)
    (prompt model : string) (image_url : json) (test_mode : bool)
  : io (gmap string json) :=
  try_io
    (_ ← print ("🎬 Calling Puter.js driver: " ++ model ++ "...");
     response ← post w driver_url (driver_headers h token)
                  (payload prompt model image_url test_mode);
     _ ← lift (raise_for_status response);
     result ← lift (json_body response);
     mret (read_result h result))
    (fun e => mret (explain h e)).

Definition generate_video_with_puter (w : World) (h : Runtime)
    (image_data : image_arg) (prompt model : string) (test_mode : bool)
  : io (gmap string json) :=
  token ← get_puter_token w;
  if negb (json_truthy token) then mret not_authenticated
  else
    match prepare_image w image_data with
    | Raise e =>
        mret (failure ("Failed to process image data: " ++ str_of_exn e))
    | Ok image_url => call_driver w h token prompt model image_url test_mode
    end.

End PuterVideo.

(** ** [app.py]: the overlay and prompt routes *)

Module Routes.

(** Lines 176-190. *)
Definition api_cta_overlay (w : World) (h : Runtime)
    (request_json : gmap string json) : io reply :=
  let image_url := dict_get request_json "image_url" in
  let headline := default (JStr EmptyString) (request_json !! "headline") in
  let subheadline :=
    default (JStr EmptyString) (request_json !! "subheadline") in
  img_bytes ← download_image w image_url;
  if negb (truthy_bytes (default [] img_bytes))
  then mret (error_reply "Failed to get image" 400)
  else
    try_io
      (result_bytes ← lift (add_cta_to_image h (default [] img_bytes)
                              headline subheadline);
       let b64 := Base64.b64encode result_bytes in
       mret {| body := JDict {[ "result_b64" :=
                                  JStr ("data:image/png;base64," ++ b64) ]};
               status := JInt 200 |})
      (fun e => mret (error_reply (str_of_exn e) 500)).

(** Lines 106-115. *)
Definition api_enhance (w : World) (h : Runtime)
    (request_json : gmap string json) : io reply :=
  let prompt := dict_get request_json "prompt" in
  try_io
    (result ← lift (enhance_prompt h (BRIA_API_KEY w) prompt);
     mret {| body := JDict {[ "enhanced_prompt" := result ]};
             status := JInt 200 |})
    (fun e => mret (error_reply (str_of_exn e) 500)).

End Routes.

(** ** Sample runtimes and Puter worlds *)

(** A runtime with none of the services. *)
Definition plain : Runtime :=
  {| str_json := fun _ => "<value>";
     setenv := fun _ _ => Ok tt;
     replicate_run := fun _ _ _ _ => Raise (LibraryError "unavailable");
     add_cta_to_image := fun raw _ _ => Ok raw;
     enhance_prompt := fun _ prompt => Ok prompt;
     write_file := fun _ _ => Ok tt |}.

(** A Puter whose signup gives the token [tok] and whose driver answers
    [driver]. *)
Definition puter (driver : exc response) : World :=
  Sample.world
    (fun url =>
       if String.eqb url PuterVideo.signup_url
       then Ok (Sample.respond 200 "OK" (Ok (JDict {[ "token" := JStr "tok" ]})))
       else driver)
    Sample.no_web Sample.no_files Sample.no_model Sample.no_operations.

(** A driver answer with a video, and one that refuses. *)
Definition rendered : exc response :=
  Ok (Sample.respond 200 "OK"
        (Ok (JDict {[ "result" := JDict {[ "url" := JStr "https://puter.example/v.mp4" ]};
                      "error" := JStr "ignored" ]}))).

Definition overloaded : exc response :=
  Ok (Sample.respond 429 "Too Many Requests"
        (Ok (JDict {[ "error" := JDict {[ "message" := JStr "rate limit" ]} ]}))).

(** The signup call. *)
Definition signup_call : string * gmap string json * gmap string json :=
  (PuterVideo.signup_url, PuterVideo.signup_headers, PuterVideo.signup_body).

(** The [message] member of the [error] object of a JSON object. *)
Definition nested_message (document : exc json) : option json :=
  match document with
  | Ok (JDict d) =>
      match d !! "error" with
      | Some (JDict inner) => inner !! "message"
      | _ => None
      end
  | _ => None
  end.

(** The data URI of a PNG. *)
Definition png_uri (raw : list ascii) : json :=
  JStr ("data:image/png;base64," ++ Base64.b64encode raw).

(** The driver call for an image. *)
Definition driver_call (h : Runtime) (token : json) (prompt model : string)
    (image_url : json) (test_mode : bool)
  : string * gmap string json * gmap string json :=
  (PuterVideo.driver_url, PuterVideo.driver_headers h token,
   PuterVideo.payload prompt model image_url test_mode).

(** A Replicate that refuses the token, and one that renders. *)
Definition unauthorized : Runtime :=
  {| str_json := fun _ => "<value>";
     setenv := fun _ _ => Ok tt;
     replicate_run := fun _ _ _ _ =>
       Raise (LibraryError "Invalid Authentication token");
     add_cta_to_image := fun raw _ _ => Ok raw;
     enhance_prompt := fun _ prompt => Ok prompt;
     write_file := fun _ _ => Ok tt |}.

Definition replicating : Runtime :=
  {| str_json := fun _ => "<value>";
     setenv := fun _ _ => Ok tt;
     replicate_run := fun _ _ _ input =>
       Ok (JList [JStr "https://replicate.example/v.mp4";
                  default JNull (input !! "prompt")]);
     add_cta_to_image := fun raw _ _ => Ok raw;
     enhance_prompt := fun _ prompt => Ok prompt;
     write_file := fun _ _ => Ok tt |}.

(** An overlay request for the one picture of [serving]. *)
Definition overlay_request : gmap string json :=
  {[ "image_url" := JStr "https://shop.example/p.png";
     "headline" := JStr "Summer sale" ]}.

(** ** [fix_logo.py] *)

Module FixLogo.

Definition logo_path : string :=
  "c:\Projects 2025\adsnap\adsnap-flask-pro\static\rapid-logo.png".

(** [k in v] for a text [k]. *)
Definition py_in (k : string) (v : json) : exc bool :=
  match v with
  | JDict d => Ok (contains d k)
  | JList l =>
      Ok (existsb (fun x => match x with
                            | JStr s => String.eqb s k
                            | _ => false
                            end) l)
  | JStr s => Ok (substring_of k s)
  | JNull | JBool _ | JInt _ | JFloat _ _ =>
      Raise (TypeError ("argument of type '" ++ type_name v
                        ++ "' is not iterable"))
  end.

(** [v[k]] for a text [k]. *)
Definition py_getitem (v : json) (k : string) : exc json :=
  match v with
  | JDict d => getitem d k
  | JList _ =>
      Raise (TypeError "list indices must be integers or slices, not str")
  | JStr _ => Raise (TypeError "string indices must be integers, not 'str'")
  | JNull | JBool _ | JInt _ | JFloat _ _ =>
      Raise (TypeError ("'" ++ type_name v ++ "' object is not subscriptable"))
  end.

(** Lines 17-28.  The result is the bytes written to the logo file, or
    [None] when the file is left as it was.  ([requests] refuses a URL that
    is not a text.) *)
Definition replace_logo (w : World) (h : Runtime) (result : json)
  : io (option (list ascii)) :=
  found ← lift (py_in "result_url" result);
  if found : bool
  then
    url ← lift (py_getitem result "result_url");
    _ ← print ("Success! Result URL: " ++ py_str h url);
    resp ←
      match url with
      | JStr u => get w u
      | _ => raise (LibraryError "Invalid URL")
      end;
    if status_code resp =? 200
    then
      _ ← lift (write_file h logo_path (content resp));
      _ ← print "Logo updated with transparent background.";
      mret (Some (content resp))
    else
      _ ← print "Failed to download processed logo.";
      mret None
  else
    _ ← print ("Failed to remove background: " ++ py_str h result);
    mret None.

Definition fix_logo (w : World) (h : Runtime) : io (option (list ascii)) :=
  img_bytes ← lift (read_file w logo_path);
  _ ← print "Removing background from logo...";
  result ←
    BackgroundRemoval.remove_background w (BRIA_API_KEY w) (Some img_bytes)
      None true false;
  replace_logo w h result.

End FixLogo.

(** A workshop: the logo on disk, a provider that returns a result URL
    and a web that serves it. *)
Definition cleaned_url : string := "https://cdn.example/logo.png".

Definition workshop : World :=
  Sample.world
    (fun _ => Ok (Sample.respond 200 "OK"
                    (Ok (JDict {[ "result_url" := JStr cleaned_url ]}))))
    (fun u => Ok {| status_code := 200; reason := "OK"; url := u;
                    text := "PNG"; content := list_ascii_of_string "PNG";
                    json_body := Sample.no_json |})
    (fun p => if String.eqb p FixLogo.logo_path
              then Some (list_ascii_of_string "Man") else None)
    Sample.no_model Sample.no_operations.

(** The reply of the photography route to what a service returned or
    raised (lines 165-174 of [app.py]). *)
Definition service_reply (served : exc json) : reply :=
  match served with
  | Ok result =>
      match respond_photography result with
      | Ok r => r
      | Raise e => error_reply (str_of_exn e) 500
      end
  | Raise e => error_reply (str_of_exn e) 500
  end.

(** The image bytes the photography route works with (lines 123-126 of
    [app.py]). *)
Definition route_bytes (w : World) (form : gmap string string)
    (image_file : option file_storage) : option (list ascii) :=
  if truthy (default EmptyString (filename <$> image_file))
  then stream <$> image_file
  else default None
         (outcome_value (download_image w (json_of_opt (form !! "image_url")))).

(** A packshot request for a picture that is not served. *)
Definition packshot_form : gmap string string :=
  {[ "operation" := "packshot"; "image_url" := "https://shop.example/gone.png" ]}.

(** A world whose packshot service works without an image. *)
Definition lenient : World :=
  {| BRIA_API_KEY := Some "bria-key";
     GOOGLE_API_KEY := None;
     path_exists := fun _ => false;
     read_file := fun _ => Raise (LibraryError "No such file");
     requests_post := fun _ _ _ => Raise (LibraryError "Connection refused");
     requests_get := fun _ => Raise (LibraryError "Connection refused");
     b64decode := fun _ => Raise (LibraryError "Incorrect padding");
     image_open_bytes := fun raw => Ok {| pixels := raw |};
     image_open_path := fun _ => Raise (LibraryError "No such file");
     genai_available := false;
     genai_configure := fun _ => Ok tt;
     generative_model := fun _ => Ok tt;
     generate_content := fun _ _ => Raise (LibraryError "model unavailable");
     genai_client := fun _ => Ok tt;
     generate_videos := fun _ _ _ _ => Raise (LibraryError "unavailable");
     operations_get := fun _ _ => Raise (LibraryError "unknown operation");
     generate_hd_image := fun _ _ _ _ _ => Raise (LibraryError "unavailable");
     create_packshot := fun _ img_bytes bg_color =>
       Ok (JDict {[ "result_url" := JStr "https://cdn.example/packshot.png";
                    "had_image" := JBool (bool_decide (is_Some img_bytes));
                    "background" := JStr bg_color ]});
     add_shadow := fun _ _ _ => Raise (LibraryError "unavailable");
     py_int := fun v => match v with
                        | JInt n => Ok n
                        | _ => Raise (ValueError "invalid literal for int()")
                        end |}.

(** * Properties *)

(** ** The response URL extractor *)

Section Extractor.

Lemma contains_lookup (d : gmap string json) k :
  contains d k = match d !! k with Some _ => true | None => false end.
Proof.
  unfold contains. destruct (d !! k) eqn:E.
  - apply bool_decide_eq_true. eauto.
  - apply bool_decide_eq_false. intros [? ?]. discriminate.
Qed.

Lemma extract_item_spec item urls :
  urls_is_list item ->
  extract_item item urls = Ok (urls ++ option_list (Spec.element_url item))%list.
Proof.
  intros Hok. destruct item as [| | | | s | l | d]; simpl;
    rewrite ?app_nil_r; try reflexivity.
  - destruct l; simpl; rewrite ?app_nil_r; reflexivity.
  - simpl in Hok. rewrite !contains_lookup. unfold getitem.
    destruct (d !! "urls") as [u|] eqn:Eu.
    + destruct u; try discriminate. simpl.
      destruct l as [|x l]; simpl.
      * destruct (d !! "url"); simpl; rewrite ?app_nil_r; reflexivity.
      * reflexivity.
    + simpl. destruct (d !! "url"); simpl; rewrite ?app_nil_r; reflexivity.
Qed.

Lemma extract_items_spec items : forall urls,
  Forall urls_is_list items ->
  extract_items items urls = Ok (urls ++ omap Spec.element_url items)%list.
Proof.
  induction items as [|item rest IH]; intros urls Hall; simpl.
  - rewrite app_nil_r. reflexivity.
  - inversion Hall as [|? ? Hitem Hrest]; subst.
    rewrite (extract_item_spec item urls Hitem). simpl.
    rewrite (IH _ Hrest), <- app_assoc.
    destruct (Spec.element_url item); reflexivity.
Qed.

(** On every document in which no element of [result] has a [urls]
    member that is not a list, the extractor returns what §4.2 says. *)
Lemma _extract_urls_refines_spec data :
  well_shaped data -> _extract_urls data = Ok (Spec.extract_urls data).
Proof.
  intros Hok. destruct data as [| | | | | |d]; try reflexivity. simpl in *.
  destruct (d !! "result_urls") as [[]|]; try reflexivity;
    destruct (d !! "result_url"); try reflexivity;
    destruct (d !! "result") as [[]|]; try reflexivity;
    try (destruct (d !! "urls") as [[]|]; reflexivity);
    apply (extract_items_spec _ [] Hok).
Qed.



(** C3 (the code departs from the claim).  §4.2 maps an element of
    [result] to the first entry of its [urls] only when [urls] is a
    non-empty list, and skips an element of no known shape.  The code tests
    [len(item["urls"]) > 0] without testing that [urls] is a list: on an
    element whose [urls] is a text it returns the first character of the
    text, where the claim has the element skipped. *)
Theorem C3_extract_urls_takes_first_character :
  _extract_urls text_urls_answer = Ok [JStr "h"]
  /\ Spec.extract_urls text_urls_answer = [].
Proof. split; reflexivity. Qed.

(** C4 (the code departs from the claim).  The claim says the extractor
    never raises, also on an element of [result] whose [urls] is not a
    list.  On an element whose [urls] is null, [len] raises a [TypeError]
    that the extractor does not catch. *)
Theorem C4_extract_urls_raises_on_null_urls :
  exists e, _extract_urls null_urls_answer = Raise (TypeError e).
Proof. eexists. reflexivity. Qed.


End Extractor.

(** ** Background removal *)

Ltac io_simpl :=
  cbn [mbind mret io_bind io_ret exc_bind exc_ret lift emit print raise
       try_io trace outcome fst snd app post get
       posts posted_urls omap fmap list_fmap list_omap option_bind
       is_poll is_sleep polls answers_400
       negb andb orb Z.eqb Pos.eqb Z.leb Z.ltb Z.compare Pos.compare
       Pos.compare_cont] in *.

Ltac io_rewrite :=
  repeat (io_simpl;
          match goal with
          | H : _ = _ |- _ => progress rewrite H
          end);
  io_simpl.

Ltac provider_case :=
  match goal with
  | |- context [requests_post ?w ?u ?h ?d] =>
      destruct (requests_post w u h d) eqn:?
  | |- context [Z.eqb ?a ?b] => destruct (Z.eqb a b) eqn:?
  | |- context [raise_for_status ?r] => destruct (raise_for_status r) eqn:?
  | |- context [json_body ?r] => destruct (json_body r) eqn:?
  end.

Ltac provider_cases := io_simpl; repeat (provider_case; io_simpl).

Section Fallback.

Variable w : World.
Variables headers data : gmap string json.

Local Abbreviation r1 := (requests_post w primary_url headers data).
Local Abbreviation r2 := (requests_post w alt_url headers data).
Local Abbreviation r3 := (requests_post w alt_url_v2 headers data).

(** The endpoints called, by the answers of the first two. *)
Lemma attempt_posted_urls :
  posted_urls (trace (attempt w headers data)) =
    (if answers_400 r1
     then if answers_400 r2 then [primary_url; alt_url; alt_url_v2]
          else [primary_url; alt_url]
     else [primary_url]).
Proof. unfold attempt. provider_cases; reflexivity. Qed.

(** Every call carries the same headers and the same body. *)
Lemma attempt_posts :
  posts (trace (attempt w headers data)) =
    (fun url => (url, headers, data)) <$> posted_urls (trace (attempt w headers data)).
Proof. unfold attempt. provider_cases; reflexivity. Qed.

Lemma raise_for_status_200 resp :
  status_code resp = 200 -> raise_for_status resp = Ok tt.
Proof. unfold raise_for_status. intros ->. reflexivity. Qed.

Lemma raise_for_status_400 resp :
  status_code resp = 400 ->
  exists msg body,
    raise_for_status resp = Raise (HTTPError msg 400 (text resp) body).
Proof. unfold raise_for_status. intros ->. do 2 eexists. reflexivity. Qed.

Lemma answers_200_not_400 r j : answers_200 r j -> answers_400 r = false.
Proof. intros (resp & -> & Hs & _). simpl. rewrite Hs. reflexivity. Qed.

(** The outcome when the last endpoint called answers 200. *)
Lemma attempt_first_200 j :
  answers_200 r1 j -> outcome (attempt w headers data) = Ok j.
Proof.
  intros (resp & E & Hs & Hj). unfold attempt. io_simpl.
  pose proof (raise_for_status_200 _ Hs) as Hr. io_rewrite. reflexivity.
Qed.

Lemma attempt_second_200 j :
  answers_400 r1 = true -> answers_200 r2 j ->
  outcome (attempt w headers data) = Ok j.
Proof.
  intros H1 (resp & E & Hs & Hj). unfold attempt. io_simpl.
  destruct (requests_post w primary_url headers data) as [resp1|]; [|discriminate].
  pose proof (raise_for_status_200 _ Hs) as Hr. io_rewrite. reflexivity.
Qed.

Lemma attempt_third_200 j :
  answers_400 r1 = true -> answers_400 r2 = true -> answers_200 r3 j ->
  outcome (attempt w headers data) = Ok j.
Proof.
  intros H1 H2 (resp & E & Hs & Hj). unfold attempt. io_simpl.
  destruct (requests_post w primary_url headers data) as [resp1|]; [|discriminate].
  destruct (requests_post w alt_url headers data) as [resp2|]; [|discriminate].
  pose proof (raise_for_status_200 _ Hs) as Hr. io_rewrite. reflexivity.
Qed.

(** The outcome when all three endpoints answer 400. *)
Lemma attempt_all_400 :
  answers_400 r1 = true -> answers_400 r2 = true -> answers_400 r3 = true ->
  exists resp msg body,
    requests_post w alt_url_v2 headers data = Ok resp
    /\ outcome (attempt w headers data)
       = Raise (HTTPError msg 400 (text resp) body).
Proof.
  intros H1 H2 H3. unfold attempt. io_simpl.
  destruct (requests_post w primary_url headers data) as [resp1|]; [|discriminate].
  destruct (requests_post w alt_url headers data) as [resp2|]; [|discriminate].
  destruct (requests_post w alt_url_v2 headers data) as [resp3|]; [|discriminate].
  io_simpl. apply Z.eqb_eq in H3.
  destruct (raise_for_status_400 _ H3) as (msg & body & Hr).
  io_rewrite. eauto.
Qed.

End Fallback.

Section RemoveBackground.

Variable w : World.
Variable api_key : option string.
Variable image_data : option (list ascii).
Variable image_url : option string.
Variables sync content_moderation : bool.
Variable data : gmap string json.
Hypothesis Hdata :
  request_data image_data image_url sync content_moderation = Ok data.

Local Abbreviation run :=
  (remove_background w api_key image_data image_url sync content_moderation).

Lemma remove_background_trace :
  trace run = trace (attempt w (headers_of api_key) data).
Proof.
  unfold remove_background. rewrite Hdata. io_simpl.
  destruct (attempt w (headers_of api_key) data) as [t [j|e]]; io_simpl;
    rewrite ?app_nil_r; reflexivity.
Qed.

Lemma remove_background_returns j :
  outcome (attempt w (headers_of api_key) data) = Ok j -> outcome run = Ok j.
Proof.
  unfold remove_background. rewrite Hdata. io_simpl.
  destruct (attempt w (headers_of api_key) data) as [t [j'|e]]; io_simpl;
    congruence.
Qed.

Lemma remove_background_fails msg txt body :
  outcome (attempt w (headers_of api_key) data) = Raise (HTTPError msg 400 txt body) ->
  outcome run = Raise (Exception ("Background removal failed: 400 - " ++ txt)).
Proof.
  unfold remove_background. rewrite Hdata. io_simpl.
  destruct (attempt w (headers_of api_key) data) as [t [j'|e]]; io_simpl;
    intros [= ->]. reflexivity.
Qed.

(** Every call of a run carries the headers and the body built at the
    start, and the first call goes to the primary endpoint. *)
Lemma remove_background_posts :
  posts (trace run)
    = (fun url => (url, headers_of api_key, data)) <$> posted_urls (trace run)
  /\ head (posted_urls (trace run)) = Some primary_url.
Proof.
  rewrite remove_background_trace, attempt_posts, attempt_posted_urls.
  split; [reflexivity|].
  destruct (answers_400 _); [destruct (answers_400 _)|]; reflexivity.
Qed.

End RemoveBackground.

(** The body has exactly one of [file] and [image_url], and [image_url]
    whenever a URL is given. *)
Lemma request_data_one_image image_data image_url sync content_moderation data :
  request_data image_data image_url sync content_moderation = Ok data ->
  (if truthy_opt image_url
   then data !! "image_url" = Some (json_of_opt image_url) /\ data !! "file" = None
   else data !! "image_url" = None
        /\ data !! "file" = Some (JStr (Base64.b64encode (default [] image_data)))).
Proof.
  unfold request_data. destruct (truthy_opt image_url).
  - intros [= <-]. split; reflexivity.
  - destruct (truthy_bytes (default [] image_data)); intros [= <-].
    split; reflexivity.
Qed.

(** C8.  A 400 from the primary endpoint is followed by a call of
    [v1/remove_background], and a 400 from that one by a call of
    [v2/background/remove]: two fallback calls at most, in this order, every
    one with the headers and body of the first call.  A primary answer
    other than 400 is followed by no other call.  The call that answers 200
    ends the chain and its JSON body is returned; when all three answer 400
    the failure is raised after exactly two fallback calls. *)
Theorem C8_fallback_order w api_key image_data image_url sync content_moderation data :
  request_data image_data image_url sync content_moderation = Ok data ->
  let run := remove_background w api_key image_data image_url sync content_moderation in
  let call url := requests_post w url (headers_of api_key) data in
  posts (trace run) = (fun url => (url, headers_of api_key, data)) <$> posted_urls (trace run)
  /\ (answers_400 (call primary_url) = false ->
      posted_urls (trace run) = [primary_url])
  /\ (answers_400 (call primary_url) = true ->
      answers_400 (call alt_url) = false ->
      posted_urls (trace run) = [primary_url; alt_url])
  /\ (answers_400 (call primary_url) = true ->
      answers_400 (call alt_url) = true ->
      posted_urls (trace run) = [primary_url; alt_url; alt_url_v2])
  /\ (forall j, answers_200 (call primary_url) j -> outcome run = Ok j)
  /\ (forall j, answers_400 (call primary_url) = true ->
                answers_200 (call alt_url) j -> outcome run = Ok j)
  /\ (forall j, answers_400 (call primary_url) = true ->
                answers_400 (call alt_url) = true ->
                answers_200 (call alt_url_v2) j -> outcome run = Ok j)
  /\ (answers_400 (call primary_url) = true ->
      answers_400 (call alt_url) = true ->
      answers_400 (call alt_url_v2) = true ->
      exists msg, outcome run = Raise (Exception msg)).
Proof.
  intros Hdata run call. subst run call. cbv beta.
  destruct (remove_background_posts w api_key _ _ _ _ _ Hdata) as [Hposts _].
  rewrite (remove_background_trace _ _ _ _ _ _ _ Hdata) in *.
  rewrite attempt_posted_urls in *.
  split; [|split; [|split; [|split; [|split; [|split; [|split]]]]]].
  - exact Hposts.
  - intros ->. reflexivity.
  - intros -> ->. reflexivity.
  - intros -> ->. reflexivity.
  - intros j H. apply (remove_background_returns _ _ _ _ _ _ _ Hdata).
    apply attempt_first_200, H.
  - intros j H1 H2. apply (remove_background_returns _ _ _ _ _ _ _ Hdata).
    apply attempt_second_200; assumption.
  - intros j H1 H2 H3. apply (remove_background_returns _ _ _ _ _ _ _ Hdata).
    apply attempt_third_200; assumption.
  - intros H1 H2 H3.
    destruct (attempt_all_400 w _ _ H1 H2 H3) as (resp & msg & body & _ & Hout).
    eexists. apply (remove_background_fails _ _ _ _ _ _ _ Hdata _ _ _ Hout).
Qed.

(** The chain on a provider that answers 400 three times: both fallback
    endpoints are called, in order, and the failure is raised. *)
Lemma C8_fallback_order_witness :
  posted_urls (trace (remove_background refusing (Some "key") None
                        (Some "https://shop.example/p.png") true false))
    = [primary_url; alt_url; alt_url_v2]
  /\ exists msg,
       outcome (remove_background refusing (Some "key") None
                  (Some "https://shop.example/p.png") true false)
         = Raise (Exception msg).
Proof.
  destruct (C8_fallback_order refusing (Some "key") None
              (Some "https://shop.example/p.png") true false _ eq_refl)
    as (_ & _ & _ & H3 & _ & _ & _ & Hfail).
  split.
  - apply H3; reflexivity.
  - apply Hfail; reflexivity.
Defined.

(** C10.  When both a URL and the bytes of an image are given, every call
    of a run carries a body with [image_url] set to the URL and without
    [file]; the bytes are not sent.  A body is built only when one of the
    two is given, and then it has exactly one of the two members. *)
Theorem C10_image_url_takes_precedence w api_key image_data url sync content_moderation :
  truthy url = true ->
  truthy_bytes image_data = true ->
  let run := remove_background w api_key (Some image_data) (Some url)
               sync content_moderation in
  exists data,
    request_data (Some image_data) (Some url) sync content_moderation = Ok data
    /\ data !! "image_url" = Some (JStr url)
    /\ data !! "file" = None
    /\ head (posts (trace run)) = Some (primary_url, headers_of api_key, data)
    /\ Forall (fun call => snd call = data) (posts (trace run))
    /\ forall image_data' image_url' sync' content_moderation' data',
         request_data image_data' image_url' sync' content_moderation' = Ok data' ->
         (is_Some (data' !! "image_url") /\ data' !! "file" = None)
         \/ (data' !! "image_url" = None /\ is_Some (data' !! "file")).
Proof.
  intros Hurl Hbytes run.
  assert (exists data, request_data (Some image_data) (Some url) sync
                         content_moderation = Ok data) as [data Hdata].
  { unfold request_data. simpl. rewrite Hurl. eauto. }
  exists data. pose proof (request_data_one_image _ _ _ _ _ Hdata) as Hone.
  simpl in Hone. rewrite Hurl in Hone. destruct Hone as [Hu Hf].
  destruct (remove_background_posts w api_key _ _ _ _ _ Hdata) as [Hposts Hfirst].
  fold run in Hposts, Hfirst.
  repeat split; try assumption.
  - rewrite Hposts. destruct (posted_urls (trace run)); [discriminate|].
    simpl in *. congruence.
  - rewrite Hposts. apply Forall_fmap, Forall_true. reflexivity.
  - intros image_data' image_url' sync' cm' data' Hd.
    pose proof (request_data_one_image _ _ _ _ _ Hd) as H.
    destruct (truthy_opt image_url'); destruct H as [-> ->]; eauto.
Qed.

(** The request body of a run with a URL and the bytes of an image. *)
Lemma C10_image_url_takes_precedence_witness :
  exists data,
    data !! "image_url" = Some (JStr "https://shop.example/p.png")
    /\ data !! "file" = None
    /\ head (posts (trace (remove_background refusing (Some "key")
                             (Some (list_ascii_of_string "Man"))
                             (Some "https://shop.example/p.png") true false)))
       = Some (primary_url, headers_of (Some "key"), data).
Proof.
  destruct (C10_image_url_takes_precedence refusing (Some "key")
              (list_ascii_of_string "Man") "https://shop.example/p.png"
              true false eq_refl eq_refl)
    as (data & _ & Hurl & Hfile & Hhead & _).
  exists data. repeat split; assumption.
Defined.

(** ** The video poller *)

Section Poller.

Variable w : World.
Variable name : string.

Lemma rounds_polls n : polls (rounds name n) = n.
Proof. induction n as [|n IH]; [reflexivity|]. cbn [rounds polls]. rewrite IH. reflexivity. Qed.

Lemma rounds_slept n : slept (rounds name n) = 10 * Z.of_nat n.
Proof. induction n as [|n IH]; [reflexivity|]. cbn [rounds slept]. rewrite IH. lia. Qed.

(** The loop makes at most one round per value of the range; it runs out
    of the range exactly when every check came back pending. *)
Lemma poll_loop_rounds range :
  exists k,
    (k <= length range)%nat
    /\ trace (poll_loop w name range) = rounds name k
    /\ (outcome (poll_loop w name range) = Ok None ->
        k = length range /\ never_done w name range)
    /\ (forall r, outcome (poll_loop w name range) = Ok (Some r) ->
        status r <> JInt 504).
Proof.
  induction range as [|i rest (k & Hk & Ht & Hnone & Hsome)].
  - exists O. repeat split; try constructor. discriminate.
  - cbn [poll_loop]. unfold poll. io_simpl.
    destruct (operations_get w name i) as [st|e] eqn:Eop; io_simpl.
    2: { exists 1%nat. repeat split; simpl; try lia; discriminate. }
    destruct (done st) eqn:Edone.
    + exists 1%nat. destruct (error st); io_simpl.
      * repeat split; simpl; try lia; try discriminate.
        intros r [= <-]. discriminate.
      * destruct (video_uri st); io_simpl;
          repeat split; simpl; try lia; try discriminate.
        intros r [= <-]. discriminate.
    + exists (S k). destruct (poll_loop w name rest) as [t [o|e]]; io_simpl.
      * repeat split; simpl; try lia.
        -- f_equal. f_equal. exact Ht.
        -- destruct (Hnone ltac:(congruence)) as [-> _]. reflexivity.
        -- constructor; [eauto|]. apply Hnone. congruence.
        -- intros r [= ->]. apply Hsome. reflexivity.
      * repeat split; simpl; try lia; try discriminate.
        f_equal. f_equal. exact Ht.
Qed.

Lemma poll_loop_never_done range :
  never_done w name range ->
  poll_loop w name range = (rounds name (length range), Ok None).
Proof.
  induction 1 as [|i rest (st & Eop & Edone) _ IH]; [reflexivity|].
  cbn [poll_loop]. unfold poll. io_simpl. rewrite Eop. io_simpl.
  rewrite Edone, IH. reflexivity.
Qed.

End Poller.

Lemma download_image_idle w url :
  forallb idle (trace (download_image w url)) = true.
Proof.
  unfold download_image. destruct (json_truthy url); [|reflexivity]. cbn [negb].
  destruct url; io_simpl; try reflexivity.
  destruct (requests_get w s) as [resp|e]; io_simpl; [|reflexivity].
  destruct (raise_for_status resp); reflexivity.
Qed.

Lemma submit_idle w image_url prompt aspect_ratio duration :
  forallb idle (trace (submit w image_url prompt aspect_ratio duration)) = true.
Proof.
  unfold submit. pose proof (download_image_idle w image_url) as H.
  destruct (download_image w image_url) as [t [[raw|]|e]]; io_simpl;
    rewrite ?app_nil_r; try exact H.
  all: repeat (match goal with
               | |- context [match ?x with Ok _ => _ | Raise _ => _ end] =>
                   destruct x
               end; io_simpl; rewrite ?app_nil_r); exact H.
Qed.

Lemma polls_app t1 t2 : polls (t1 ++ t2) = (polls t1 + polls t2)%nat.
Proof.
  induction t1 as [|e t1 IH]; [reflexivity|].
  destruct e; cbn [app polls]; rewrite IH; reflexivity.
Qed.

Lemma slept_app t1 t2 : slept (t1 ++ t2) = slept t1 + slept t2.
Proof.
  induction t1 as [|e t1 IH]; [reflexivity|].
  destruct e; cbn [app slept]; rewrite IH; lia.
Qed.

Lemma idle_trace t : forallb idle t = true -> polls t = O /\ slept t = 0.
Proof.
  induction t as [|e t IH]; [split; reflexivity|].
  cbn [forallb]. intros [He Ht]%andb_prop. destruct (IH Ht) as [Hp Hs].
  destruct e; try discriminate; cbn [polls slept]; auto.
Qed.

(** What a trace of idle activity followed by [k] rounds amounts to. *)
Lemma run_summary before name k r (t : list event) (o : exc reply) :
  t = (before ++ rounds name k)%list ->
  forallb idle before = true ->
  (k <= max_attempts)%nat ->
  o = Ok r ->
  trace (t, o) = (before ++ rounds name k)%list
  /\ forallb idle before = true
  /\ (k <= max_attempts)%nat
  /\ polls (trace (t, o)) = k
  /\ slept (trace (t, o)) = 10 * Z.of_nat k
  /\ outcome (t, o) = Ok r.
Proof.
  intros -> Hidle Hk ->. cbn [trace outcome fst snd].
  destruct (idle_trace _ Hidle) as [Hp Hs].
  rewrite polls_app, slept_app, Hp, Hs, rounds_polls, rounds_slept.
  repeat split; auto.
Qed.

(** The shape of a run: idle activity, then [k] rounds, then a reply. *)
Lemma api_generate_video_shape w request_json :
  exists before name k r,
    api_generate_video w request_json = ((before ++ rounds name k)%list, Ok r)
    /\ forallb idle before = true
    /\ (k <= max_attempts)%nat
    /\ (status r = JInt 504 ->
        r = error_reply "Timeout" 504 /\ k = 40%nat
        /\ never_done w name (seq 0 max_attempts))
    /\ (forall operation,
          json_truthy (dict_get request_json "image_url") = true ->
          json_truthy (dict_get request_json "prompt") = true ->
          outcome (submit w (dict_get request_json "image_url")
                     (dict_get request_json "prompt")
                     (default (JStr "16:9") (request_json !! "aspect_ratio"))
                     (default (JStr "5") (request_json !! "duration")))
            = Ok operation ->
          never_done w operation (seq 0 max_attempts) ->
          r = error_reply "Timeout" 504 /\ k = 40%nat).
Proof.
  unfold api_generate_video.
  set (image_url := dict_get request_json "image_url").
  set (prompt := dict_get request_json "prompt").
  set (aspect_ratio := default (JStr "16:9") (request_json !! "aspect_ratio")).
  set (duration := default (JStr "5") (request_json !! "duration")).
  destruct (json_truthy image_url) eqn:Eurl; cbn [negb orb].
  2: { exists [], EmptyString, O, (error_reply "Missing data" 400).
       split; [reflexivity|]. split; [reflexivity|].
       split; [unfold max_attempts; lia|]. split; [intros [=]|intros ? [=]]. }
  destruct (json_truthy prompt) eqn:Eprompt; cbn [negb orb].
  2: { exists [], EmptyString, O, (error_reply "Missing data" 400).
       split; [reflexivity|]. split; [reflexivity|].
       split; [unfold max_attempts; lia|]. split; [intros [=]|intros ? _ [=]]. }
  pose proof (submit_idle w image_url prompt aspect_ratio duration) as Hidle.
  destruct (submit w image_url prompt aspect_ratio duration) as [t0 [name|e]];
    io_simpl.
  2: { exists t0, EmptyString, O, (error_reply (str_of_exn e) 500).
       split; [reflexivity|]. split; [exact Hidle|].
       split; [unfold max_attempts; lia|].
       split; [intros [=]|intros ? _ _ [=]]. }
  destruct (poll_loop_rounds w name (seq 0 max_attempts))
    as (k & Hk & Ht & Hnone & Hsome).
  rewrite length_seq in Hk, Hnone.
  pose proof (poll_loop_never_done w name (seq 0 max_attempts)) as Hstall.
  rewrite length_seq in Hstall.
  destruct (poll_loop w name (seq 0 max_attempts)) as [t1 [[r|]|e]];
    io_simpl; subst t1.
  - exists t0, name, k, r.
    split; [rewrite app_nil_r; reflexivity|]. split; [exact Hidle|].
    split; [exact Hk|]. split.
    + intros H504. destruct (Hsome r eq_refl H504).
    + intros operation _ _ [= <-] Hnever. specialize (Hstall Hnever).
      discriminate.
  - destruct (Hnone eq_refl) as [-> Hnever].
    exists t0, name, max_attempts, (error_reply "Timeout" 504).
    split; [rewrite app_nil_r; reflexivity|]. split; [exact Hidle|].
    split; [lia|]. split; auto.
  - exists t0, name, k, (error_reply (str_of_exn e) 500).
    split; [rewrite app_nil_r; reflexivity|]. split; [exact Hidle|].
    split; [exact Hk|]. split.
    + intros [=].
    + intros operation _ _ [= <-] Hnever. specialize (Hstall Hnever).
      discriminate.
Qed.

(** C9.  A run of the video route is some activity without status check or
    wait, followed by rounds of a ten-second wait and one status check: 40
    rounds at most, so at most 40 checks and 400 seconds asleep.  The run
    always ends with a reply.  The reply has status 504 only as the
    time-out reply, after exactly 40 rounds in which no check reported
    completion; and a submitted operation of which none of the 40 checks
    reports completion ends with that reply after exactly 40 rounds. *)
Theorem C9_poll_budget w request_json :
  let run := api_generate_video w request_json in
  exists before name k r,
    trace run = (before ++ rounds name k)%list
    /\ forallb idle before = true
    /\ (k <= max_attempts)%nat
    /\ polls (trace run) = k
    /\ slept (trace run) = 10 * Z.of_nat k
    /\ outcome run = Ok r
    /\ (status r = JInt 504 ->
        r = error_reply "Timeout" 504 /\ k = 40%nat
        /\ never_done w name (seq 0 max_attempts))
    /\ (forall operation,
          json_truthy (dict_get request_json "image_url") = true ->
          json_truthy (dict_get request_json "prompt") = true ->
          outcome (submit w (dict_get request_json "image_url")
                     (dict_get request_json "prompt")
                     (default (JStr "16:9") (request_json !! "aspect_ratio"))
                     (default (JStr "5") (request_json !! "duration")))
            = Ok operation ->
          never_done w operation (seq 0 max_attempts) ->
          r = error_reply "Timeout" 504 /\ k = 40%nat).
Proof.
  intros run. subst run.
  destruct (api_generate_video_shape w request_json)
    as (before & name & k & r & Hrun & Hidle & Hk & H504 & Hstall).
  exists before, name, k, r. rewrite Hrun.
  destruct (run_summary before name k r _ (Ok r) eq_refl Hidle Hk eq_refl)
    as (G1 & G2 & G3 & G4 & G5 & G6).
  refine (conj G1 (conj G2 (conj G3 (conj G4 (conj G5 (conj G6 (conj H504 Hstall))))))).
Qed.

(** A run whose operation stays pending: 40 checks, 400 seconds, then the
    time-out reply. *)
Lemma C9_poll_budget_witness :
  polls (trace (api_generate_video stalled video_request)) = 40%nat
  /\ slept (trace (api_generate_video stalled video_request)) = 400
  /\ outcome (api_generate_video stalled video_request)
     = Ok (error_reply "Timeout" 504).
Proof.
  destruct (C9_poll_budget stalled video_request)
    as (before & name & k & r & _ & _ & _ & Hpolls & Hslept & Hout & _ & Hstall).
  destruct (Hstall "operations/1" eq_refl eq_refl eq_refl) as [-> ->].
  - apply Forall_forall. intros i _. eexists. split; reflexivity.
  - repeat split; assumption.
Defined.

(** ** Normalised replies *)

Lemma extract_empty_with_result_url d v :
  _extract_urls (JDict d) = Ok [] ->
  d !! "result_url" = Some v ->
  d !! "result_urls" = Some (JList []).
Proof.
  unfold _extract_urls. intros H Hv. rewrite Hv in H.
  destruct (d !! "result_urls") as [[]|]; try discriminate.
  unfold mret, exc_ret in H. simpl in H. congruence.
Qed.

Lemma primaryUrl_lookup urls :
  default JNull (urls !! 0%nat) = Spec.primaryUrl urls.
Proof. destruct urls; reflexivity. Qed.

(** C5 (as amended).  In a normalised reply, [result_url] is the first
    element of [urls] when [urls] is not empty.  When [urls] is empty,
    [result_url] is null in the reply of the HD route; in the reply of the
    photography route it is the [result_url] member of the provider's
    answer, or null when there is none, and it is not null only for an
    answer that has an empty [result_urls] list beside its [result_url]. *)
Theorem C5_result_url_of_reply :
  (forall result r,
     respond_hd result = Ok r ->
     exists urls,
       _extract_urls result = Ok urls
       /\ status r = JInt 200
       /\ field "raw" (body r) = Some result
       /\ field "urls" (body r) = Some (JList urls)
       /\ field "result_url" (body r) = Some (Spec.primaryUrl urls))
  /\ (forall result r,
        respond_photography result = Ok r ->
        exists urls result_url,
          _extract_urls result = Ok urls
          /\ status r = JInt 200
          /\ field "raw" (body r) = Some result
          /\ field "urls" (body r) = Some (JList urls)
          /\ field "result_url" (body r) = Some result_url
          /\ (urls <> [] -> result_url = Spec.primaryUrl urls)
          /\ (urls = [] ->
              result_url = match result with
                           | JDict d => dict_get d "result_url"
                           | _ => JNull
                           end)
          /\ (urls = [] -> result_url <> JNull ->
              exists d, result = JDict d
                        /\ d !! "result_urls" = Some (JList [])
                        /\ d !! "result_url" = Some result_url)).
Proof.
  split; intros result r.
  - unfold respond_hd. destruct (_extract_urls result) as [urls|e]; [|discriminate].
    intros [= <-]. exists urls. rewrite <- primaryUrl_lookup.
    do 4 (split; [reflexivity|]). reflexivity.
  - unfold respond_photography.
    destruct (_extract_urls result) as [urls|e] eqn:Eurls; [|discriminate].
    intros [= <-]. destruct urls as [|u urls].
    + exists [], (match result with
                  | JDict d => dict_get d "result_url"
                  | _ => JNull
                  end).
      do 5 (split; [reflexivity|]).
      split; [congruence|]. split; [reflexivity|].
      intros _ Hnn. destruct result as [| | | | | |d]; try congruence.
      exists d. unfold dict_get in *.
      destruct (d !! "result_url") as [v|] eqn:Ev; [|simpl in Hnn; congruence].
      split; [reflexivity|]. split; [|reflexivity].
      apply (extract_empty_with_result_url d v Eurls Ev).
    + exists (u :: urls), u.
      do 5 (split; [reflexivity|]).
      split; [reflexivity|]. split; discriminate.
Qed.

(** The reply to a provider answer with two URLs. *)
Lemma C5_result_url_of_reply_witness :
  exists r,
    respond_photography two_urls_answer = Ok r
    /\ field "result_url" (body r) = Some (JStr "https://cdn.example/a.png").
Proof.
  eexists. split; [reflexivity|].
  destruct (proj2 C5_result_url_of_reply two_urls_answer _ eq_refl)
    as (urls & result_url & Hurls & _ & _ & _ & Hru & Hfirst & _).
  injection Hurls as <-. rewrite Hru, (Hfirst ltac:(discriminate)). reflexivity.
Defined.

(** C5 (as stated) fails on the photography route: for a provider answer
    with an empty [result_urls] list and a [result_url], the reply has an
    empty [urls] and a [result_url] that is not null. *)
Lemma C5_counterexample :
  exists r,
    outcome (api_process_photography (Sample.answering empty_list_answer)
               remove_bg_form None) = Ok r
    /\ status r = JInt 200
    /\ field "urls" (body r) = Some (JList [])
    /\ field "result_url" (body r) = Some (JStr "https://cdn.example/a.png")
    /\ JStr "https://cdn.example/a.png" <> Spec.primaryUrl [].
Proof.
  eexists. split; [vm_compute; reflexivity|].
  repeat split; try reflexivity. discriminate.
Qed.

(** ** The image reference resolver *)

Lemma lstrip_char_no_lead c s : startswith (lstrip_char c s) (String c EmptyString) = false.
Proof.
  unfold lstrip_char, startswith. induction s as [|a s IH]; [reflexivity|].
  cbn [lstrip_by]. destruct (Ascii.eqb c a) eqn:E; [exact IH|].
  cbn [String.prefix]. destruct (ascii_dec c a) as [->|_]; [|reflexivity].
  rewrite Ascii.eqb_refl in E. discriminate.
Qed.

(** What [lstrip] removes is a run of the character, of any length. *)
Lemma lstrip_char_run c s :
  exists n, s = (string_of_list_ascii (repeat c n) ++ lstrip_char c s)%string.
Proof.
  unfold lstrip_char. induction s as [|a s [n IH]]; [exists O; reflexivity|].
  cbn [lstrip_by]. destruct (Ascii.eqb c a) eqn:E.
  - apply Ascii.eqb_eq in E as <-. exists (S n).
    change (String c s = String c (string_of_list_ascii (repeat c n)
                                   ++ lstrip_by (Ascii.eqb c) s)%string).
    f_equal. exact IH.
  - exists O. reflexivity.
Qed.

(** The resolver never raises. *)
Lemma _prepare_image_returns w data :
  exists t kind payload,
    _prepare_image w data = (t, Ok (kind, payload))
    /\ posts t = []
    /\ (truthy_opt data = true -> exists k v, kind = Some k /\ payload = Some v).
Proof.
  unfold _prepare_image. destruct (truthy_opt data); cbn [negb].
  2: { do 3 eexists. split; [reflexivity|]. split; [reflexivity|discriminate]. }
  destruct (startswith _ "data:image").
  { destruct (split_comma_1_snd _); io_simpl;
      do 3 eexists; (split; [reflexivity|]); split; eauto. }
  destruct (startswith _ "http").
  { do 3 eexists. split; [reflexivity|]. split; eauto. }
  destruct (path_exists w _); io_simpl.
  2: { do 3 eexists. split; [reflexivity|]. split; eauto. }
  destruct (read_file w _); io_simpl;
    do 3 eexists; (split; [reflexivity|]); split; eauto.
Qed.

(** C6 (as amended).  A non-empty reference that starts neither with
    [data:image] nor with [http] is a local path, with every leading [/]
    removed.  When nothing exists at the path, the reference itself is
    returned as the inline payload.  When the file there is read, the
    base64 text of its contents is returned as the inline payload.  When
    reading it fails, the error is printed and not raised, and the
    reference itself is returned as the inline payload. *)
Theorem C6_prepare_local_path w data :
  truthy data = true ->
  startswith data "data:image" = false ->
  startswith data "http" = false ->
  let clean_path := lstrip_char "/"%char data in
  let run := _prepare_image w (Some data) in
  startswith clean_path "/" = false
  /\ (exists n, data = (string_of_list_ascii (repeat "/"%char n) ++ clean_path)%string)
  /\ (path_exists w clean_path = false ->
      run = ([], Ok (Some "file", Some data)))
  /\ (forall raw,
        path_exists w clean_path = true -> read_file w clean_path = Ok raw ->
        run = ([], Ok (Some "file", Some (Base64.b64encode raw))))
  /\ (forall e,
        path_exists w clean_path = true -> read_file w clean_path = Raise e ->
        run = ([Print ("Failed to read local file " ++ clean_path ++ ": "
                       ++ str_of_exn e)],
               Ok (Some "file", Some data))).
Proof.
  intros Hdata Huri Hhttp clean_path run. subst run clean_path.
  split; [apply lstrip_char_no_lead|]. split; [apply lstrip_char_run|].
  unfold _prepare_image. cbn [truthy_opt default from_option id].
  rewrite Hdata, Huri, Hhttp.
  cbn [negb]. split; [|split].
  - intros ->. reflexivity.
  - intros raw -> ->. reflexivity.
  - intros e -> ->. reflexivity.
Qed.

(** A reference with two leading separators: both are removed and the
    file is found. *)
Lemma C6_prepare_local_path_witness :
  lstrip_char "/"%char "//a.png" = "a.png"
  /\ _prepare_image shelf (Some "//a.png") = ([], Ok (Some "file", Some "TWFu")).
Proof.
  split; [reflexivity|].
  destruct (C6_prepare_local_path shelf "//a.png" eq_refl eq_refl eq_refl)
    as (_ & _ & _ & Hread & _).
  apply (Hread (list_ascii_of_string "Man")); reflexivity.
Defined.

(** C6 (as stated) fails: with a single separator removed the path of
    [//a.png] is [/a.png], which does not exist, so the claim has the
    reference returned as it is; the code removes both separators, finds
    [a.png] and returns the base64 text of its contents. *)
Lemma C6_counterexample :
  truthy "//a.png" = true
  /\ startswith "//a.png" "data:image" = false
  /\ startswith "//a.png" "http" = false
  /\ Spec.strip_single_separator "//a.png" = "/a.png"
  /\ path_exists shelf "/a.png" = false
  /\ outcome (_prepare_image shelf (Some "//a.png")) = Ok (Some "file", Some "TWFu")
  /\ "TWFu" <> "//a.png".
Proof. repeat split; try reflexivity. discriminate. Qed.

(** ** The prompt merger *)

Section Merger.

Variable w : World.
Variable ref_image_data user_prompt : string.

Lemma load_reference_failure :
  load_failure w ref_image_data <-> raises (outcome (load_reference w ref_image_data)).
Proof.
  unfold load_failure, load_reference, raises.
  repeat (match goal with
          | |- context [if ?c then _ else _] => destruct c
          | |- context [match ?x with Ok _ => _ | Raise _ => _ end] => destruct x
          end; io_simpl);
    split; try (intros _; exact I); try (intros _; eexists; reflexivity);
    try (intros [? [=]]); intros [].
Qed.

Lemma load_reference_posts : posts (trace (load_reference w ref_image_data)) = [].
Proof.
  unfold load_reference.
  repeat (match goal with
          | |- context [if ?c then _ else _] => destruct c
          | |- context [match ?x with Ok _ => _ | Raise _ => _ end] => destruct x
          end; io_simpl); reflexivity.
Qed.

Variable gemini_api_key : string.

(** The [try] block returns exactly when nothing in it fails, and then it
    returns the trimmed text of the model. *)
Lemma merge_attempt_outcome :
  (exists e, outcome (merge_attempt w gemini_api_key ref_image_data user_prompt)
             = Raise e)
  /\ (raises (genai_configure w gemini_api_key)
      \/ raises (generative_model w "gemini-1.5-pro")
      \/ load_failure w ref_image_data
      \/ exists img, outcome (load_reference w ref_image_data) = Ok img
                     /\ model_failure w user_prompt img)
  \/ (exists img response_text,
        outcome (load_reference w ref_image_data) = Ok img
        /\ generate_content w (prompt_text user_prompt) img = Ok (Ok response_text)
        /\ outcome (merge_attempt w gemini_api_key ref_image_data user_prompt)
           = Ok (strip response_text)
        /\ ~ raises (genai_configure w gemini_api_key)
        /\ ~ raises (generative_model w "gemini-1.5-pro")
        /\ ~ load_failure w ref_image_data
        /\ ~ model_failure w user_prompt img).
Proof.
  unfold merge_attempt, model_failure, raises.
  pose proof load_reference_failure as Hload. unfold raises in Hload.
  destruct (genai_configure w gemini_api_key) as [[]|e1]; io_simpl.
  2: { left. split; eauto. }
  destruct (generative_model w _) as [[]|e2]; io_simpl.
  2: { left. split; eauto. }
  destruct (load_reference w ref_image_data) as [t [img|e3]]; io_simpl.
  2: { left. split; [eauto|]. right. right. left. apply Hload. eauto. }
  destruct (generate_content w (prompt_text user_prompt) img) as [resp|e4] eqn:Egen;
    io_simpl.
  2: { left. split; [eauto|]. do 3 right. exists img. rewrite Egen. auto. }
  destruct resp as [response_text|e5]; io_simpl.
  2: { left. split; [eauto|]. do 3 right. exists img. rewrite Egen. eauto. }
  right. exists img, response_text. rewrite Egen.
  split; [reflexivity|]. split; [reflexivity|]. split; [reflexivity|].
  split; [intros [? [=]]|]. split; [intros [? [=]]|].
  split; [intros H; apply Hload in H as [? [=]]|intros [? [=]]].
Qed.

Lemma merge_attempt_posts :
  posts (trace (merge_attempt w gemini_api_key ref_image_data user_prompt)) = [].
Proof.
  unfold merge_attempt. pose proof load_reference_posts as Hp.
  destruct (genai_configure w gemini_api_key) as [[]|]; io_simpl; [|reflexivity].
  destruct (generative_model w _) as [[]|]; io_simpl; [|reflexivity].
  destruct (load_reference w ref_image_data) as [t [img|]]; io_simpl;
    rewrite ?app_nil_r; [|exact Hp].
  destruct (generate_content w _ img) as [[|]|]; io_simpl;
    rewrite ?app_nil_r; exact Hp.
Qed.

End Merger.

Lemma merge_vision_and_prompt_posts w gemini_api_key ref_image_data user_prompt :
  posts (trace (merge_vision_and_prompt w gemini_api_key ref_image_data user_prompt)) = [].
Proof.
  unfold merge_vision_and_prompt.
  destruct (negb (genai_available w) || negb (truthy_opt gemini_api_key));
    [reflexivity|].
  pose proof (merge_attempt_posts w ref_image_data user_prompt
                (default EmptyString gemini_api_key)) as Hp.
  destruct (merge_attempt w _ ref_image_data user_prompt) as [t [s|e]]; io_simpl.
  - exact Hp.
  - unfold posts in *. rewrite omap_app, Hp. reflexivity.
Qed.

(** C7.  The merger always returns a text.  On a failure (no key or an
    empty key, no model library, an error while configuring or creating the
    model, a reference image that cannot be fetched, decoded or opened, an
    error of the model call or of reading its answer) it returns the user's
    prompt unchanged.  Otherwise it returns the text of the model's answer
    with the white space around it removed. *)
Theorem C7_merge_never_raises w gemini_api_key ref_image_data user_prompt :
  let run := merge_vision_and_prompt w gemini_api_key ref_image_data user_prompt in
  exists merged,
    outcome run = Ok merged
    /\ (merge_failure w gemini_api_key ref_image_data user_prompt ->
        merged = user_prompt)
    /\ (~ merge_failure w gemini_api_key ref_image_data user_prompt ->
        exists img response_text,
          outcome (load_reference w ref_image_data) = Ok img
          /\ generate_content w (prompt_text user_prompt) img = Ok (Ok response_text)
          /\ merged = strip response_text).
Proof.
  intros run. subst run. unfold merge_vision_and_prompt, merge_failure.
  destruct (truthy_opt gemini_api_key) eqn:Ekey.
  2: { rewrite orb_true_r. exists user_prompt. split; [reflexivity|].
       split; [reflexivity|]. intros H. destruct H. auto. }
  destruct (genai_available w) eqn:Elib.
  2: { exists user_prompt. split; [reflexivity|].
       split; [reflexivity|]. intros H. destruct H. auto. }
  cbn [negb orb].
  destruct (merge_attempt_outcome w ref_image_data user_prompt
              (default EmptyString gemini_api_key))
    as [[[e He] Hwhy]|(img & response_text & Hload & Hgen & Hout & N1 & N2 & N3 & N4)].
  - destruct (merge_attempt w _ ref_image_data user_prompt) as [t [s|e']];
      io_simpl; [discriminate|].
    exists user_prompt. split; [reflexivity|]. split; [reflexivity|].
    intros H. destruct H. auto.
  - destruct (merge_attempt w _ ref_image_data user_prompt) as [t [s|e']];
      io_simpl; [|discriminate].
    injection Hout as ->. exists (strip response_text).
    split; [reflexivity|]. split.
    + intros [H|[H|[H|[H|[H|(img' & Hload' & H)]]]]]; try discriminate;
        try contradiction.
      rewrite Hload in Hload'. injection Hload' as <-. contradiction.
    + intros _. exists img, response_text. auto.
Qed.

(** A merge that succeeds: the model's padded answer comes back trimmed. *)
Lemma C7_merge_never_raises_witness :
  outcome (merge_vision_and_prompt describing (Some "key")
             "assets/templates/desk.png" "on a desk")
    = Ok "a bottle on a rustic wooden table, soft bokeh".
Proof.
  destruct (C7_merge_never_raises describing (Some "key")
              "assets/templates/desk.png" "on a desk")
    as (merged & Hout & _ & Hok).
  rewrite Hout. f_equal.
  destruct Hok as (img & response_text & _ & Hgen & ->).
  - intros [H|[H|[[e H]|[[e H]|[H|(img & _ & H)]]]]]; try discriminate;
      try contradiction.
    destruct H as [e H]. discriminate.
  - injection Hgen as <-. reflexivity.
Defined.

(** ** The route selector *)

Lemma posts_app t1 t2 : posts (t1 ++ t2) = (posts t1 ++ posts t2)%list.
Proof. apply omap_app. Qed.

Lemma posts_print msg t : posts (Print msg :: t) = posts t.
Proof. reflexivity. Qed.

Lemma posts_post url headers data t :
  posts (Post url headers data :: t) = (url, headers, data) :: posts t.
Proof. reflexivity. Qed.

Lemma posts_nil : posts [] = [].
Proof. reflexivity. Qed.

Create Rewrite HintDb trace.
#[local] Hint Rewrite posts_app posts_print posts_post posts_nil app_nil_r
  app_nil_l : trace.

Lemma merge_vision_and_prompt_returns w gemini_api_key ref_image_data user_prompt :
  exists t merged,
    merge_vision_and_prompt w gemini_api_key ref_image_data user_prompt
      = (t, Ok merged)
    /\ posts t = [].
Proof.
  pose proof (merge_vision_and_prompt_posts w gemini_api_key ref_image_data
                user_prompt) as Hp.
  unfold merge_vision_and_prompt in *.
  destruct (negb (genai_available w) || negb (truthy_opt gemini_api_key)).
  { do 2 eexists. split; reflexivity. }
  destruct (merge_attempt w _ ref_image_data user_prompt) as [t [s|e]];
    io_simpl; do 2 eexists; (split; [reflexivity|exact Hp]).
Qed.

Section Selector.

Variable w : World.
Variables image_data ref_image_data scene_description gemini_api_key : option string.
Variable num_results : Z.
Variables sync force_rmbg content_moderation : bool.

Local Abbreviation custom := (is_custom_prompt scene_description).
Local Abbreviation request :=
  (build_request w image_data ref_image_data scene_description
     gemini_api_key num_results sync force_rmbg content_moderation).

(** The selector never raises and calls no provider; its result, branch
    by branch. *)
Lemma build_request_branches :
  exists t url data prod,
    request = (t, Ok (url, <["placement_type" := JStr "original"]> data))
    /\ posts t = []
    /\ outcome (_prepare_image w image_data) = Ok prod
    /\ let base := base_data prod num_results sync force_rmbg content_moderation in
       if negb custom && truthy_opt ref_image_data
       then url = by_image_url
            /\ exists ref, outcome (_prepare_image w ref_image_data) = Ok ref
                 /\ data = put_image "ref_image_file" "ref_image_url" ref base
       else if custom && truthy_opt ref_image_data && truthy_opt gemini_api_key
       then url = by_text_url
            /\ exists merged,
                 outcome (merge_vision_and_prompt w gemini_api_key
                            (default EmptyString ref_image_data)
                            (default EmptyString scene_description)) = Ok merged
                 /\ data = <["scene_description" := JStr merged]> base
       else if truthy_opt scene_description
       then url = by_text_url
            /\ data = <["scene_description" := json_of_opt scene_description]> base
       else url = by_image_url /\ truthy_opt ref_image_data = false /\ data = base.
Proof.
  unfold build_request, base_data.
  destruct (_prepare_image_returns w image_data)
    as (t0 & kind & payload & E0 & Hp0 & _).
  rewrite E0. io_simpl.
  destruct (_prepare_image_returns w ref_image_data)
    as (t1 & rkind & rpayload & E1 & Hp1 & _).
  destruct (merge_vision_and_prompt_returns w gemini_api_key
              (default EmptyString ref_image_data)
              (default EmptyString scene_description))
    as (t2 & merged & E2 & Hp2).
  assert (Hcustom : is_custom_prompt scene_description = true ->
                    truthy_opt scene_description = true).
  { unfold is_custom_prompt. intros [H _]%andb_prop. exact H. }
  destruct (is_custom_prompt scene_description);
    destruct (truthy_opt ref_image_data);
    destruct (truthy_opt gemini_api_key);
    destruct (truthy_opt scene_description);
    try (specialize (Hcustom eq_refl); discriminate);
    cbn [negb andb]; io_simpl; rewrite ?E1, ?E2; io_simpl;
    do 4 eexists;
    (split; [reflexivity|]);
    (split; [autorewrite with trace; rewrite ?Hp0, ?Hp1, ?Hp2; reflexivity|]);
    (split; [reflexivity|]); cbn zeta; eauto 10.
Qed.

End Selector.

Lemma carries_image_put file_key url_key kv (data : gmap string json) :
  file_key <> url_key ->
  data !! file_key = None -> data !! url_key = None ->
  carries_image file_key url_key kv (put_image file_key url_key kv data).
Proof.
  intros Hne Hf Hu. unfold carries_image, put_image.
  destruct (bool_decide (fst kv = Some "file")).
  - rewrite lookup_insert_eq, lookup_insert_ne by done. auto.
  - rewrite lookup_insert_eq, lookup_insert_ne by done. auto.
Qed.

Lemma carries_image_insert file_key url_key kv k v (data : gmap string json) :
  k <> file_key -> k <> url_key ->
  carries_image file_key url_key kv data ->
  carries_image file_key url_key kv (<[k := v]> data).
Proof.
  intros Hf Hu. unfold carries_image.
  destruct (bool_decide (fst kv = Some "file"));
    rewrite !lookup_insert_ne by done; auto.
Qed.

Lemma carries_image_put_other file_key url_key kv fk uk kv' (data : gmap string json) :
  fk <> file_key -> fk <> url_key -> uk <> file_key -> uk <> url_key ->
  carries_image file_key url_key kv data ->
  carries_image file_key url_key kv (put_image fk uk kv' data).
Proof.
  intros. unfold put_image.
  destruct (bool_decide (fst kv' = Some "file"));
    apply carries_image_insert; assumption.
Qed.

Lemma lookup_put_image_other k fk uk kv (data : gmap string json) :
  k <> fk -> k <> uk -> put_image fk uk kv data !! k = data !! k.
Proof.
  intros. unfold put_image.
  destruct (bool_decide (fst kv = Some "file")); apply lookup_insert_ne; done.
Qed.

Lemma base_data_carries prod n sync rm cm :
  carries_image "file" "image_url" prod (base_data prod n sync rm cm).
Proof. apply carries_image_put; done. Qed.

Lemma base_data_lookup_other prod n sync rm cm k :
  k <> "file" -> k <> "image_url" -> k <> "num_results" -> k <> "sync" ->
  k <> "force_rmbg" -> k <> "content_moderation" ->
  base_data prod n sync rm cm !! k = None.
Proof.
  intros. unfold base_data. rewrite lookup_put_image_other by done.
  rewrite !lookup_insert_ne by done. apply lookup_singleton_ne. done.
Qed.

(** The one provider call of a run carries what the selector built. *)
Lemma generate_product_shot_posts w api_key image_data ref_image_data
    scene_description gemini_api_key num_results sync force_rmbg content_moderation :
  exists t url data,
    build_request w image_data ref_image_data scene_description gemini_api_key
      num_results sync force_rmbg content_moderation = (t, Ok (url, data))
    /\ posts (trace (generate_product_shot w api_key image_data ref_image_data
                       scene_description gemini_api_key num_results sync
                       force_rmbg content_moderation))
       = [(url, headers_of api_key, data)].
Proof.
  destruct (build_request_branches w image_data ref_image_data scene_description
              gemini_api_key num_results sync force_rmbg content_moderation)
    as (t & url & data & prod & E & Hp & _).
  exists t, url, (<["placement_type" := JStr "original"]> data).
  split; [exact E|]. unfold generate_product_shot. rewrite E. io_simpl.
  destruct (requests_post w url _ _) as [resp|e]; io_simpl.
  - destruct (raise_for_status resp) as [[]|e]; io_simpl.
    + destruct (json_body resp); io_simpl;
        autorewrite with trace; rewrite Hp; reflexivity.
    + autorewrite with trace; rewrite Hp; reflexivity.
  - autorewrite with trace; rewrite Hp; reflexivity.
Qed.

(** C2.  On the Creative-Merge route the one provider call goes to the
    by-text endpoint; its body has the product image under [file] or
    [image_url], has the merged prompt as [scene_description], and has
    neither [ref_image_file] nor [ref_image_url]. *)
Theorem C2_creative_merge_body w api_key image_data ref_image_data
    scene_description gemini_api_key num_results sync force_rmbg content_moderation :
  is_custom_prompt scene_description = true ->
  truthy_opt ref_image_data = true ->
  truthy_opt gemini_api_key = true ->
  let run := generate_product_shot w api_key image_data ref_image_data
               scene_description gemini_api_key num_results sync force_rmbg
               content_moderation in
  exists data merged prod,
    posts (trace run) = [(by_text_url, headers_of api_key, data)]
    /\ outcome (merge_vision_and_prompt w gemini_api_key
                  (default EmptyString ref_image_data)
                  (default EmptyString scene_description)) = Ok merged
    /\ data !! "scene_description" = Some (JStr merged)
    /\ outcome (_prepare_image w image_data) = Ok prod
    /\ carries_image "file" "image_url" prod data
    /\ data !! "ref_image_file" = None
    /\ data !! "ref_image_url" = None.
Proof.
  intros Hcustom Href Hkey run. subst run.
  destruct (generate_product_shot_posts w api_key image_data ref_image_data
              scene_description gemini_api_key num_results sync force_rmbg
              content_moderation) as (t & url & data & E & Hposts).
  destruct (build_request_branches w image_data ref_image_data scene_description
              gemini_api_key num_results sync force_rmbg content_moderation)
    as (t' & url' & data' & prod & E' & _ & Hprod & Hbranch).
  rewrite E in E'. injection E' as <- -> ->.
  cbn zeta in Hbranch. rewrite Hcustom, Href, Hkey in Hbranch.
  cbn [negb andb] in Hbranch. destruct Hbranch as (-> & merged & Hmerge & ->).
  eexists _, merged, prod. split; [exact Hposts|]. split; [exact Hmerge|].
  split; [rewrite lookup_insert_ne, lookup_insert_eq by done; reflexivity|].
  split; [exact Hprod|].
  split; [do 2 (apply carries_image_insert; [done|done|]);
          apply base_data_carries|].
  split; rewrite !lookup_insert_ne by done; apply base_data_lookup_other; done.
Qed.

(** A Creative-Merge run: the body has the product image and the model's
    merged prompt, and no reference image. *)
Lemma C2_creative_merge_body_witness :
  exists data,
    posts (trace (generate_product_shot studio (Some "bria-key")
                    (Some product_b64) (Some template_url)
                    (Some "on a rustic table") (Some "google-key")
                    4 true false false))
      = [(by_text_url, headers_of (Some "bria-key"), data)]
    /\ data !! "scene_description"
       = Some (JStr "a bottle on a rustic wooden table, soft bokeh")
    /\ data !! "file" = Some (JStr product_b64)
    /\ data !! "ref_image_file" = None
    /\ data !! "ref_image_url" = None.
Proof.
  destruct (C2_creative_merge_body studio (Some "bria-key")
              (Some product_b64) (Some template_url)
              (Some "on a rustic table") (Some "google-key")
              4 true false false eq_refl eq_refl eq_refl)
    as (data & merged & prod & Hposts & Hmerge & Hscene & Hprod & Hcarry & Hf & Hu).
  exists data. split; [exact Hposts|].
  injection Hmerge as <-. injection Hprod as <-.
  split; [exact Hscene|]. split; [exact (proj1 Hcarry)|]. split; assumption.
Defined.

(** With the comparison made after trimming, the table's conditions
    are those of the code. *)
Lemma decision_table_trimmed scene_description ref_image_data gemini_api_key :
  Spec.decision_table Spec.same_trimmed scene_description ref_image_data
    gemini_api_key
  = if negb (is_custom_prompt scene_description) && truthy_opt ref_image_data
    then Some Spec.ExactComposition
    else if is_custom_prompt scene_description && truthy_opt ref_image_data
            && truthy_opt gemini_api_key
    then Some Spec.CreativeMerge
    else if truthy_opt scene_description then Some Spec.TextOnly
    else if truthy_opt ref_image_data then Some Spec.FallbackImage
    else None.
Proof.
  unfold Spec.decision_table, Spec.same_trimmed, is_custom_prompt.
  destruct (truthy_opt scene_description);
    destruct (String.eqb _ _); destruct (truthy_opt ref_image_data);
    destruct (truthy_opt gemini_api_key); reflexivity.
Qed.

(** The fourth row of the table is never the first to match: when the
    first three fail and there is no scene description, there is no
    reference image either. *)
Lemma fallback_row_unreachable same scene_description ref_image_data gemini_api_key :
  Spec.decision_table same scene_description ref_image_data gemini_api_key
  <> Some Spec.FallbackImage.
Proof.
  unfold Spec.decision_table.
  destruct (truthy_opt scene_description); destruct (same _ _);
    destruct (truthy_opt ref_image_data); destruct (truthy_opt gemini_api_key);
    discriminate.
Qed.

(** C1 (as amended).  Every run makes one provider call, chosen by the
    decision table read top to bottom, where a scene description counts as
    the default prompt when it equals it once the white space around both
    is trimmed: Exact Composition calls the by-image endpoint with the
    product and the reference image; Creative Merge calls the by-text
    endpoint with the merged prompt; Text Only calls the by-text endpoint
    with the scene description; the Fallback row calls the by-image
    endpoint with the product and the reference image.  When no row
    matches (no scene description and no reference image) the by-image
    endpoint is called. *)
Theorem C1_route_selection w api_key image_data ref_image_data
    scene_description gemini_api_key num_results sync force_rmbg content_moderation :
  let run := generate_product_shot w api_key image_data ref_image_data
               scene_description gemini_api_key num_results sync force_rmbg
               content_moderation in
  exists url data,
    posts (trace run) = [(url, headers_of api_key, data)]
    /\ match Spec.decision_table Spec.same_trimmed scene_description
               ref_image_data gemini_api_key with
       | Some r =>
           route_request w r image_data ref_image_data scene_description
             gemini_api_key url data
       | None =>
           truthy_opt scene_description = false
           /\ truthy_opt ref_image_data = false
           /\ url = by_image_url
       end.
Proof.
  intros run. subst run.
  destruct (generate_product_shot_posts w api_key image_data ref_image_data
              scene_description gemini_api_key num_results sync force_rmbg
              content_moderation) as (t & url & data & E & Hposts).
  destruct (build_request_branches w image_data ref_image_data scene_description
              gemini_api_key num_results sync force_rmbg content_moderation)
    as (t' & url' & data' & prod & E' & _ & Hprod & Hbranch).
  rewrite E in E'. injection E' as <- -> ->.
  exists url', (<["placement_type" := JStr "original"]> data').
  split; [exact Hposts|].
  rewrite decision_table_trimmed. cbn zeta in Hbranch.
  set (base := base_data prod num_results sync force_rmbg content_moderation) in *.
  assert (Hbase : carries_image "file" "image_url" prod base)
    by apply base_data_carries.
  assert (Hnone : forall k, k <> "file" -> k <> "image_url" ->
                    k <> "num_results" -> k <> "sync" -> k <> "force_rmbg" ->
                    k <> "content_moderation" -> base !! k = None)
    by (intros; apply base_data_lookup_other; assumption).
  destruct (negb (is_custom_prompt scene_description)
            && truthy_opt ref_image_data) eqn:E1.
  { destruct Hbranch as (-> & ref & Href & ->).
    apply andb_prop in E1 as [_ Hpresent].
    split.
    - exists prod. split; [exact Hprod|].
      apply carries_image_insert; [done|done|].
      apply carries_image_put_other; [done|done|done|done|exact Hbase].
    - split; [reflexivity|]. split; [exact Hpresent|]. split.
      + exists ref. split; [exact Href|].
        apply carries_image_insert; [done|done|].
        apply carries_image_put; [done|apply Hnone; done|apply Hnone; done].
      + rewrite lookup_insert_ne, lookup_put_image_other by done.
        apply Hnone; done. }
  destruct (is_custom_prompt scene_description && truthy_opt ref_image_data
            && truthy_opt gemini_api_key) eqn:E2.
  { destruct Hbranch as (-> & merged & Hmerge & ->). split.
    - exists prod. split; [exact Hprod|].
      do 2 (apply carries_image_insert; [done|done|]). exact Hbase.
    - split; [reflexivity|]. exists merged. split; [exact Hmerge|].
      rewrite lookup_insert_ne, lookup_insert_eq by done. reflexivity. }
  destruct (truthy_opt scene_description) eqn:E3.
  { destruct Hbranch as (-> & ->). split.
    - exists prod. split; [exact Hprod|].
      do 2 (apply carries_image_insert; [done|done|]). exact Hbase.
    - split; [reflexivity|].
      rewrite lookup_insert_ne, lookup_insert_eq by done. reflexivity. }
  destruct Hbranch as (-> & Href & ->). rewrite Href. auto.
Qed.

(** A Text-Only run: a custom scene description and no reference image. *)
Lemma C1_route_selection_witness :
  exists data,
    posts (trace (generate_product_shot studio (Some "bria-key")
                    (Some product_b64) None (Some "on a rustic table")
                    (Some "google-key") 4 true false false))
      = [(by_text_url, headers_of (Some "bria-key"), data)]
    /\ data !! "scene_description" = Some (JStr "on a rustic table").
Proof.
  destruct (C1_route_selection studio (Some "bria-key")
              (Some product_b64) None (Some "on a rustic table")
              (Some "google-key") 4 true false false)
    as (url & data & Hposts & Hroute).
  change (Spec.decision_table _ _ _ _) with (Some Spec.TextOnly) in Hroute.
  destruct Hroute as (_ & -> & Hscene).
  exists data. split; assumption.
Defined.

(** C1 (as stated) fails when "equals the default prompt" is read
    literally: for the default prompt followed by a space, with a
    reference image and a vision key, the table gives Creative Merge and
    so the by-text endpoint, while the code trims the description, finds
    the default and calls the by-image endpoint. *)
Lemma C1_counterexample :
  Spec.decision_table Spec.same_literally (Some padded_default)
    (Some template_url) (Some "google-key") = Some Spec.CreativeMerge
  /\ posted_urls (trace (generate_product_shot studio (Some "bria-key")
                          (Some product_b64) (Some template_url)
                          (Some padded_default) (Some "google-key")
                          4 true false false))
     = [by_image_url]
  /\ by_image_url <> by_text_url.
Proof.
  split; [reflexivity|]. split; [vm_compute; reflexivity|discriminate].
Qed.

(** ** Replies of the routes *)

(** A reply of the HD route is a normalised reply or an error reply. *)
Lemma api_generate_hd_reply w request_json :
  exists r,
    outcome (api_generate_hd w request_json) = Ok r
    /\ ((exists result, respond_hd result = Ok r)
        \/ exists msg, r = error_reply msg 500).
Proof.
  unfold api_generate_hd.
  destruct (generate_hd_image w _ _ _ _ _) as [result|e]; io_simpl.
  - destruct (respond_hd result) as [r|e] eqn:E; io_simpl; eauto.
  - eauto.
Qed.

(** A reply of the photography route is a normalised reply, the reply of
    an early [return], or an error reply. *)
Lemma process_reply w form operation image_url img_bytes :
  exists r,
    outcome (process w form operation image_url img_bytes) = Ok r
    /\ ((exists result,
           outcome (dispatch w form operation image_url img_bytes) = Ok (inr result)
           /\ respond_photography result = Ok r)
        \/ outcome (dispatch w form operation image_url img_bytes) = Ok (inl r)
        \/ exists msg, r = error_reply msg 500).
Proof.
  unfold process.
  destruct (dispatch w form operation image_url img_bytes) as [t [[early|result]|e]];
    io_simpl.
  - eauto.
  - destruct (respond_photography result) as [r|e] eqn:E; io_simpl.
    + exists r. split; [reflexivity|]. left. exists result. auto.
    + eexists. split; [reflexivity|]. right. right. eauto.
  - eexists. split; [reflexivity|]. right. right. eauto.
Qed.

(** A provider that answers 400 twice and then 200: the third endpoint's
    answer is returned. *)
Example remove_background_third_time_lucky :
  remove_background third_time_lucky (Some "key") None
    (Some "https://shop.example/p.png") true false
  = ([Print ("Making request to: " ++ primary_url);
      Post primary_url (headers_of (Some "key"))
        {[ "image_url" := JStr "https://shop.example/p.png";
           "sync" := JBool true; "content_moderation" := JBool false ]};
      Print "Primary endpoint failed with 400, trying alternative v1/remove_background...";
      Post alt_url (headers_of (Some "key"))
        {[ "image_url" := JStr "https://shop.example/p.png";
           "sync" := JBool true; "content_moderation" := JBool false ]};
      Print "Alternative 1 failed, trying v2/background/remove...";
      Post alt_url_v2 (headers_of (Some "key"))
        {[ "image_url" := JStr "https://shop.example/p.png";
           "sync" := JBool true; "content_moderation" := JBool false ]};
      Print "Response status: 200"],
     Ok two_urls_answer).
Proof. reflexivity. Qed.

(** * Further properties of the code *)

(** ** The extractor on list-shaped documents *)

(** X1.  On every document in which no element of [result] has a [urls]
    member that is not a list, the extractor does not raise: it returns
    the [result_urls] list if there is one, else the single [result_url],
    else one URL for each element of [result] that has one (elements of no
    known shape are skipped), else the [urls] list, else nothing. *)
Theorem X1_extract_urls_on_list_shapes data :
  well_shaped data ->
  exists urls,
    _extract_urls data = Ok urls
    /\ urls = Spec.extract_urls data
    /\ (forall d items, data = JDict d -> d !! "result_urls" = None ->
          d !! "result_url" = None -> d !! "result" = Some (JList items) ->
          (length urls <= length items)%nat).
Proof.
  intros Hok. exists (Spec.extract_urls data).
  split; [apply _extract_urls_refines_spec, Hok|]. split; [reflexivity|].
  intros d items -> H1 H2 H3. simpl. rewrite H1, H2, H3.
  clear. induction items as [|item items IH]; [reflexivity|].
  cbn [omap list_omap length]. destruct (Spec.element_url item);
    cbn [length]; lia.
Qed.

(** A document with elements of every kind: four URLs come out of six
    elements, and the top-level [urls] is not consulted. *)
Lemma X1_extract_urls_on_list_shapes_witness :
  _extract_urls mixed_answer
  = Ok [JStr "https://cdn.example/a.png"; JStr "https://cdn.example/c.png";
        JStr "https://cdn.example/d.png"; JStr "https://cdn.example/e.png"].
Proof.
  destruct (X1_extract_urls_on_list_shapes mixed_answer) as (urls & -> & -> & _).
  - cbn. repeat constructor.
  - reflexivity.
Defined.

(** ** The resolver on data URIs and URLs *)

Lemma split_comma_1_app head payload :
  mentions ","%char head = false ->
  split_comma_1 (head ++ "," ++ payload) = (head, Some payload).
Proof.
  induction head as [|a head IH]; [reflexivity|].
  cbn [mentions]. intros [Ha Hrest]%orb_false_elim.
  change (String a head ++ "," ++ payload)%string
    with (String a (head ++ "," ++ payload)).
  cbn [split_comma_1]. rewrite Ha, (IH Hrest). reflexivity.
Qed.

Lemma split_comma_1_none s :
  mentions ","%char s = false -> split_comma_1 s = (s, None).
Proof.
  induction s as [|a s IH]; [reflexivity|].
  cbn [mentions]. intros [Ha Hrest]%orb_false_elim.
  cbn [split_comma_1]. rewrite Ha, (IH Hrest). reflexivity.
Qed.

Lemma startswith_truthy s p : truthy p = true -> startswith s p = true -> truthy s = true.
Proof. destruct p; [discriminate|]. destruct s; [discriminate|reflexivity]. Qed.

(** X2.  A reference that starts with [data:image] is sent inline as the
    text that follows its first comma, whatever that text is; when it has no
    comma it is sent as a URL, unchanged.  Neither case touches the file
    system, the network or the log. *)
Theorem X2_prepare_data_uri w data :
  startswith data "data:image" = true ->
  (forall head payload,
     data = (head ++ "," ++ payload)%string ->
     mentions ","%char head = false ->
     _prepare_image w (Some data) = ([], Ok (Some "file", Some payload)))
  /\ (mentions ","%char data = false ->
      _prepare_image w (Some data) = ([], Ok (Some "url", Some data))).
Proof.
  intros Huri.
  pose proof (startswith_truthy data "data:image" eq_refl Huri) as Htruthy.
  unfold _prepare_image. cbn [truthy_opt default from_option id].
  rewrite Htruthy, Huri. cbn [negb]. unfold split_comma_1_snd. split.
  - intros head payload -> Hhead. rewrite (split_comma_1_app _ _ Hhead).
    reflexivity.
  - intros Hnone. rewrite (split_comma_1_none _ Hnone). reflexivity.
Qed.

(** A PNG data URI and a data URI cut before its comma. *)
Lemma X2_prepare_data_uri_witness :
  _prepare_image shelf (Some "data:image/png;base64,TWFu,extra")
    = ([], Ok (Some "file", Some "TWFu,extra"))
  /\ _prepare_image shelf (Some "data:image/png;base64")
     = ([], Ok (Some "url", Some "data:image/png;base64")).
Proof.
  split.
  - apply (proj1 (X2_prepare_data_uri shelf "data:image/png;base64,TWFu,extra"
                    eq_refl) "data:image/png;base64" "TWFu,extra");
      reflexivity.
  - apply (proj2 (X2_prepare_data_uri shelf "data:image/png;base64" eq_refl)).
    reflexivity.
Defined.

(** X3.  The resolver never raises, calls no provider, downloads nothing
    and prints at most one line.  For an absent or empty reference it
    returns no key and no value.  For every other reference it returns the
    key [file] or the key [url] with a value, and a value sent under [url]
    is always the reference itself. *)
Theorem X3_prepare_image_total w data :
  exists t kind payload,
    _prepare_image w data = (t, Ok (kind, payload))
    /\ posts t = [] /\ gets t = [] /\ (length t <= 1)%nat
    /\ (truthy_opt data = false -> t = [] /\ kind = None /\ payload = None)
    /\ (truthy_opt data = true ->
        (kind = Some "file" \/ kind = Some "url")
        /\ (exists v, payload = Some v)
        /\ (kind = Some "url" -> payload = data)).
Proof.
  unfold _prepare_image. destruct data as [data|]; cbn [truthy_opt].
  2: { exists [], None, None. cbn. repeat split; auto; discriminate. }
  destruct (truthy data) eqn:Htruthy; cbn [negb].
  2: { exists [], None, None. cbn. repeat split; auto; discriminate. }
  cbn [default from_option id].
  destruct (startswith data "data:image").
  { destruct (split_comma_1_snd data); io_simpl;
      do 3 eexists; (split; [reflexivity|]);
      repeat split; eauto; try discriminate; cbn; lia. }
  destruct (startswith data "http").
  { do 3 eexists. split; [reflexivity|].
    repeat split; eauto; try discriminate; cbn; lia. }
  destruct (path_exists w _); io_simpl.
  2: { do 3 eexists. split; [reflexivity|].
       repeat split; eauto; try discriminate; cbn; lia. }
  destruct (read_file w _); io_simpl;
    do 3 eexists; (split; [reflexivity|]);
    repeat split; eauto; try discriminate; cbn; lia.
Qed.

(** ** Outcomes of the provider clients *)

Lemma raise_for_status_ok resp :
  is_http_error (status_code resp) = false -> raise_for_status resp = Ok tt.
Proof.
  unfold raise_for_status, is_http_error. intros H.
  destruct ((400 <=? status_code resp) && (status_code resp <? 500)) eqn:E1.
  { apply andb_prop in E1 as [A B]. rewrite A in H. cbn in H. lia. }
  destruct ((500 <=? status_code resp) && (status_code resp <? 600)) eqn:E2.
  { apply andb_prop in E2 as [A B]. rewrite B, andb_true_r in H. lia. }
  reflexivity.
Qed.

Lemma raise_for_status_error resp :
  is_http_error (status_code resp) = true ->
  exists msg,
    raise_for_status resp
    = Raise (HTTPError msg (status_code resp) (text resp)
               (match json_body resp with Ok j => Some j | Raise _ => None end)).
Proof.
  unfold raise_for_status, is_http_error. intros [A B]%andb_prop.
  destruct ((400 <=? status_code resp) && (status_code resp <? 500)) eqn:E1;
    [eauto|].
  destruct ((500 <=? status_code resp) && (status_code resp <? 600)) eqn:E2;
    [eauto|].
  apply andb_false_iff in E1 as [E1|E1], E2 as [E2|E2]; lia.
Qed.

Lemma raise_for_status_cases resp :
  (is_http_error (status_code resp) = false /\ raise_for_status resp = Ok tt)
  \/ (is_http_error (status_code resp) = true
      /\ exists msg,
           raise_for_status resp
           = Raise (HTTPError msg (status_code resp) (text resp)
                      (match json_body resp with Ok j => Some j | Raise _ => None end))).
Proof.
  destruct (is_http_error (status_code resp)) eqn:E.
  - right. split; [reflexivity|]. apply raise_for_status_error, E.
  - left. split; [reflexivity|]. apply raise_for_status_ok, E.
Qed.

(** The outcome of a run, by the answer of the provider. *)
Lemma generate_product_shot_outcome w api_key image_data ref_image_data
    scene_description gemini_api_key num_results sync force_rmbg content_moderation :
  let run := generate_product_shot w api_key image_data ref_image_data
               scene_description gemini_api_key num_results sync force_rmbg
               content_moderation in
  exists url data j,
    posts (trace run) = [(url, headers_of api_key, data)]
    /\ outcome run = Ok j
    /\ (forall e, requests_post w url (headers_of api_key) data = Raise e ->
          carries_response e = false ->
          j = JDict {[ "error" := JStr (str_of_exn e); "status_code" := JInt 400;
                       "url_attempted" := JStr url ]})
    /\ (forall resp,
          requests_post w url (headers_of api_key) data = Ok resp ->
          if is_http_error (status_code resp)
          then j = JDict {[ "error" := match json_body resp with
                                       | Ok body => body
                                       | Raise _ => JStr (text resp)
                                       end;
                            "status_code" := JInt (status_code resp);
                            "url_attempted" := JStr url ]}
          else match json_body resp with
               | Ok body => j = body
               | Raise e =>
                   carries_response e = false ->
                   j = JDict {[ "error" := JStr (str_of_exn e);
                                "status_code" := JInt 400;
                                "url_attempted" := JStr url ]}
               end).
Proof.
  intros run. subst run.
  destruct (generate_product_shot_posts w api_key image_data ref_image_data
              scene_description gemini_api_key num_results sync force_rmbg
              content_moderation) as (t & url & data & E & Hposts).
  exists url, data. unfold generate_product_shot in *. rewrite E in *.
  clear E. io_simpl.
  destruct (requests_post w url (headers_of api_key) data) as [resp|e]; io_simpl.
  2: { eexists. split; [exact Hposts|]. split; [reflexivity|].
       split; [|intros ? [=]]. intros ? [= <-] He.
       destruct e; try discriminate; reflexivity. }
  destruct (raise_for_status_cases resp) as [[Hs Hr]|[Hs [msg Hr]]];
    rewrite Hr in *; io_simpl.
  - destruct (json_body resp) as [body|e] eqn:Ebody; io_simpl.
    + exists body. split; [exact Hposts|]. split; [reflexivity|].
      split; [intros ? [=]|]. intros ? [= <-]. rewrite Hs, Ebody. reflexivity.
    + eexists. split; [exact Hposts|]. split; [reflexivity|].
      split; [intros ? [=]|]. intros ? [= <-]. rewrite Hs, Ebody.
      intros He. destruct e; try discriminate; reflexivity.
  - eexists. split; [exact Hposts|]. split; [reflexivity|].
    split; [intros ? [=]|]. intros ? [= <-]. rewrite Hs.
    destruct (json_body resp); reflexivity.
Qed.

(** X4.  [generate_product_shot] never raises and makes exactly one provider
    call.  A response with an error status (400 to 599) comes back as an
    error object that carries that status, the endpoint called, and the
    response's JSON body (its text when it is not JSON).  A call that fails
    without a response, or a response that is not JSON, comes back as an
    error object with status 400.  Every other response comes back as its
    JSON body. *)
Theorem X4_product_shot_failure_policy w api_key image_data ref_image_data
    scene_description gemini_api_key num_results sync force_rmbg content_moderation :
  let run := generate_product_shot w api_key image_data ref_image_data
               scene_description gemini_api_key num_results sync force_rmbg
               content_moderation in
  exists url data j,
    posts (trace run) = [(url, headers_of api_key, data)]
    /\ outcome run = Ok j
    /\ (forall e, requests_post w url (headers_of api_key) data = Raise e ->
          carries_response e = false ->
          j = JDict {[ "error" := JStr (str_of_exn e); "status_code" := JInt 400;
                       "url_attempted" := JStr url ]})
    /\ (forall resp,
          requests_post w url (headers_of api_key) data = Ok resp ->
          if is_http_error (status_code resp)
          then j = JDict {[ "error" := match json_body resp with
                                       | Ok body => body
                                       | Raise _ => JStr (text resp)
                                       end;
                            "status_code" := JInt (status_code resp);
                            "url_attempted" := JStr url ]}
          else match json_body resp with
               | Ok body => j = body
               | Raise e =>
                   carries_response e = false ->
                   j = JDict {[ "error" := JStr (str_of_exn e);
                                "status_code" := JInt 400;
                                "url_attempted" := JStr url ]}
               end).
Proof.
  apply generate_product_shot_outcome.
Qed.

(** A provider that rejects the request with status 422 and a JSON body. *)
Lemma X4_product_shot_failure_policy_witness :
  outcome (generate_product_shot rejecting (Some "bria-key") (Some product_b64)
             None (Some "on a rustic table") None 4 true false false)
  = Ok (JDict {[ "error" := JDict {[ "message" := JStr "image too small" ]};
                 "status_code" := JInt 422;
                 "url_attempted" := JStr by_text_url ]}).
Proof.
  destruct (X4_product_shot_failure_policy rejecting (Some "bria-key")
              (Some product_b64) None (Some "on a rustic table") None
              4 true false false)
    as (url & data & j & Hposts & Hout & _ & Hresp).
  rewrite Hout. f_equal. injection Hposts as <- <-.
  exact (Hresp _ eq_refl).
Defined.

Section AttemptOutcome.

Variable w : World.
Variables headers data : gmap string json.

(** A value returned by the [try] block is the JSON body of the last
    response, whose status is no error status; what it raises is raised by
    a call, by [raise_for_status] or by [json()]. *)
Lemma attempt_returns_last j :
  outcome (attempt w headers data) = Ok j ->
  exists url resp,
    last (posted_urls (trace (attempt w headers data))) = Some url
    /\ requests_post w url headers data = Ok resp
    /\ is_http_error (status_code resp) = false
    /\ json_body resp = Ok j.
Proof.
  unfold attempt. io_simpl.
  destruct (requests_post w primary_url headers data) as [r1|] eqn:E1;
    io_simpl; [|discriminate].
  assert (Hfinish : forall (t : list event) url resp,
            requests_post w url headers data = Ok resp ->
            forall tail : io json,
              tail = ((if negb (status_code resp =? 200)
                       then ([Print ("Bria Error Status: " ++ pretty (status_code resp));
                              Print ("Bria Error Response: " ++ text resp)], Ok tt)
                       else mret tt)
                      ≫= fun _ => _ ← lift (raise_for_status resp);
                                  _ ← print ("Response status: "
                                             ++ pretty (status_code resp));
                                  lift (json_body resp)) ->
              outcome tail = Ok j ->
              is_http_error (status_code resp) = false /\ json_body resp = Ok j).
  { intros t url resp Hresp tail -> Hout.
    destruct (raise_for_status_cases resp) as [[Hs Hr]|[Hs [msg Hr]]].
    - split; [exact Hs|]. revert Hout. rewrite Hr.
      destruct (negb (status_code resp =? 200)); io_simpl;
        destruct (json_body resp); io_simpl; congruence.
    - revert Hout. rewrite Hr.
      destruct (negb (status_code resp =? 200)); io_simpl; discriminate. }
  destruct (status_code r1 =? 400) eqn:S1; io_simpl.
  - destruct (requests_post w alt_url headers data) as [r2|] eqn:E2;
      io_simpl; [|discriminate].
    destruct (status_code r2 =? 400) eqn:S2; io_simpl.
    + destruct (requests_post w alt_url_v2 headers data) as [r3|] eqn:E3;
        io_simpl; [|discriminate].
      intros Hout. exists alt_url_v2, r3.
      destruct (Hfinish [] alt_url_v2 r3 E3 _ eq_refl) as [Hs Hj].
      { revert Hout. io_simpl.
        destruct (negb (status_code r3 =? 200)); io_simpl;
          destruct (raise_for_status r3); io_simpl; auto. }
      split; [|auto].
      destruct (negb (status_code r3 =? 200)); io_simpl;
        destruct (raise_for_status r3); io_simpl; reflexivity.
    + intros Hout. exists alt_url, r2.
      destruct (Hfinish [] alt_url r2 E2 _ eq_refl) as [Hs Hj].
      { revert Hout. io_simpl.
        destruct (negb (status_code r2 =? 200)); io_simpl;
          destruct (raise_for_status r2); io_simpl; auto. }
      split; [|auto].
      destruct (negb (status_code r2 =? 200)); io_simpl;
        destruct (raise_for_status r2); io_simpl; reflexivity.
  - intros Hout. exists primary_url, r1.
    destruct (Hfinish [] primary_url r1 E1 _ eq_refl) as [Hs Hj].
    { revert Hout. io_simpl.
      destruct (negb (status_code r1 =? 200)); io_simpl;
        destruct (raise_for_status r1); io_simpl; auto. }
    split; [|auto].
    destruct (negb (status_code r1 =? 200)); io_simpl;
      destruct (raise_for_status r1); io_simpl; reflexivity.
Qed.

End AttemptOutcome.

(** X5.  [remove_background] given neither a URL nor image bytes raises
    [ValueError] before any provider call.  When it returns, it returns the
    JSON body of the last response it received, and that response has no
    error status.  Everything else it raises is an [Exception] whose text
    starts with "Background removal failed: ". *)
Theorem X5_remove_background_outcomes w api_key image_data image_url sync content_moderation :
  let run := remove_background w api_key image_data image_url sync content_moderation in
  (truthy_opt image_url = false ->
   truthy_bytes (default [] image_data) = false ->
   exists msg, run = ([], Raise (ValueError msg)))
  /\ (forall j,
        outcome run = Ok j ->
        exists data url resp,
          request_data image_data image_url sync content_moderation = Ok data
          /\ last (posted_urls (trace run)) = Some url
          /\ requests_post w url (headers_of api_key) data = Ok resp
          /\ is_http_error (status_code resp) = false
          /\ json_body resp = Ok j)
  /\ (forall e,
        outcome run = Raise e ->
        (exists msg, e = ValueError msg /\ trace run = [])
        \/ exists msg, e = Exception ("Background removal failed: " ++ msg)).
Proof.
  intros run. subst run. unfold remove_background.
  split; [|split].
  - unfold request_data. intros -> ->. eexists. reflexivity.
  - intros j. destruct (request_data _ _ _ _) as [data|e] eqn:Edata; io_simpl;
      [|discriminate].
    pose proof (attempt_returns_last w (headers_of api_key) data j) as H.
    destruct (attempt w (headers_of api_key) data) as [t [j'|e]]; io_simpl;
      [|discriminate].
    intros [= ->]. destruct (H eq_refl) as (url & resp & H1 & H2 & H3 & H4).
    exists data, url, resp. auto.
  - intros e. destruct (request_data _ _ _ _) as [data|e'] eqn:Edata; io_simpl.
    + destruct (attempt w (headers_of api_key) data) as [t [j'|e']]; io_simpl;
        [discriminate|].
      intros [= <-]. right. eexists. reflexivity.
    + intros [= <-]. left. unfold request_data in Edata.
      destruct (truthy_opt image_url); [discriminate|].
      destruct (truthy_bytes _); [discriminate|].
      injection Edata as <-. eauto.
Qed.

(** A provider that answers 422: the failure carries the status and the
    text of the response. *)
Lemma X5_remove_background_outcomes_witness :
  outcome (remove_background rejecting (Some "bria-key") None
             (Some "https://shop.example/p.png") true false)
  = Raise (Exception "Background removal failed: 422 - Unprocessable Entity")
  /\ exists msg,
       remove_background rejecting (Some "bria-key") None None true false
       = ([], Raise (ValueError msg)).
Proof.
  split; [reflexivity|].
  apply (proj1 (X5_remove_background_outcomes rejecting (Some "bria-key")
                  None None true false)); reflexivity.
Defined.

(** ** Downloads *)

(** X6.  [download_image] never raises and calls no provider.  For an
    absent or empty URL it returns [None] without touching the network.
    Otherwise it makes at most one download; it returns bytes only when the
    URL is a text, the download answered and the answer has no error
    status, and then the bytes are the content of the answer; every failure
    is printed and gives [None]. *)
Theorem X6_download_image_total w url :
  let run := download_image w url in
  exists r,
    outcome run = Ok r
    /\ posts (trace run) = []
    /\ (length (gets (trace run)) <= 1)%nat
    /\ (json_truthy url = false -> run = ([], Ok None))
    /\ (forall raw,
          r = Some raw ->
          exists u resp,
            url = JStr u /\ trace run = [Get u]
            /\ requests_get w u = Ok resp
            /\ is_http_error (status_code resp) = false
            /\ content resp = raw)
    /\ (json_truthy url = true -> r = None ->
        exists msg, last (trace run) = Some (Print ("Download failed: " ++ msg))).
Proof.
  intros run. subst run. unfold download_image.
  destruct (json_truthy url) eqn:Htruthy; cbn [negb].
  2: { exists None. repeat split; try reflexivity; try discriminate. cbn. lia. }
  destruct url as [| | | |u| |];
    try (exists None; io_simpl; repeat split; try reflexivity; try discriminate;
         try (cbn; lia); intros _ _; eexists; reflexivity).
  io_simpl. destruct (requests_get w u) as [resp|e] eqn:Eget; io_simpl.
  2: { exists None. repeat split; try reflexivity; try discriminate;
       try (cbn; lia). intros _ _. eexists. reflexivity. }
  destruct (raise_for_status_cases resp) as [[Hs Hr]|[Hs [msg Hr]]];
    rewrite Hr; io_simpl.
  - exists (Some (content resp)).
    split; [reflexivity|]. split; [reflexivity|]. split; [cbn; lia|].
    split; [discriminate|]. split; [|discriminate].
    intros raw [= <-]. exists u, resp. auto.
  - exists None. split; [reflexivity|]. split; [reflexivity|].
    split; [cbn; lia|]. split; [discriminate|]. split; [discriminate|].
    intros _ _. eexists. reflexivity.
Qed.

(** A download that succeeds and one that answers 404. *)
Lemma X6_download_image_total_witness :
  download_image serving (JStr "https://shop.example/p.png")
    = ([Get "https://shop.example/p.png"], Ok (Some (list_ascii_of_string "Man")))
  /\ outcome (download_image serving (JStr "https://shop.example/q.png")) = Ok None.
Proof.
  destruct (X6_download_image_total serving (JStr "https://shop.example/p.png"))
    as (r & Hout & _ & _ & _ & Hsome & _).
  split; [|reflexivity].
  destruct r as [raw|]; [|discriminate Hout].
  destruct (Hsome raw eq_refl) as (u & resp & [= <-] & Ht & Hget & _ & Hraw).
  injection Hget as <-. simpl in Hraw. subst raw.
  destruct (download_image serving (JStr "https://shop.example/p.png")) as [t o].
  simpl in *. subst. reflexivity.
Defined.

(** ** The photography route *)

Lemma download_image_returns w url :
  exists t r, download_image w url = (t, Ok r) /\ posts t = [].
Proof.
  unfold download_image. destruct (json_truthy url); cbn [negb];
    [|do 2 eexists; split; reflexivity].
  destruct url; io_simpl; try (do 2 eexists; split; reflexivity).
  destruct (requests_get w s) as [resp|e]; io_simpl;
    [|do 2 eexists; split; reflexivity].
  destruct (raise_for_status resp); io_simpl; do 2 eexists; split; reflexivity.
Qed.

Lemma process_returns w form operation image_url img_bytes :
  exists t r, process w form operation image_url img_bytes = (t, Ok r).
Proof.
  destruct (process_reply w form operation image_url img_bytes) as (r & Hr & _).
  destruct (process w form operation image_url img_bytes) as [t o].
  simpl in Hr. subst o. eauto.
Qed.


Lemma dispatch_unknown w form operation image_url img_bytes :
  known_operation operation = false ->
  dispatch w form operation image_url img_bytes
  = ([], Ok (inl (error_reply "Invalid operation" 400))).
Proof.
  unfold known_operation, dispatch.
  intros H. repeat apply orb_false_elim in H as [H ?].
  rewrite H, H0, H1, H2. reflexivity.
Qed.

(** X8.  A request whose [operation] is none of [remove_bg], [packshot],
    [shadow] and [lifestyle] (or is missing) is answered 400 "Invalid
    operation" without any provider call; but the operation is looked at
    only after the image has been obtained, so a request that gives the
    image by URL has it downloaded first. *)
Theorem X8_invalid_operation w form image_file :
  known_operation (form !! "operation") = false ->
  let run := api_process_photography w form image_file in
  (truthy (default EmptyString (filename <$> image_file)) = true ->
   run = ([], Ok (error_reply "Invalid operation" 400)))
  /\ (truthy (default EmptyString (filename <$> image_file)) = false ->
      truthy_opt (form !! "image_url") = true ->
      outcome run = Ok (error_reply "Invalid operation" 400)
      /\ posts (trace run) = []
      /\ trace run = trace (download_image w (json_of_opt (form !! "image_url")))).
Proof.
  intros Hop run. subst run. unfold api_process_photography, process. split.
  - intros ->. rewrite (dispatch_unknown _ _ _ _ _ Hop). reflexivity.
  - intros -> ->.
    destruct (download_image_returns w (json_of_opt (form !! "image_url")))
      as (t0 & bytes & -> & Hp). io_simpl.
    rewrite (dispatch_unknown _ _ _ _ _ Hop). io_simpl.
    rewrite app_nil_r. auto.
Qed.

(** A request by URL for an operation that does not exist: the picture is
    downloaded, then the request is refused. *)
Lemma X8_invalid_operation_witness :
  api_process_photography serving upscale_form None
  = ([Get "https://shop.example/p.png"],
     Ok (error_reply "Invalid operation" 400)).
Proof.
  destruct (X8_invalid_operation serving upscale_form None eq_refl) as [_ H].
  destruct (H eq_refl eq_refl) as (Hout & _ & Ht).
  destruct (api_process_photography serving _ None) as [t o].
  simpl in Hout, Ht. subst. reflexivity.
Defined.

(** The photography route on [remove_bg]: the trace is that of the client,
    and the reply is built from what the client returns or raises. *)
Lemma process_remove_bg w form image_url img_bytes :
  let client :=
    if truthy_opt image_url
    then remove_background w (BRIA_API_KEY w) None image_url true false
    else remove_background w (BRIA_API_KEY w) img_bytes None true false in
  process w form (Some "remove_bg") image_url img_bytes
  = (trace client,
     Ok match outcome client with
        | Ok result =>
            match respond_photography result with
            | Ok r => r
            | Raise e => error_reply (str_of_exn e) 500
            end
        | Raise e => error_reply (str_of_exn e) 500
        end).
Proof.
  intros client. subst client. unfold process, dispatch.
  rewrite bool_decide_eq_true_2 by reflexivity.
  destruct (truthy_opt image_url);
    match goal with
    | |- context [remove_background ?x1 ?x2 ?x3 ?x4 ?x5 ?x6] =>
        destruct (remove_background x1 x2 x3 x4 x5 x6) as [t [result|err]]
    end; io_simpl; rewrite ?app_nil_r; try reflexivity;
    destruct (respond_photography result); io_simpl; rewrite ?app_nil_r;
    reflexivity.
Qed.

(** X9.  On the photography route, a [remove_bg] request that gives an
    image URL sends the provider that URL and never the image bytes, also
    when a file was uploaded with it: every provider call of the run has
    [image_url] and no [file], and the first goes to the primary endpoint.
    With an upload the URL is not downloaded either. *)
Theorem X9_remove_bg_route_sends_url w form image_file url :
  form !! "operation" = Some "remove_bg" ->
  form !! "image_url" = Some url ->
  truthy url = true ->
  let run := api_process_photography w form image_file in
  exists data,
    head (posts (trace run)) = Some (primary_url, headers_of (BRIA_API_KEY w), data)
    /\ Forall (fun call => snd call = data) (posts (trace run))
    /\ data !! "image_url" = Some (JStr url)
    /\ data !! "file" = None
    /\ (truthy (default EmptyString (filename <$> image_file)) = true ->
        gets (trace run) = []).
Proof.
  intros Hop Hurl Htruthy run. subst run.
  assert (exists data, request_data None (Some url) true false = Ok data)
    as [data Hdata].
  { unfold request_data. simpl. rewrite Htruthy. eauto. }
  pose proof (request_data_one_image _ _ _ _ _ Hdata) as Hone.
  simpl in Hone. rewrite Htruthy in Hone. destruct Hone as [Hu Hf].
  destruct (remove_background_posts w (BRIA_API_KEY w) _ _ _ _ _ Hdata)
    as [Hposts Hfirst].
  pose proof (remove_background_trace w (BRIA_API_KEY w) _ _ _ _ _ Hdata) as Htrace.
  assert (Hgets : gets (trace (remove_background w (BRIA_API_KEY w) None
                                 (Some url) true false)) = []).
  { rewrite Htrace. unfold attempt. provider_cases; reflexivity. }
  exists data. unfold api_process_photography. rewrite Hop, Hurl.
  cbn [truthy_opt]. rewrite Htruthy.
  pose proof (process_remove_bg w form (Some url)) as Hproc.
  cbn zeta in Hproc. cbn [truthy_opt] in Hproc. rewrite Htruthy in Hproc.
  assert (Hfinal : forall t0 bytes, posts t0 = [] ->
            let t := (t0 ++ trace (process w form (Some "remove_bg") (Some url) bytes))%list in
            head (posts t) = Some (primary_url, headers_of (BRIA_API_KEY w), data)
            /\ Forall (fun call => snd call = data) (posts t)
            /\ data !! "image_url" = Some (JStr url)
            /\ data !! "file" = None).
  { intros t0 bytes Hp0 t. subst t. rewrite Hproc. cbn [trace fst].
    rewrite posts_app, Hp0, app_nil_l, Hposts.
    split; [|split; [|auto]].
    - destruct (posted_urls _); [discriminate|]. simpl in *. congruence.
    - apply Forall_fmap, Forall_true. reflexivity. }
  destruct (truthy (default EmptyString (filename <$> image_file))).
  - destruct (Hfinal [] (stream <$> image_file) eq_refl) as (H1 & H2 & H3 & H4).
    cbn [app] in H1, H2. repeat (split; [assumption|]).
    intros _. rewrite Hproc. cbn [trace fst]. exact Hgets.
  - destruct (download_image_returns w (json_of_opt (Some url)))
      as (t0 & bytes & E & Hp0). rewrite E. io_simpl.
    destruct (Hfinal t0 bytes Hp0) as (H1 & H2 & H3 & H4).
    destruct (process w form (Some "remove_bg") (Some url) bytes) as [t o].
    io_simpl. cbn [trace fst] in H1, H2.
    repeat (split; [assumption|]). discriminate.
Qed.

(** An upload sent together with a URL: only the URL reaches the provider,
    and nothing is downloaded. *)
Lemma X9_remove_bg_route_sends_url_witness :
  exists data,
    posts (trace (api_process_photography (Sample.answering two_urls_answer)
                    remove_bg_form (upload "p.png" (list_ascii_of_string "Man"))))
    = [(primary_url, headers_of (Some "bria-key"), data)]
    /\ data !! "image_url" = Some (JStr "https://shop.example/p.png")
    /\ data !! "file" = None.
Proof.
  destruct (X9_remove_bg_route_sends_url (Sample.answering two_urls_answer)
              remove_bg_form (upload "p.png" (list_ascii_of_string "Man"))
              "https://shop.example/p.png" eq_refl eq_refl eq_refl)
    as (data & Hhead & _ & Hu & Hf & _).
  exists data. split; [|auto].
  change (posts _) with
    [(primary_url, headers_of (Some "bria-key"),
      ({[ "image_url" := JStr "https://shop.example/p.png";
          "sync" := JBool true; "content_moderation" := JBool false ]}
       : gmap string json))] in Hhead |- *.
  injection Hhead as <-. reflexivity.
Defined.

(** X10.  On the photography route, a [remove_bg] request with an upload
    and no image URL sends the provider the base64 text of the uploaded
    bytes under [file], without [image_url], and downloads nothing.  When
    the upload is empty, no provider is called and the reply is 500 with
    the text of the [ValueError]. *)
Theorem X10_remove_bg_route_sends_upload w form name raw :
  form !! "operation" = Some "remove_bg" ->
  truthy_opt (form !! "image_url") = false ->
  truthy name = true ->
  let run := api_process_photography w form (upload name raw) in
  (raw <> [] ->
   exists data,
     head (posts (trace run))
       = Some (primary_url, headers_of (BRIA_API_KEY w), data)
     /\ Forall (fun call => snd call = data) (posts (trace run))
     /\ data !! "file" = Some (JStr (Base64.b64encode raw))
     /\ data !! "image_url" = None
     /\ gets (trace run) = [])
  /\ (raw = [] ->
      run = ([], Ok (error_reply
                       "Either image_data or image_url must be provided" 500))).
Proof.
  intros Hop Hurl Hname run. subst run.
  unfold api_process_photography, upload. cbn [fmap option_fmap option_map
    default from_option id filename stream]. rewrite Hname, Hop.
  pose proof (process_remove_bg w form (form !! "image_url") (Some raw)) as Hproc.
  cbn zeta in Hproc. rewrite Hurl in Hproc. rewrite Hproc. clear Hproc.
  cbn [trace outcome fst snd]. split.
  - intros Hraw.
    assert (exists data, request_data (Some raw) None true false = Ok data)
      as [data Hdata].
    { unfold request_data. simpl. destruct raw; [congruence|]. eauto. }
    pose proof (request_data_one_image _ _ _ _ _ Hdata) as Hone.
    simpl in Hone. destruct Hone as [Hu Hf].
    destruct (remove_background_posts w (BRIA_API_KEY w) _ _ _ _ _ Hdata)
      as [Hposts Hfirst].
    pose proof (remove_background_trace w (BRIA_API_KEY w) _ _ _ _ _ Hdata)
      as Htrace.
    exists data. rewrite Hposts. split; [|split; [|split; [|split]]].
    + destruct (posted_urls _); [discriminate|]. simpl in *. congruence.
    + apply Forall_fmap, Forall_true. reflexivity.
    + exact Hf.
    + exact Hu.
    + rewrite Htrace. unfold attempt. provider_cases; reflexivity.
  - intros ->. reflexivity.
Qed.

(** An upload of three bytes, and an empty upload. *)
Lemma X10_remove_bg_route_sends_upload_witness :
  (exists data,
     head (posts (trace (api_process_photography (Sample.answering two_urls_answer)
                           upload_form (upload "p.png" (list_ascii_of_string "Man")))))
       = Some (primary_url, headers_of (Some "bria-key"), data)
     /\ data !! "file" = Some (JStr "TWFu"))
  /\ api_process_photography (Sample.answering two_urls_answer) upload_form
       (upload "p.png" [])
     = ([], Ok (error_reply "Either image_data or image_url must be provided" 500)).
Proof.
  split.
  - destruct (proj1 (X10_remove_bg_route_sends_upload
                       (Sample.answering two_urls_answer) upload_form "p.png"
                       (list_ascii_of_string "Man") eq_refl eq_refl eq_refl)
                ltac:(discriminate))
      as (data & Hhead & _ & Hf & _).
    exists data. split; assumption.
  - apply (proj2 (X10_remove_bg_route_sends_upload
                    (Sample.answering two_urls_answer) upload_form "p.png" []
                    eq_refl eq_refl eq_refl)).
    reflexivity.
Defined.

(** The photography route on [lifestyle]: the trace is that of
    [generate_product_shot], and the reply is built from its result. *)
Lemma process_lifestyle w form image_url img_bytes :
  let shot :=
    generate_product_shot w (BRIA_API_KEY w) (image_to_base64 img_bytes)
      (form_reference form) (Some (default EmptyString (form !! "prompt")))
      (GOOGLE_API_KEY w) 4 true false false in
  process w form (Some "lifestyle") image_url img_bytes
  = (trace shot,
     Ok match outcome shot with
        | Ok result => lifestyle_reply result
        | Raise e => error_reply (str_of_exn e) 500
        end).
Proof.
  intros shot. subst shot. unfold process, dispatch, form_reference, lifestyle_reply.
  rewrite (bool_decide_eq_false_2 (Some "lifestyle" = Some "remove_bg")) by discriminate.
  rewrite (bool_decide_eq_false_2 (Some "lifestyle" = Some "packshot")) by discriminate.
  rewrite (bool_decide_eq_false_2 (Some "lifestyle" = Some "shadow")) by discriminate.
  rewrite bool_decide_eq_true_2 by reflexivity.
  match goal with
  | |- context [generate_product_shot ?x1 ?x2 ?x3 ?x4 ?x5 ?x6 ?x7 ?x8 ?x9 ?x10] =>
      destruct (generate_product_shot x1 x2 x3 x4 x5 x6 x7 x8 x9 x10)
        as [t [result|err]]
  end; io_simpl; rewrite ?app_nil_r; [|reflexivity].
  destruct result as [| | | | | |d]; io_simpl; rewrite ?app_nil_r;
    try (destruct (respond_photography _); io_simpl; rewrite ?app_nil_r;
         reflexivity).
  destruct (contains d "error"); io_simpl; rewrite ?app_nil_r; [reflexivity|].
  destruct (respond_photography _); io_simpl; rewrite ?app_nil_r; reflexivity.
Qed.

(** X11.  On the photography route, a [lifestyle] request with an upload
    makes exactly one provider call, and a failure of that call reaches the
    client with a status of its own: a response with an error status is
    answered with that same status and an error object naming the endpoint;
    a call that fails without a response is answered 400; and a response
    without error status whose JSON body has an [error] member is answered
    with that body and its [status_code] member, 500 when it has none. *)
Theorem X11_lifestyle_failures_reach_client w form name raw :
  form !! "operation" = Some "lifestyle" ->
  truthy name = true ->
  let run := api_process_photography w form (upload name raw) in
  exists url data,
    posts (trace run) = [(url, headers_of (BRIA_API_KEY w), data)]
    /\ (forall resp,
          requests_post w url (headers_of (BRIA_API_KEY w)) data = Ok resp ->
          is_http_error (status_code resp) = true ->
          outcome run
          = Ok {| body := JDict {[ "error" := match json_body resp with
                                              | Ok b => b
                                              | Raise _ => JStr (text resp)
                                              end;
                                   "status_code" := JInt (status_code resp);
                                   "url_attempted" := JStr url ]};
                  status := JInt (status_code resp) |})
    /\ (forall e,
          requests_post w url (headers_of (BRIA_API_KEY w)) data = Raise e ->
          carries_response e = false ->
          outcome run
          = Ok {| body := JDict {[ "error" := JStr (str_of_exn e);
                                   "status_code" := JInt 400;
                                   "url_attempted" := JStr url ]};
                  status := JInt 400 |})
    /\ (forall resp d,
          requests_post w url (headers_of (BRIA_API_KEY w)) data = Ok resp ->
          is_http_error (status_code resp) = false ->
          json_body resp = Ok (JDict d) ->
          is_Some (d !! "error") ->
          outcome run
          = Ok {| body := JDict d;
                  status := default (JInt 500) (d !! "status_code") |}).
Proof.
  intros Hop Hname run. subst run.
  unfold api_process_photography, upload. cbn [fmap option_fmap option_map
    default from_option id filename stream]. rewrite Hname, Hop.
  rewrite process_lifestyle.
  destruct (generate_product_shot_outcome w (BRIA_API_KEY w)
              (image_to_base64 (Some raw)) (form_reference form)
              (Some (default EmptyString (form !! "prompt"))) (GOOGLE_API_KEY w)
              4 true false false)
    as (url & data & j & Hposts & Hout & Hraise & Hresp).
  exists url, data. cbn [trace outcome fst snd]. split; [exact Hposts|].
  rewrite Hout. split; [|split].
  - intros resp E Hs. specialize (Hresp resp E). rewrite Hs in Hresp. subst j.
    reflexivity.
  - intros e E He. rewrite (Hraise e E He). reflexivity.
  - intros resp d E Hs Hbody Herr. specialize (Hresp resp E).
    rewrite Hs, Hbody in Hresp. subst j. unfold lifestyle_reply.
    rewrite contains_lookup. destruct Herr as [v ->]. reflexivity.
Qed.

(** A provider that answers 422, and one that answers 200 with an error
    payload. *)
Lemma X11_lifestyle_failures_reach_client_witness :
  status <$> outcome_value
    (api_process_photography rejecting lifestyle_form
       (upload "p.png" (list_ascii_of_string "Man")))
  = Some (JInt 422)
  /\ status <$> outcome_value
       (api_process_photography complaining lifestyle_form
          (upload "p.png" (list_ascii_of_string "Man")))
     = Some (JInt 500).
Proof.
  split.
  - destruct (X11_lifestyle_failures_reach_client rejecting lifestyle_form
                "p.png" (list_ascii_of_string "Man") eq_refl eq_refl)
      as (url & data & Hposts & Herr & _).
    unfold outcome_value. rewrite (Herr _ eq_refl eq_refl). reflexivity.
  - destruct (X11_lifestyle_failures_reach_client complaining lifestyle_form
                "p.png" (list_ascii_of_string "Man") eq_refl eq_refl)
      as (url & data & Hposts & _ & _ & Herr).
    unfold outcome_value.
    rewrite (Herr _ {[ "error" := JStr "quota exceeded" ]} eq_refl eq_refl eq_refl
               ltac:(eexists; reflexivity)).
    reflexivity.
Defined.

(** ** Base64 text *)

Lemma get_mentions k s c : String.get k s = Some c -> mentions c s = true.
Proof.
  revert k. induction s as [|a s IH]; intros k; [discriminate|].
  destruct k as [|k]; cbn [String.get mentions].
  - intros [= ->]. rewrite Ascii.eqb_refl. reflexivity.
  - intros H. rewrite (IH _ H). apply orb_true_r.
Qed.

Lemma digit_alphabet n c :
  Ascii.eqb (Base64.digit n) c = true ->
  mentions c Base64.alphabet = true \/ c = "="%char.
Proof.
  intros H%Ascii.eqb_eq. unfold Base64.digit in H.
  destruct (String.get (N.to_nat n) Base64.alphabet) eqn:E.
  - left. subst. apply (get_mentions _ _ _ E).
  - right. auto.
Qed.

(** Every character of a base64 text is one of the 64 digits or [=]. *)
Lemma b64encode_alphabet raw c :
  mentions c (Base64.b64encode raw) = true ->
  mentions c Base64.alphabet = true \/ c = "="%char.
Proof.
  assert (H : forall n raw, (length raw <= n)%nat ->
            mentions c (Base64.b64encode raw) = true ->
            mentions c Base64.alphabet = true \/ c = "="%char).
  { clear raw. induction n as [|n IH]; intros raw Hlen.
    - destruct raw; [discriminate|simpl in Hlen; lia].
    - destruct raw as [|x [|y [|z rest]]]; cbn [Base64.b64encode mentions].
      + discriminate.
      + rewrite !orb_false_r.
        intros [H|[H|H%orb_true_iff]%orb_true_iff]%orb_true_iff;
          try (apply (digit_alphabet _ _ H)).
        destruct H as [H|H]; right; apply Ascii.eqb_eq in H; auto.
      + rewrite !orb_false_r.
        intros [H|[H|[H|H]%orb_true_iff]%orb_true_iff]%orb_true_iff;
          try (apply (digit_alphabet _ _ H)).
        right. apply Ascii.eqb_eq in H. auto.
      + intros [H|[H|[H|[H|H]%orb_true_iff]%orb_true_iff]%orb_true_iff]%orb_true_iff;
          try (apply (digit_alphabet _ _ H)).
        apply (IH rest); [simpl in Hlen; lia|exact H]. }
  apply (H (length raw)). lia.
Qed.

Lemma startswith_mentions s p c :
  startswith s p = true -> mentions c p = true -> mentions c s = true.
Proof.
  unfold startswith. revert s. induction p as [|a p IH]; intros s; [discriminate|].
  destruct s as [|b s]; [discriminate|]. cbn [String.prefix mentions].
  destruct (ascii_dec a b) as [<-|]; [|discriminate].
  intros Hp [H|H]%orb_true_iff; [rewrite H; reflexivity|].
  rewrite (IH _ Hp H). apply orb_true_r.
Qed.

(** A base64 text is never a data URI. *)
Lemma b64encode_not_data_uri raw :
  startswith (Base64.b64encode raw) "data:image" = false.
Proof.
  destruct (startswith _ _) eqn:E; [|reflexivity].
  pose proof (startswith_mentions _ _ ":"%char E eq_refl) as H.
  destruct (b64encode_alphabet _ _ H); discriminate.
Qed.

Lemma b64encode_truthy raw : raw <> [] -> truthy (Base64.b64encode raw) = true.
Proof. destruct raw as [|x [|y [|z rest]]]; [congruence|reflexivity..]. Qed.

(** ** A lifestyle request end to end *)

Lemma _prepare_image_http w data :
  startswith data "http" = true ->
  _prepare_image w (Some data) = ([], Ok (Some "url", Some data)).
Proof.
  intros H. unfold _prepare_image. cbn [truthy_opt default from_option id].
  destruct data as [|c data]; [discriminate|]. cbn [truthy negb].
  unfold startswith in *. cbn [String.prefix] in *.
  destruct (ascii_dec "h" c) as [<-|]; [|discriminate].
  cbn. cbn in H. rewrite H. reflexivity.
Qed.

Lemma _prepare_image_inline w data :
  truthy data = true ->
  startswith data "data:image" = false ->
  startswith data "http" = false ->
  path_exists w (lstrip_char "/"%char data) = false ->
  _prepare_image w (Some data) = ([], Ok (Some "file", Some data)).
Proof.
  intros H1 H2 H3 H4. unfold _prepare_image.
  cbn [truthy_opt default from_option id]. rewrite H1, H2, H3, H4. reflexivity.
Qed.

Lemma http_not_template ref :
  startswith ref "http" = true ->
  truthy ref = true /\ startswith ref "/assets/templates/" = false.
Proof.
  destruct ref as [|c ref]; [discriminate|]. unfold startswith.
  cbn [String.prefix]. destruct (ascii_dec "h" c) as [<-|]; [|discriminate].
  intros _. split; reflexivity.
Qed.



(** ** The video route *)

(** The loop stops at the first status check that reports completion. *)
Lemma poll_loop_stops w name before i rest st :
  never_done w name before ->
  operations_get w name i = Ok st ->
  done st = true ->
  poll_loop w name (before ++ i :: rest)
  = (rounds name (S (length before)),
     match error st with
     | Some err => Ok (Some (error_reply err 500))
     | None =>
         match video_uri st with
         | Ok uri => Ok (Some {| body := JDict {[ "video_url" := JStr uri ]};
                                 status := JInt 200 |})
         | Raise e => Raise e
         end
     end).
Proof.
  intros Hbefore Eop Hdone.
  induction Hbefore as [|b before (stb & Eb & Hb) _ IH].
  - cbn [app poll_loop length rounds]. unfold poll. io_simpl. rewrite Eop.
    io_simpl. rewrite Hdone. destruct (error st); io_simpl; [reflexivity|].
    destruct (video_uri st); reflexivity.
  - cbn [app poll_loop length]. unfold poll. io_simpl. rewrite Eb. io_simpl.
    rewrite Hb, IH. reflexivity.
Qed.

Lemma seq_split n m : (n < m)%nat -> seq 0 m = (seq 0 n ++ n :: seq (S n) (m - S n))%list.
Proof.
  intros H. replace m with (n + S (m - S n))%nat at 1 by lia.
  rewrite seq_app. reflexivity.
Qed.

(** The route once the operation is submitted, when the check number [n]
    is the first to report completion. *)
Lemma api_generate_video_stops w request_json operation n st :
  json_truthy (dict_get request_json "image_url") = true ->
  json_truthy (dict_get request_json "prompt") = true ->
  outcome (submit w (dict_get request_json "image_url")
             (dict_get request_json "prompt")
             (default (JStr "16:9") (request_json !! "aspect_ratio"))
             (default (JStr "5") (request_json !! "duration"))) = Ok operation ->
  (n < max_attempts)%nat ->
  never_done w operation (seq 0 n) ->
  operations_get w operation n = Ok st ->
  done st = true ->
  let run := api_generate_video w request_json in
  polls (trace run) = S n
  /\ slept (trace run) = 10 * Z.of_nat (S n)
  /\ outcome run
     = Ok match error st with
          | Some err => error_reply err 500
          | None =>
              match video_uri st with
              | Ok uri => {| body := JDict {[ "video_url" := JStr uri ]};
                             status := JInt 200 |}
              | Raise e => error_reply (str_of_exn e) 500
              end
          end.
Proof.
  intros Hurl Hprompt Hsubmit Hn Hbefore Eop Hdone run. subst run.
  unfold api_generate_video. rewrite Hurl, Hprompt. cbn [negb orb].
  pose proof (submit_idle w (dict_get request_json "image_url")
                (dict_get request_json "prompt")
                (default (JStr "16:9") (request_json !! "aspect_ratio"))
                (default (JStr "5") (request_json !! "duration"))) as Hidle.
  destruct (submit w _ _ _ _) as [t0 o]. cbn [outcome snd] in Hsubmit.
  subst o. cbn [trace fst] in Hidle. io_simpl.
  rewrite (seq_split n max_attempts Hn).
  rewrite (poll_loop_stops w operation _ n _ st Hbefore Eop Hdone).
  rewrite length_seq. destruct (idle_trace _ Hidle) as [Hp Hs].
  assert (Hcount : forall tail : list event,
            tail = [] ->
            polls ((t0 ++ rounds operation (S n) ++ tail) ++ [])%list = S n
            /\ slept ((t0 ++ rounds operation (S n) ++ tail) ++ [])%list
               = 10 * Z.of_nat (S n)).
  { intros tail ->. rewrite !app_nil_r, polls_app, slept_app, Hp, Hs,
      rounds_polls, rounds_slept. split; [reflexivity|lia]. }
  destruct (error st) as [err|]; io_simpl.
  - destruct (Hcount [] eq_refl) as [H1 H2]. rewrite !app_nil_r in H1, H2.
    rewrite ?app_nil_r. cbn [rounds] in *. auto.
  - destruct (video_uri st) as [uri|e]; io_simpl.
    + destruct (Hcount [] eq_refl) as [H1 H2]. rewrite !app_nil_r in H1, H2.
      rewrite ?app_nil_r. cbn [rounds] in *. auto.
    + destruct (Hcount [] eq_refl) as [H1 H2]. rewrite !app_nil_r in H1, H2.
      rewrite ?app_nil_r. cbn [rounds] in *. auto.
Qed.

(** X13.  When the operation was submitted and status check number [n]
    (counting from 0, [n] below 40) is the first to report completion,
    without error and with a video, the route replies 200 with the URI of
    that video after exactly [n + 1] checks and [10 (n + 1)] seconds of
    waiting: it never checks again once a check reports completion. *)
Theorem X13_video_done w request_json operation n st uri :
  json_truthy (dict_get request_json "image_url") = true ->
  json_truthy (dict_get request_json "prompt") = true ->
  outcome (submit w (dict_get request_json "image_url")
             (dict_get request_json "prompt")
             (default (JStr "16:9") (request_json !! "aspect_ratio"))
             (default (JStr "5") (request_json !! "duration"))) = Ok operation ->
  (n < max_attempts)%nat ->
  never_done w operation (seq 0 n) ->
  operations_get w operation n = Ok st ->
  done st = true -> error st = None -> video_uri st = Ok uri ->
  let run := api_generate_video w request_json in
  outcome run = Ok {| body := JDict {[ "video_url" := JStr uri ]};
                      status := JInt 200 |}
  /\ polls (trace run) = S n
  /\ slept (trace run) = 10 * (Z.of_nat n + 1).
Proof.
  intros Hurl Hprompt Hsubmit Hn Hbefore Eop Hdone Herr Huri run. subst run.
  destruct (api_generate_video_stops w request_json operation n st
              Hurl Hprompt Hsubmit Hn Hbefore Eop Hdone) as (Hp & Hs & Hout).
  rewrite Herr, Huri in Hout. split; [exact Hout|]. split; [exact Hp|].
  rewrite Hs. lia.
Qed.

(** An operation that completes at the fourth check: four checks, forty
    seconds. *)
Lemma X13_video_done_witness :
  outcome (api_generate_video rendering video_request)
  = Ok {| body := JDict {[ "video_url" := JStr "https://video.example/v.mp4" ]};
          status := JInt 200 |}
  /\ polls (trace (api_generate_video rendering video_request)) = 4%nat
  /\ slept (trace (api_generate_video rendering video_request)) = 40.
Proof.
  apply (X13_video_done rendering video_request "operations/1" 3
           (finished "https://video.example/v.mp4") "https://video.example/v.mp4");
    try reflexivity.
  - unfold max_attempts. lia.
  - repeat constructor; eexists; split; reflexivity.
Defined.

(** X14.  When the first status check to report completion reports an
    error, the route replies 500 with the text of that error; when it
    reports no error but the video cannot be read from the response, the
    route replies 500 with the text of the exception.  In both cases it has
    made [n + 1] checks and none after. *)
Theorem X14_video_failed w request_json operation n st :
  json_truthy (dict_get request_json "image_url") = true ->
  json_truthy (dict_get request_json "prompt") = true ->
  outcome (submit w (dict_get request_json "image_url")
             (dict_get request_json "prompt")
             (default (JStr "16:9") (request_json !! "aspect_ratio"))
             (default (JStr "5") (request_json !! "duration"))) = Ok operation ->
  (n < max_attempts)%nat ->
  never_done w operation (seq 0 n) ->
  operations_get w operation n = Ok st ->
  done st = true ->
  let run := api_generate_video w request_json in
  polls (trace run) = S n
  /\ (forall detail, error st = Some detail ->
        outcome run = Ok (error_reply detail 500))
  /\ (forall e, error st = None -> video_uri st = Raise e ->
        outcome run = Ok (error_reply (str_of_exn e) 500)).
Proof.
  intros Hurl Hprompt Hsubmit Hn Hbefore Eop Hdone run. subst run.
  destruct (api_generate_video_stops w request_json operation n st
              Hurl Hprompt Hsubmit Hn Hbefore Eop Hdone) as (Hp & Hs & Hout).
  split; [exact Hp|]. split.
  - intros detail Herr. rewrite Herr in Hout. exact Hout.
  - intros e Herr Huri. rewrite Herr, Huri in Hout. exact Hout.
Qed.

(** An operation that fails at the second check. *)
Lemma X14_video_failed_witness :
  outcome (api_generate_video crashing video_request)
  = Ok (error_reply "quota exceeded" 500)
  /\ polls (trace (api_generate_video crashing video_request)) = 2%nat.
Proof.
  destruct (X14_video_failed crashing video_request "operations/1" 1
              (failed "quota exceeded") eq_refl eq_refl eq_refl
              ltac:(unfold max_attempts; lia)
              ltac:(repeat constructor; eexists; split; reflexivity)
              eq_refl eq_refl) as (Hp & Herr & _).
  split; [apply Herr; reflexivity|exact Hp].
Defined.


(** ** The single-purpose lifestyle clients *)

Section Placement.

Variable placement_type : string.
Variable shot_size : list Z.
Variable manual_placement_selection : list string.
Variable padding_values : list Z.
Variables foreground_image_size foreground_image_location : option (list Z).
Variable data : gmap string json.

Local Abbreviation placed :=
  (with_placement placement_type shot_size manual_placement_selection
     padding_values foreground_image_size foreground_image_location data).

Lemma with_placement_other k :
  k ∉ placement_keys -> placed !! k = data !! k.
Proof.
  unfold placement_keys. intros Hk. unfold with_placement.
  repeat case_bool_decide; repeat case_match;
    rewrite ?lookup_insert_ne by (intros <-; apply Hk; repeat constructor);
    reflexivity.
Qed.

Lemma with_placement_shot_size :
  placed !! "shot_size"
  = if bool_decide (placement_type ∈ ["automatic"; "manual_placement";
                                      "custom_coordinates"])
    then Some (json_ints shot_size) else data !! "shot_size".
Proof.
  unfold with_placement.
  repeat case_bool_decide; repeat case_match;
    rewrite ?lookup_insert_ne by done; rewrite ?lookup_insert_eq; reflexivity.
Qed.

Lemma with_placement_selection :
  placed !! "manual_placement_selection"
  = if bool_decide (placement_type = "manual_placement")
    then Some (json_strs manual_placement_selection)
    else data !! "manual_placement_selection".
Proof.
  unfold with_placement.
  repeat case_bool_decide; repeat case_match;
    rewrite ?lookup_insert_ne by done; rewrite ?lookup_insert_eq;
    rewrite ?lookup_insert_ne by done; reflexivity.
Qed.

Lemma with_placement_padding :
  placed !! "padding_values"
  = if bool_decide (placement_type = "manual_padding")
    then Some (json_ints padding_values) else data !! "padding_values".
Proof.
  unfold with_placement.
  repeat case_bool_decide; repeat case_match;
    rewrite ?lookup_insert_ne by done; rewrite ?lookup_insert_eq;
    rewrite ?lookup_insert_ne by done; reflexivity.
Qed.

Lemma with_placement_foreground_size :
  placed !! "foreground_image_size"
  = if bool_decide (placement_type = "custom_coordinates")
       && truthy_list foreground_image_size
    then Some (json_ints (default [] foreground_image_size))
    else data !! "foreground_image_size".
Proof.
  unfold with_placement.
  repeat case_bool_decide; destruct (truthy_list foreground_image_size);
    destruct (truthy_list foreground_image_location); cbn [andb];
    rewrite ?lookup_insert_ne by done; rewrite ?lookup_insert_eq;
    rewrite ?lookup_insert_ne by done; reflexivity.
Qed.

Lemma with_placement_foreground_location :
  placed !! "foreground_image_location"
  = if bool_decide (placement_type = "custom_coordinates")
       && truthy_list foreground_image_location
    then Some (json_ints (default [] foreground_image_location))
    else data !! "foreground_image_location".
Proof.
  unfold with_placement.
  repeat case_bool_decide; destruct (truthy_list foreground_image_size);
    destruct (truthy_list foreground_image_location); cbn [andb];
    rewrite ?lookup_insert_ne by done; rewrite ?lookup_insert_eq;
    rewrite ?lookup_insert_ne by done; reflexivity.
Qed.

End Placement.

Lemma with_sku_lookup sku (data : gmap string json) k :
  with_sku sku data !! k
  = if bool_decide (k = "sku") && truthy_opt sku
    then Some (json_of_opt sku) else data !! k.
Proof.
  unfold with_sku. case_bool_decide; destruct (truthy_opt sku); cbn [andb];
    subst; rewrite ?lookup_insert_eq; rewrite ?lookup_insert_ne by done;
    reflexivity.
Qed.

Lemma with_sku_other sku (data : gmap string json) k :
  k <> "sku" -> with_sku sku data !! k = data !! k.
Proof.
  intros Hk. rewrite with_sku_lookup, bool_decide_eq_false_2 by exact Hk.
  reflexivity.
Qed.

Ltac not_placement_key :=
  let H := fresh in
  unfold placement_keys; intros H;
  repeat (apply elem_of_cons in H as [H|H]; [discriminate H|]);
  inversion H.

Lemma is_Some_if {A} (c : bool) (x : A) :
  is_Some (if c then Some x else None) <-> c = true.
Proof. destruct c; split; eauto; try discriminate. intros [? [=]]. Qed.

(** X16.  The body [lifestyle_shot_by_text] sends always has the base64
    text of the image, the scene description and the placement type, and
    has the optional members exactly by these rules: [shot_size] for the
    placements automatic, manual_placement and custom_coordinates;
    [manual_placement_selection] for manual_placement; [padding_values] for
    manual_padding; the foreground size and location for
    custom_coordinates, when given and not empty; [exclude_elements] when
    given and [fast] is off; [sku] when given.  So [padding_values] never
    travels with [shot_size], and a placement selection always does. *)
Theorem X16_by_text_body image_data scene_description placement_type num_results
    sync fast optimize_description original_quality exclude_elements shot_size
    manual_placement_selection padding_values foreground_image_size
    foreground_image_location force_rmbg content_moderation sku :
  let data :=
    by_text_data image_data scene_description placement_type num_results
      sync fast optimize_description original_quality exclude_elements
      shot_size manual_placement_selection padding_values
      foreground_image_size foreground_image_location force_rmbg
      content_moderation sku in
  data !! "file" = Some (JStr (Base64.b64encode image_data))
  /\ data !! "scene_description" = Some (JStr scene_description)
  /\ data !! "placement_type" = Some (JStr placement_type)
  /\ (is_Some (data !! "shot_size")
      <-> placement_type ∈ ["automatic"; "manual_placement"; "custom_coordinates"])
  /\ (is_Some (data !! "manual_placement_selection")
      <-> placement_type = "manual_placement")
  /\ (is_Some (data !! "padding_values") <-> placement_type = "manual_padding")
  /\ (is_Some (data !! "foreground_image_size")
      <-> placement_type = "custom_coordinates"
          /\ truthy_list foreground_image_size = true)
  /\ (is_Some (data !! "foreground_image_location")
      <-> placement_type = "custom_coordinates"
          /\ truthy_list foreground_image_location = true)
  /\ (is_Some (data !! "exclude_elements")
      <-> truthy_opt exclude_elements = true /\ fast = false)
  /\ (is_Some (data !! "sku") <-> truthy_opt sku = true)
  /\ (is_Some (data !! "padding_values") -> data !! "shot_size" = None)
  /\ (is_Some (data !! "manual_placement_selection") ->
      is_Some (data !! "shot_size")).
Proof.
  intros data. subst data. unfold by_text_data.
  set (base := ({[ "file" := JStr (Base64.b64encode image_data);
                   "scene_description" := JStr scene_description;
                   "placement_type" := JStr placement_type;
                   "num_results" := JInt num_results;
                   "sync" := JBool sync;
                   "fast" := JBool fast;
                   "optimize_description" := JBool optimize_description;
                   "original_quality" := JBool original_quality;
                   "force_rmbg" := JBool force_rmbg;
                   "content_moderation" := JBool content_moderation ]}
                : gmap string json)).
  set (excl := if truthy_opt exclude_elements && negb fast
               then <["exclude_elements" := json_of_opt exclude_elements]> base
               else base).
  assert (Hexcl : forall k, k <> "exclude_elements" -> excl !! k = base !! k).
  { intros k Hk. subst excl. destruct (_ && _); [|reflexivity].
    apply lookup_insert_ne. congruence. }
  assert (Hshot : with_sku sku (with_placement placement_type shot_size
                    manual_placement_selection padding_values
                    foreground_image_size foreground_image_location excl)
                  !! "shot_size"
                  = if bool_decide (placement_type ∈ ["automatic";
                        "manual_placement"; "custom_coordinates"])
                    then Some (json_ints shot_size) else None).
  { rewrite with_sku_other, with_placement_shot_size, Hexcl by done.
    reflexivity. }
  assert (Hsel : with_sku sku (with_placement placement_type shot_size
                    manual_placement_selection padding_values
                    foreground_image_size foreground_image_location excl)
                  !! "manual_placement_selection"
                  = if bool_decide (placement_type = "manual_placement")
                    then Some (json_strs manual_placement_selection) else None).
  { rewrite with_sku_other, with_placement_selection, Hexcl by done.
    reflexivity. }
  assert (Hpad : with_sku sku (with_placement placement_type shot_size
                    manual_placement_selection padding_values
                    foreground_image_size foreground_image_location excl)
                  !! "padding_values"
                  = if bool_decide (placement_type = "manual_padding")
                    then Some (json_ints padding_values) else None).
  { rewrite with_sku_other, with_placement_padding, Hexcl by done.
    reflexivity. }
  rewrite Hshot, Hsel, Hpad.
  split; [|split; [|split]];
    try (rewrite with_sku_other, with_placement_other, Hexcl
           by (done || not_placement_key); reflexivity).
  split. { rewrite is_Some_if. apply bool_decide_eq_true. }
  split. { rewrite is_Some_if. apply bool_decide_eq_true. }
  split. { rewrite is_Some_if. apply bool_decide_eq_true. }
  split.
  { rewrite with_sku_other, with_placement_foreground_size, Hexcl by done.
    change (base !! "foreground_image_size") with (@None json).
    rewrite is_Some_if, andb_true_iff, bool_decide_eq_true. reflexivity. }
  split.
  { rewrite with_sku_other, with_placement_foreground_location, Hexcl by done.
    change (base !! "foreground_image_location") with (@None json).
    rewrite is_Some_if, andb_true_iff, bool_decide_eq_true. reflexivity. }
  split.
  { rewrite with_sku_other, with_placement_other by (done || not_placement_key).
    subst excl.
    destruct (truthy_opt exclude_elements); destruct fast; cbn [andb negb].
    all: try (change ((_ : gmap string json) !! "exclude_elements")
                with (@None json)).
    all: try rewrite lookup_insert_eq.
    all: split; [intros [? H]; try discriminate H; auto
                |intros [? ?]; try discriminate; eauto]. }
  split.
  { rewrite with_sku_lookup, with_placement_other, Hexcl
      by (done || not_placement_key).
    change (base !! "sku") with (@None json).
    rewrite bool_decide_eq_true_2 by reflexivity. cbn [andb].
    apply is_Some_if. }
  split.
  - rewrite is_Some_if, bool_decide_eq_true. intros ->.
    rewrite bool_decide_eq_false_2; [reflexivity|].
    intros H. repeat (apply elem_of_cons in H as [H|H]; [discriminate H|]).
    inversion H.
  - rewrite !is_Some_if, !bool_decide_eq_true. intros ->.
    apply elem_of_cons. right. apply elem_of_cons. left. reflexivity.
Qed.

(** A manual placement carries a shot size and a selection and no padding;
    a padded placement carries the padding, and not the foreground size it
    was given. *)
Lemma X16_by_text_body_witness :
  is_Some (manual_body !! "shot_size")
  /\ manual_body !! "padding_values" = None
  /\ manual_body !! "exclude_elements" = None
  /\ padded_body !! "shot_size" = None
  /\ padded_body !! "foreground_image_size" = None.
Proof.
  pose proof (X16_by_text_body (list_ascii_of_string "Man") "on a rustic table"
                "manual_placement" 4 true true true false (Some "people")
                [1000; 1000] ["upper_left"] [0; 0; 0; 0] None None false false
                None) as (_ & _ & _ & _ & Hsel & _ & _ & _ & _ & _ & _ & Himp).
  pose proof (X16_by_text_body (list_ascii_of_string "Man") "on a rustic table"
                "manual_padding" 4 true false true false (Some "people")
                [1000; 1000] ["upper_left"] [10; 10; 0; 0] (Some [100; 100])
                None false false (Some "SKU-1"))
    as (_ & _ & _ & _ & _ & Hpad & _ & _ & _ & _ & Hno & _).
  split; [apply Himp, Hsel; reflexivity|].
  split; [reflexivity|]. split; [reflexivity|].
  split; [apply Hno, Hpad; reflexivity|reflexivity].
Defined.

(** X17.  The body [lifestyle_shot_by_image] sends always has the base64
    texts of the product image and of the reference image under [file] and
    [ref_image_file], never a scene description, and follows the same
    placement rules: [shot_size] for automatic, manual_placement and
    custom_coordinates; [manual_placement_selection] for manual_placement;
    [padding_values] for manual_padding, never with [shot_size]; [sku] when
    given. *)
Theorem X17_by_image_body image_data reference_image placement_type num_results
    sync original_quality shot_size manual_placement_selection padding_values
    foreground_image_size foreground_image_location force_rmbg
    content_moderation sku enhance_ref_image ref_image_influence :
  let data :=
    by_image_data image_data reference_image placement_type num_results
      sync original_quality shot_size manual_placement_selection
      padding_values foreground_image_size foreground_image_location
      force_rmbg content_moderation sku enhance_ref_image
      ref_image_influence in
  data !! "file" = Some (JStr (Base64.b64encode image_data))
  /\ data !! "ref_image_file" = Some (JStr (Base64.b64encode reference_image))
  /\ data !! "placement_type" = Some (JStr placement_type)
  /\ data !! "scene_description" = None
  /\ (is_Some (data !! "shot_size")
      <-> placement_type ∈ ["automatic"; "manual_placement"; "custom_coordinates"])
  /\ (is_Some (data !! "manual_placement_selection")
      <-> placement_type = "manual_placement")
  /\ (is_Some (data !! "padding_values") <-> placement_type = "manual_padding")
  /\ (is_Some (data !! "sku") <-> truthy_opt sku = true)
  /\ (is_Some (data !! "padding_values") -> data !! "shot_size" = None).
Proof.
  intros data. subst data. unfold by_image_data.
  set (base := ({[ "file" := JStr (Base64.b64encode image_data);
                   "ref_image_file" := JStr (Base64.b64encode reference_image);
                   "placement_type" := JStr placement_type;
                   "num_results" := JInt num_results;
                   "sync" := JBool sync;
                   "original_quality" := JBool original_quality;
                   "force_rmbg" := JBool force_rmbg;
                   "content_moderation" := JBool content_moderation;
                   "enhance_ref_image" := JBool enhance_ref_image;
                   "ref_image_influence" := ref_image_influence ]}
                : gmap string json)).
  rewrite !(with_sku_other _ _ "shot_size") by done.
  rewrite !(with_sku_other _ _ "padding_values") by done.
  rewrite !(with_sku_other _ _ "manual_placement_selection") by done.
  rewrite with_placement_shot_size, with_placement_selection,
    with_placement_padding.
  change (base !! "shot_size") with (@None json).
  change (base !! "manual_placement_selection") with (@None json).
  change (base !! "padding_values") with (@None json).
  do 4 (split; [rewrite with_sku_other, with_placement_other
                  by (done || not_placement_key); reflexivity|]).
  split. { rewrite is_Some_if. apply bool_decide_eq_true. }
  split. { rewrite is_Some_if. apply bool_decide_eq_true. }
  split. { rewrite is_Some_if. apply bool_decide_eq_true. }
  split.
  { rewrite with_sku_lookup, with_placement_other by not_placement_key.
    change (base !! "sku") with (@None json).
    rewrite bool_decide_eq_true_2 by reflexivity. cbn [andb].
    apply is_Some_if. }
  rewrite is_Some_if, bool_decide_eq_true. intros ->.
  rewrite bool_decide_eq_false_2; [reflexivity|].
  intros H. repeat (apply elem_of_cons in H as [H|H]; [discriminate H|]).
  inversion H.
Qed.

(** The call of the two clients: one provider call; the JSON body of a
    response without error status is returned; everything else is raised
    as one [Exception]. *)
Lemma call_outcome w url headers data :
  posts (trace (call w url headers data)) = [(url, headers, data)]
  /\ (forall j,
        outcome (call w url headers data) = Ok j
        <-> exists resp, requests_post w url headers data = Ok resp
                         /\ is_http_error (status_code resp) = false
                         /\ json_body resp = Ok j)
  /\ (forall e,
        outcome (call w url headers data) = Raise e ->
        exists msg, e = Exception ("Lifestyle shot generation failed: " ++ msg)).
Proof.
  unfold call. io_simpl.
  destruct (requests_post w url headers data) as [resp|e0]; io_simpl.
  2: { split; [reflexivity|]. split.
       - intros j. split; [discriminate|intros (? & [=] & _)].
       - intros e [= <-]. eauto. }
  destruct (raise_for_status_cases resp) as [[Hs Hr]|[Hs [msg Hr]]];
    rewrite Hr; io_simpl.
  - destruct (json_body resp) as [body|e0] eqn:Ebody; io_simpl.
    + split; [reflexivity|]. split.
      * intros j. split.
        -- intros [= <-]. exists resp. auto.
        -- intros (resp' & [= <-] & _ & Hj). congruence.
      * discriminate.
    + split; [reflexivity|]. split.
      * intros j. split; [discriminate|].
        intros (resp' & [= <-] & _ & Hj). congruence.
      * intros e [= <-]. eauto.
  - split; [reflexivity|]. split.
    + intros j. split; [discriminate|].
      intros (resp' & [= <-] & Hs' & _). congruence.
    + intros e [= <-]. eauto.
Qed.

(** X18.  [lifestyle_shot_by_text] and [lifestyle_shot_by_image] each make
    exactly one provider call, to their own endpoint, with the body they
    built.  They return exactly when the provider answers without error
    status and with a JSON body, and then return that body; every failure
    (no answer, error status, body that is not JSON) is raised as an
    [Exception] whose text starts with "Lifestyle shot generation failed: ":
    unlike [generate_product_shot], they never return an error object. *)
Theorem X18_lifestyle_clients_call w api_key :
  (forall image_data scene_description placement_type num_results sync fast
          optimize_description original_quality exclude_elements shot_size
          manual_placement_selection padding_values foreground_image_size
          foreground_image_location force_rmbg content_moderation sku,
     let data :=
       by_text_data image_data scene_description placement_type num_results
         sync fast optimize_description original_quality exclude_elements
         shot_size manual_placement_selection padding_values
         foreground_image_size foreground_image_location force_rmbg
         content_moderation sku in
     let run :=
       lifestyle_shot_by_text w api_key image_data scene_description
         placement_type num_results sync fast optimize_description
         original_quality exclude_elements shot_size
         manual_placement_selection padding_values foreground_image_size
         foreground_image_location force_rmbg content_moderation sku in
     posts (trace run) = [(by_text_url, headers_of api_key, data)]
     /\ (forall j,
           outcome run = Ok j
           <-> exists resp,
                 requests_post w by_text_url (headers_of api_key) data = Ok resp
                 /\ is_http_error (status_code resp) = false
                 /\ json_body resp = Ok j)
     /\ (forall e,
           outcome run = Raise e ->
           exists msg,
             e = Exception ("Lifestyle shot generation failed: " ++ msg)))
  /\ (forall image_data reference_image placement_type num_results sync
             original_quality shot_size manual_placement_selection
             padding_values foreground_image_size foreground_image_location
             force_rmbg content_moderation sku enhance_ref_image
             ref_image_influence,
        let data :=
          by_image_data image_data reference_image placement_type num_results
            sync original_quality shot_size manual_placement_selection
            padding_values foreground_image_size foreground_image_location
            force_rmbg content_moderation sku enhance_ref_image
            ref_image_influence in
        let run :=
          lifestyle_shot_by_image w api_key image_data reference_image
            placement_type num_results sync original_quality shot_size
            manual_placement_selection padding_values foreground_image_size
            foreground_image_location force_rmbg content_moderation sku
            enhance_ref_image ref_image_influence in
        posts (trace run) = [(by_image_url, headers_of api_key, data)]
        /\ (forall j,
              outcome run = Ok j
              <-> exists resp,
                    requests_post w by_image_url (headers_of api_key) data
                    = Ok resp
                    /\ is_http_error (status_code resp) = false
                    /\ json_body resp = Ok j)
        /\ (forall e,
              outcome run = Raise e ->
              exists msg,
                e = Exception ("Lifestyle shot generation failed: " ++ msg))).
Proof.
  split; intros; apply call_outcome.
Qed.

(** The text client against a provider that answers 422, and against one
    that answers 200. *)
Lemma X18_lifestyle_clients_call_witness :
  (exists msg,
     outcome (lifestyle_shot_by_text rejecting (Some "bria-key")
                (list_ascii_of_string "Man") "on a rustic table"
                "manual_placement" 4 true true true false (Some "people")
                [1000; 1000] ["upper_left"] [0; 0; 0; 0] None None false false
                None)
     = Raise (Exception ("Lifestyle shot generation failed: " ++ msg)))
  /\ outcome (lifestyle_shot_by_text (Sample.answering two_urls_answer)
                (Some "bria-key") (list_ascii_of_string "Man")
                "on a rustic table" "manual_placement" 4 true true true false
                (Some "people") [1000; 1000] ["upper_left"] [0; 0; 0; 0] None
                None false false None)
     = Ok two_urls_answer.
Proof.
  split.
  - destruct (proj1 (X18_lifestyle_clients_call rejecting (Some "bria-key"))
                (list_ascii_of_string "Man") "on a rustic table"
                "manual_placement" 4 true true true false (Some "people")
                [1000; 1000] ["upper_left"] [0; 0; 0; 0] None None false false
                None) as (_ & _ & Hraise).
    edestruct Hraise as [msg Hmsg]; [reflexivity|].
    exists msg. rewrite <- Hmsg. reflexivity.
  - destruct (proj1 (X18_lifestyle_clients_call (Sample.answering two_urls_answer)
                       (Some "bria-key"))
                (list_ascii_of_string "Man") "on a rustic table"
                "manual_placement" 4 true true true false (Some "people")
                [1000; 1000] ["upper_left"] [0; 0; 0; 0] None None false false
                None) as (_ & Hok & _).
    apply Hok. eexists. split; [reflexivity|]. split; reflexivity.
Defined.

(** ** The image helper *)


(** ** The Puter video service *)

Lemma get_puter_token_cases w :
  (exists t,
     PuterVideo.get_puter_token w
     = (Post PuterVideo.signup_url PuterVideo.signup_headers
          PuterVideo.signup_body :: t, Ok JNull)
     /\ posts t = [] /\ gets t = []
     /\ forall resp d,
          requests_post w PuterVideo.signup_url PuterVideo.signup_headers
            PuterVideo.signup_body = Ok resp ->
          is_http_error (status_code resp) = false ->
          json_body resp = Ok (JDict d) -> False)
  \/ (exists resp d,
        requests_post w PuterVideo.signup_url PuterVideo.signup_headers
          PuterVideo.signup_body = Ok resp
        /\ is_http_error (status_code resp) = false
        /\ json_body resp = Ok (JDict d)
        /\ PuterVideo.get_puter_token w
           = ([Post PuterVideo.signup_url PuterVideo.signup_headers
                 PuterVideo.signup_body], Ok (dict_get d "token"))).
Proof.
  unfold PuterVideo.get_puter_token, post.
  destruct (requests_post w PuterVideo.signup_url PuterVideo.signup_headers
              PuterVideo.signup_body) as [resp|e] eqn:Hpost.
  2: { left. io_simpl. eexists. split; [reflexivity|].
       split; [reflexivity|]. split; [reflexivity|]. discriminate. }
  destruct (raise_for_status_cases resp) as [[Hstatus Hok]|[Hstatus [msg Herr]]].
  2: { left. io_simpl. rewrite Herr. io_simpl. eexists.
       split; [reflexivity|]. split; [reflexivity|]. split; [reflexivity|].
       intros resp' d [= <-]. congruence. }
  destruct (json_body resp) as [data|e] eqn:Hjson.
  2: { left. io_simpl. rewrite Hok. io_simpl. rewrite Hjson. io_simpl.
       eexists. split; [reflexivity|]. split; [reflexivity|].
       split; [reflexivity|]. intros resp' d [= <-]. congruence. }
  destruct data as [| | | | | |d];
    try (left; io_simpl; rewrite Hok; io_simpl; rewrite Hjson; io_simpl;
         cbn [attr_get]; io_simpl;
         eexists; split; [reflexivity|]; split; [reflexivity|];
         split; [reflexivity|]; intros resp' d' [= <-]; congruence).
  right. exists resp, d. repeat split; try assumption.
  io_simpl. rewrite Hok. io_simpl. rewrite Hjson. reflexivity.
Qed.

(** X20.  [get_puter_token] never raises and downloads nothing.  It makes
    exactly one call, the temporary signup, with the same headers and body
    every time.  It returns a token only when the signup answered without
    error status and with a JSON object, and then returns the [token]
    member of that object; in every other case it returns [None]. *)
Theorem X20_get_puter_token w :
  let run := PuterVideo.get_puter_token w in
  posts (trace run)
  = [(PuterVideo.signup_url, PuterVideo.signup_headers, PuterVideo.signup_body)]
  /\ gets (trace run) = []
  /\ (exists token, outcome run = Ok token)
  /\ (forall token,
        outcome run = Ok token -> token <> JNull ->
        exists resp d,
          requests_post w PuterVideo.signup_url PuterVideo.signup_headers
            PuterVideo.signup_body = Ok resp
          /\ is_http_error (status_code resp) = false
          /\ json_body resp = Ok (JDict d)
          /\ d !! "token" = Some token)
  /\ (forall resp d,
        requests_post w PuterVideo.signup_url PuterVideo.signup_headers
          PuterVideo.signup_body = Ok resp ->
        is_http_error (status_code resp) = false ->
        json_body resp = Ok (JDict d) ->
        outcome run = Ok (dict_get d "token")).
Proof.
  intros run. subst run.
  destruct (get_puter_token_cases w) as [(t & -> & Hposts & Hgets & Hnot)
                                        |(resp & d & Hpost & Hstatus & Hjson & ->)].
  - cbn [trace outcome fst snd]. rewrite posts_post, Hposts.
    cbn [gets omap list_omap]. fold (gets t). rewrite Hgets.
    repeat split; eauto.
    + intros token [= <-] Hnull. congruence.
    + intros resp d Hpost Hstatus Hjson. exfalso. eauto.
  - cbn [trace outcome fst snd]. repeat split; eauto.
    + intros token [= <-] Hnull. exists resp, d. repeat split; try assumption.
      unfold dict_get in *. destruct (d !! "token"); [reflexivity|].
      exfalso. apply Hnull. reflexivity.
    + intros resp' d' Hpost' _ Hjson'. congruence.
Qed.

Lemma read_direct_shape h result :
  (exists v, PuterVideo.read_direct h result = PuterVideo.video v)
  \/ (exists msg, PuterVideo.read_direct h result = PuterVideo.failure msg).
Proof.
  unfold PuterVideo.read_direct.
  destruct result; eauto.
  destruct (contains d "url"); eauto.
  destruct (contains d "error"); eauto.
Qed.

Lemma read_result_shape h result :
  (exists v, PuterVideo.read_result h result = PuterVideo.video v)
  \/ (exists msg, PuterVideo.read_result h result = PuterVideo.failure msg).
Proof.
  unfold PuterVideo.read_result.
  destruct result; try apply read_direct_shape.
  destruct (d !! "result") as [[]|]; try apply read_direct_shape.
  - destruct (_ || _); [eauto|apply read_direct_shape].
  - destruct (contains _ _); [eauto|apply read_direct_shape].
Qed.

Lemma explain_shape h e :
  exists msg, PuterVideo.explain h e = PuterVideo.failure msg.
Proof. destruct e; cbn [PuterVideo.explain]; eauto. Qed.

Lemma call_driver_returns w h token prompt model image_url test_mode :
  exists t r,
    PuterVideo.call_driver w h token prompt model image_url test_mode
    = (t, Ok r)
    /\ posts t = [(PuterVideo.driver_url, PuterVideo.driver_headers h token,
                   PuterVideo.payload prompt model image_url test_mode)]
    /\ gets t = []
    /\ ((exists v, r = PuterVideo.video v)
        \/ (exists msg, r = PuterVideo.failure msg)).
Proof.
  unfold PuterVideo.call_driver, post.
  destruct (requests_post w _ _ _) as [resp|e] eqn:Hpost.
  2: { io_simpl. do 2 eexists. split; [reflexivity|].
       split; [reflexivity|]. split; [reflexivity|].
       right. apply explain_shape. }
  destruct (raise_for_status resp) as [[]|e] eqn:Hstatus.
  2: { io_simpl. rewrite Hstatus. io_simpl. do 2 eexists.
       split; [reflexivity|]. split; [reflexivity|]. split; [reflexivity|].
       right. apply explain_shape. }
  destruct (json_body resp) as [result|e] eqn:Hjson.
  2: { io_simpl. rewrite Hstatus. io_simpl. rewrite Hjson. io_simpl.
       do 2 eexists.
       split; [reflexivity|]. split; [reflexivity|]. split; [reflexivity|].
       right. apply explain_shape. }
  io_simpl. rewrite Hstatus. io_simpl. rewrite Hjson. io_simpl.
  do 2 eexists. split; [reflexivity|]. split; [reflexivity|].
  split; [reflexivity|]. apply read_result_shape.
Qed.

Lemma get_puter_token_returns w :
  exists t token,
    PuterVideo.get_puter_token w = (t, Ok token)
    /\ posts t = [signup_call] /\ gets t = [].
Proof.
  destruct (get_puter_token_cases w)
    as [(t & -> & Hposts & Hgets & _)|(resp & d & _ & _ & _ & ->)].
  - do 2 eexists. split; [reflexivity|]. rewrite posts_post, Hposts.
    split; [reflexivity|]. cbn [gets omap list_omap]. exact Hgets.
  - do 2 eexists. split; [reflexivity|]. split; reflexivity.
Qed.

(** X21.  [generate_video_with_puter] never raises and downloads nothing;
    it returns an object with the single member [video_url] or the single
    member [error].  Every run starts with the signup call and makes at most
    one more call, to the driver.  Without a token (the signup failed, or
    gave [None] or another false value) the driver is not called and the
    result is the authentication error; when the image cannot be prepared
    the driver is not called either. *)
Theorem X21_puter_total w h image_data prompt model test_mode :
  let run :=
    PuterVideo.generate_video_with_puter w h image_data prompt model
      test_mode in
  gets (trace run) = []
  /\ (exists r,
        outcome run = Ok r
        /\ ((exists v, r = PuterVideo.video v)
            \/ (exists msg, r = PuterVideo.failure msg)))
  /\ (exists rest,
        posts (trace run) = signup_call :: rest
        /\ (rest = []
            \/ exists token image_url,
                 rest = [(PuterVideo.driver_url,
                          PuterVideo.driver_headers h token,
                          PuterVideo.payload prompt model image_url
                            test_mode)]))
  /\ (forall token,
        outcome (PuterVideo.get_puter_token w) = Ok token ->
        json_truthy token = false ->
        posts (trace run) = [signup_call]
        /\ outcome run = Ok PuterVideo.not_authenticated)
  /\ (forall e,
        PuterVideo.prepare_image w image_data = Raise e ->
        posts (trace run) = [signup_call]
        /\ exists msg, outcome run = Ok (PuterVideo.failure msg)).
Proof.
  intros run. subst run. unfold PuterVideo.generate_video_with_puter.
  destruct (get_puter_token_returns w) as (t & token & Htoken & Hposts & Hgets).
  rewrite Htoken. cbn [outcome snd mbind io_bind].
  destruct (json_truthy token) eqn:Htruthy; cbn [negb].
  2: { unfold mret, io_ret. cbn [trace outcome fst snd].
       rewrite app_nil_r, Hposts, Hgets.
       split; [reflexivity|].
       split; [eexists; split; [reflexivity|]; right; eexists; reflexivity|].
       split; [exists []; split; [reflexivity|left; reflexivity]|].
       split; [intros ? _ _; split; reflexivity|].
       intros e _. split; [reflexivity|]. eexists. reflexivity. }
  destruct (PuterVideo.prepare_image w image_data) as [image_url|e] eqn:Hprep.
  2: { unfold mret, io_ret. cbn [trace outcome fst snd].
       rewrite app_nil_r, Hposts, Hgets.
       split; [reflexivity|].
       split; [eexists; split; [reflexivity|]; right; eexists; reflexivity|].
       split; [exists []; split; [reflexivity|left; reflexivity]|].
       split; [intros ? [= <-]; congruence|].
       intros e' _. split; [reflexivity|]. eexists. reflexivity. }
  destruct (call_driver_returns w h token prompt model image_url test_mode)
    as (t' & r & Hcall & Hposts' & Hgets' & Hshape).
  rewrite Hcall. cbn [trace outcome fst snd].
  rewrite posts_app, Hposts, Hposts'.
  unfold gets in *. rewrite omap_app, Hgets, Hgets'.
  split; [reflexivity|]. split; [eauto|].
  split; [eexists; split; [reflexivity|right; eauto]|].
  split; [intros ? [= <-]; congruence|].
  intros e' [=].
Qed.

Lemma video_inj v v' : PuterVideo.video v = PuterVideo.video v' -> v = v'.
Proof.
  intros Heq. apply (f_equal (fun m => m !! "video_url")) in Heq.
  unfold PuterVideo.video in Heq. rewrite !lookup_singleton_eq in Heq.
  congruence.
Qed.

Lemma failure_inj msg msg' :
  PuterVideo.failure msg = PuterVideo.failure msg' -> msg = msg'.
Proof.
  intros Heq. apply (f_equal (fun m => m !! "error")) in Heq.
  unfold PuterVideo.failure in Heq. rewrite !lookup_singleton_eq in Heq.
  congruence.
Qed.

Lemma video_not_failure v msg : PuterVideo.video v <> PuterVideo.failure msg.
Proof.
  intros Heq. apply (f_equal (fun m => m !! "error")) in Heq.
  unfold PuterVideo.video, PuterVideo.failure in Heq.
  rewrite lookup_singleton_eq, lookup_singleton_ne in Heq by discriminate.
  discriminate.
Qed.

Lemma read_direct_failure h result msg :
  PuterVideo.read_direct h result = PuterVideo.failure msg ->
  (exists d detail,
     result = JDict d /\ d !! "url" = None /\ d !! "error" = Some detail
     /\ msg = "Puter API Error: " ++ py_str h detail)
  \/ ((forall d, result = JDict d -> d !! "url" = None /\ d !! "error" = None)
      /\ msg = "Unexpected response format from Puter: " ++ py_str h result).
Proof.
  unfold PuterVideo.read_direct.
  destruct result;
    try (intros <-%failure_inj; right; split; [discriminate|reflexivity]).
  unfold contains, dict_get.
  destruct (d !! "url") as [u|] eqn:Hurl.
  { rewrite bool_decide_eq_true_2 by eauto.
    intros Heq. exfalso. exact (video_not_failure _ _ Heq). }
  rewrite bool_decide_eq_false_2 by (intros [? [=]]).
  destruct (d !! "error") as [detail|] eqn:Herror.
  - rewrite bool_decide_eq_true_2 by eauto.
    intros <-%failure_inj. left. exists d, detail. repeat split; assumption.
  - rewrite bool_decide_eq_false_2 by (intros [? [=]]).
    intros <-%failure_inj. right. split; [|reflexivity].
    intros d' [= <-]. split; assumption.
Qed.

(** X23.  How the driver's answer is read.  The outcome is always a
    video URL or an error, never both.  A [result] text that starts with
    [http] or [data:video] is the video, and so is the [url] member of a
    [result] object, whatever else the answer holds; an answer with a [url]
    member of its own always gives a video, also when it has an [error]
    member.  An error is reported only for an answer without a [url] member:
    its [error] member when it has one, the whole answer otherwise. *)
Theorem X23_read_result_priority h result :
  ((exists v, PuterVideo.read_result h result = PuterVideo.video v)
   \/ (exists msg, PuterVideo.read_result h result = PuterVideo.failure msg))
  /\ (forall v msg,
        PuterVideo.read_result h result = PuterVideo.video v ->
        PuterVideo.read_result h result <> PuterVideo.failure msg)
  /\ (forall d s,
        result = JDict d -> d !! "result" = Some (JStr s) ->
        startswith s "http" || startswith s "data:video" = true ->
        PuterVideo.read_result h result = PuterVideo.video (JStr s))
  /\ (forall d inner u,
        result = JDict d -> d !! "result" = Some (JDict inner) ->
        inner !! "url" = Some u ->
        PuterVideo.read_result h result = PuterVideo.video u)
  /\ (forall d u,
        result = JDict d -> d !! "url" = Some u ->
        exists v, PuterVideo.read_result h result = PuterVideo.video v)
  /\ (forall msg,
        PuterVideo.read_result h result = PuterVideo.failure msg ->
        (exists d detail,
           result = JDict d /\ d !! "url" = None
           /\ d !! "error" = Some detail
           /\ msg = "Puter API Error: " ++ py_str h detail)
        \/ ((forall d, result = JDict d ->
                       d !! "url" = None /\ d !! "error" = None)
            /\ msg = "Unexpected response format from Puter: "
                     ++ py_str h result)).
Proof.
  split; [apply read_result_shape|].
  split; [intros v msg -> Heq; exact (video_not_failure _ _ Heq)|].
  split.
  { intros d s -> Hresult Hprefix. cbn [PuterVideo.read_result].
    rewrite Hresult, Hprefix. reflexivity. }
  split.
  { intros d inner u -> Hresult Hurl. cbn [PuterVideo.read_result].
    rewrite Hresult. unfold contains, dict_get. rewrite Hurl.
    rewrite bool_decide_eq_true_2 by eauto. reflexivity. }
  assert (Hfail : forall msg,
             PuterVideo.read_result h result = PuterVideo.failure msg ->
             PuterVideo.read_direct h result = PuterVideo.failure msg).
  { intros msg. unfold PuterVideo.read_result.
    destruct result; try exact id.
    destruct (d !! "result") as [[]|]; try exact id.
    - destruct (_ || _); [|exact id].
      intros Heq. exfalso. exact (video_not_failure _ _ Heq).
    - destruct (contains _ _); [|exact id].
      intros Heq. exfalso. exact (video_not_failure _ _ Heq). }
  split.
  - intros d u -> Hurl.
    destruct (read_result_shape h (JDict d)) as [Hvideo|[msg Hmsg]];
      [exact Hvideo|].
    apply Hfail, read_direct_failure in Hmsg.
    destruct Hmsg as [(d' & detail & [= <-] & Hnone & _)|[Hnone _]].
    + congruence.
    + destruct (Hnone d eq_refl). congruence.
  - intros msg Hmsg. apply read_direct_failure, Hfail, Hmsg.
Qed.

Lemma puter_with_token w h image_data prompt model test_mode token :
  outcome (PuterVideo.get_puter_token w) = Ok token ->
  json_truthy token = true ->
  exists t,
    posts t = [signup_call]
    /\ PuterVideo.generate_video_with_puter w h image_data prompt model
         test_mode
       = match PuterVideo.prepare_image w image_data with
         | Ok image_url =>
             let '(t', r) :=
               PuterVideo.call_driver w h token prompt model image_url
                 test_mode in
             ((t ++ t')%list, r)
         | Raise e =>
             (t, Ok (PuterVideo.failure
                       ("Failed to process image data: " ++ str_of_exn e)))
         end.
Proof.
  intros Htoken Htruthy.
  destruct (get_puter_token_returns w) as (t & token' & Hrun & Hposts & _).
  rewrite Hrun in Htoken. injection Htoken as ->.
  exists t. split; [exact Hposts|].
  unfold PuterVideo.generate_video_with_puter. rewrite Hrun.
  cbn [mbind io_bind]. rewrite Htruthy. cbn [negb].
  destruct (PuterVideo.prepare_image w image_data); [reflexivity|].
  unfold mret, io_ret. rewrite app_nil_r. reflexivity.
Qed.

Lemma puter_posts w h image_data prompt model test_mode token image_url :
  outcome (PuterVideo.get_puter_token w) = Ok token ->
  json_truthy token = true ->
  PuterVideo.prepare_image w image_data = Ok image_url ->
  posts (trace (PuterVideo.generate_video_with_puter w h image_data prompt
                  model test_mode))
  = [signup_call; driver_call h token prompt model image_url test_mode].
Proof.
  intros Htoken Htruthy Hprep.
  destruct (puter_with_token w h image_data prompt model test_mode token
              Htoken Htruthy) as (t & Hposts & ->).
  rewrite Hprep.
  destruct (call_driver_returns w h token prompt model image_url test_mode)
    as (t' & r & -> & Hposts' & _).
  cbn [trace fst]. rewrite posts_app, Hposts, Hposts'. reflexivity.
Qed.

(** X22.  What the driver receives.  With a token, the second call of the
    run goes to the driver with [Bearer] and the token as authorization,
    and with the prompt, the model, the test flag and the image in [args].
    Bytes are sent as a PNG data URI of their base64 text; a text that
    starts with [http], or that names no existing file, is sent unchanged;
    the path of an existing file is replaced by a PNG data URI of the
    file's content, and when the file cannot be read the driver is not
    called and the error names the cause; any other value is sent as it
    is. *)
Theorem X22_puter_driver_call w h image_data prompt model test_mode token :
  outcome (PuterVideo.get_puter_token w) = Ok token ->
  json_truthy token = true ->
  let run :=
    PuterVideo.generate_video_with_puter w h image_data prompt model
      test_mode in
  (forall raw,
     image_data = Bytes raw ->
     posts (trace run)
     = [signup_call;
        driver_call h token prompt model (png_uri raw) test_mode])
  /\ (forall s,
        image_data = Value (JStr s) ->
        startswith s "http" = true \/ path_exists w s = false ->
        posts (trace run)
        = [signup_call;
           driver_call h token prompt model (JStr s) test_mode])
  /\ (forall s,
        image_data = Value (JStr s) ->
        startswith s "http" = false -> path_exists w s = true ->
        truthy s = true ->
        match read_file w s with
        | Ok raw =>
            posts (trace run)
            = [signup_call;
               driver_call h token prompt model (png_uri raw) test_mode]
        | Raise e =>
            posts (trace run) = [signup_call]
            /\ outcome run
               = Ok (PuterVideo.failure
                       ("Failed to process image data: " ++ str_of_exn e))
        end)
  /\ (forall v,
        image_data = Value v -> (forall s, v <> JStr s) ->
        posts (trace run)
        = [signup_call; driver_call h token prompt model v test_mode])
  /\ (forall s,
        token = JStr s ->
        PuterVideo.driver_headers h token !! "Authorization"
        = Some (JStr ("Bearer " ++ s)))
  /\ (forall image_url,
        PuterVideo.payload prompt model image_url test_mode !! "args"
        = Some (JDict {[ "prompt" := JStr prompt;
                         "model" := JStr model;
                         "image_url" := image_url;
                         "test_mode" := JBool test_mode ]})).
Proof.
  intros Htoken Htruthy run. subst run.
  split.
  { intros raw ->. apply puter_posts; try assumption. reflexivity. }
  split.
  { intros s -> Hcase. apply puter_posts; try assumption.
    cbn [PuterVideo.prepare_image].
    destruct (startswith s "http"); cbn [negb]; [reflexivity|].
    destruct Hcase as [Hcase|Hcase]; [discriminate|].
    rewrite Hcase. reflexivity. }
  split.
  { intros s -> Hhttp Hexists Hs.
    assert (Hprep : PuterVideo.prepare_image w (Value (JStr s))
                    = match read_file w s with
                      | Ok raw => Ok (png_uri raw)
                      | Raise e => Raise e
                      end).
    { cbn [PuterVideo.prepare_image]. rewrite Hhttp, Hexists. cbn [negb].
      unfold ImageUtils.image_to_base64. cbn [arg_truthy json_truthy].
      rewrite Hs, Hexists. cbn [negb].
      destruct (read_file w s); reflexivity. }
    destruct (read_file w s) as [raw|e] eqn:Hread.
    - apply puter_posts; assumption.
    - destruct (puter_with_token w h (Value (JStr s)) prompt model test_mode
                  token Htoken Htruthy) as (t & Hposts & ->).
      rewrite Hprep. split; [exact Hposts|reflexivity]. }
  split.
  { intros v -> Hv. apply puter_posts; try assumption.
    destruct v; try reflexivity. exfalso. exact (Hv s eq_refl). }
  split.
  { intros s ->. reflexivity. }
  intros image_url. unfold PuterVideo.payload.
  rewrite !lookup_insert_ne by discriminate.
  apply lookup_singleton_eq.
Qed.

(** A Puter that renders, given bytes and given a URL. *)
Lemma X22_puter_driver_call_witness :
  posts (trace (PuterVideo.generate_video_with_puter (puter rendered) plain
                  (Bytes (list_ascii_of_string "Man")) "slow zoom"
                  "Wan-AI/Wan2.2-I2V-A14B" false))
  = [signup_call;
     driver_call plain (JStr "tok") "slow zoom" "Wan-AI/Wan2.2-I2V-A14B"
       (JStr "data:image/png;base64,TWFu") false]
  /\ posts (trace (PuterVideo.generate_video_with_puter (puter rendered) plain
                     (Value (JStr "https://shop.example/p.png")) "slow zoom"
                     "Wan-AI/Wan2.2-I2V-A14B" false))
     = [signup_call;
        driver_call plain (JStr "tok") "slow zoom" "Wan-AI/Wan2.2-I2V-A14B"
          (JStr "https://shop.example/p.png") false].
Proof.
  split.
  - apply (proj1 (X22_puter_driver_call (puter rendered) plain
                    (Bytes (list_ascii_of_string "Man")) "slow zoom"
                    "Wan-AI/Wan2.2-I2V-A14B" false (JStr "tok")
                    eq_refl eq_refl) (list_ascii_of_string "Man") eq_refl).
  - apply (proj1 (proj2 (X22_puter_driver_call (puter rendered) plain
                           (Value (JStr "https://shop.example/p.png"))
                           "slow zoom" "Wan-AI/Wan2.2-I2V-A14B" false
                           (JStr "tok") eq_refl eq_refl))
             "https://shop.example/p.png" eq_refl).
    left. reflexivity.
Defined.

Lemma http_error_message_nested line code text document :
  PuterVideo.http_error_message
    (HTTPError line code text
       (match document with Ok j => Some j | Raise _ => None end))
  = default (JStr line) (nested_message document).
Proof.
  unfold PuterVideo.http_error_message, nested_message.
  cbn [str_of_exn].
  destruct document as [[| | | | | |d]|e]; try reflexivity.
  cbn [attr_get].
  destruct (d !! "error") as [[| | | | | |inner]|]; reflexivity.
Qed.

Lemma call_driver_outcome w h token prompt model image_url test_mode :
  let run :=
    PuterVideo.call_driver w h token prompt model image_url test_mode in
  let answer :=
    requests_post w PuterVideo.driver_url (PuterVideo.driver_headers h token)
      (PuterVideo.payload prompt model image_url test_mode) in
  (forall resp result,
     answer = Ok resp -> is_http_error (status_code resp) = false ->
     json_body resp = Ok result ->
     outcome run = Ok (PuterVideo.read_result h result))
  /\ (forall resp,
        answer = Ok resp -> is_http_error (status_code resp) = true ->
        exists line,
          raise_for_status resp
          = Raise (HTTPError line (status_code resp) (text resp)
                     (match json_body resp with
                      | Ok j => Some j
                      | Raise _ => None
                      end))
          /\ outcome run
             = Ok (PuterVideo.failure
                     ("Puter API HTTP Error: "
                      ++ py_str h (default (JStr line)
                                     (nested_message (json_body resp))))))
  /\ (forall e,
        answer = Raise e -> carries_response e = false ->
        outcome run
        = Ok (PuterVideo.failure
                ("Failed to generate video with Puter: " ++ str_of_exn e)))
  /\ (forall resp e,
        answer = Ok resp -> is_http_error (status_code resp) = false ->
        json_body resp = Raise e -> carries_response e = false ->
        outcome run
        = Ok (PuterVideo.failure
                ("Failed to generate video with Puter: " ++ str_of_exn e))).
Proof.
  intros run answer. subst run answer.
  unfold PuterVideo.call_driver, post. repeat split.
  - intros resp result -> Hstatus Hjson. io_simpl.
    rewrite (raise_for_status_ok _ Hstatus). io_simpl. rewrite Hjson.
    reflexivity.
  - intros resp -> Hstatus.
    destruct (raise_for_status_error _ Hstatus) as [line Hline].
    exists line. split; [exact Hline|]. io_simpl. rewrite Hline. io_simpl.
    cbn [PuterVideo.explain]. rewrite http_error_message_nested. reflexivity.
  - intros e -> He. io_simpl. destruct e; try discriminate; reflexivity.
  - intros resp e -> Hstatus Hjson He. io_simpl.
    rewrite (raise_for_status_ok _ Hstatus). io_simpl. rewrite Hjson.
    io_simpl. destruct e; try discriminate; reflexivity.
Qed.

(** X24.  What a run with a token and a prepared image returns.  When the
    driver answers without error status and with a JSON body, the result
    is that body as read for its URL.  When it answers with an error
    status, the result is the error [Puter API HTTP Error: ] followed by
    the [message] member of the [error] object of the body, and by the
    status line of the response when the body is not JSON or has no such
    member.  When the call fails without a response, or the body of a good
    answer is not JSON, the result is the error [Failed to generate video
    with Puter: ] followed by the text of the exception. *)
Theorem X24_puter_outcome w h image_data prompt model test_mode token
    image_url :
  outcome (PuterVideo.get_puter_token w) = Ok token ->
  json_truthy token = true ->
  PuterVideo.prepare_image w image_data = Ok image_url ->
  let run :=
    PuterVideo.generate_video_with_puter w h image_data prompt model
      test_mode in
  let answer :=
    requests_post w PuterVideo.driver_url (PuterVideo.driver_headers h token)
      (PuterVideo.payload prompt model image_url test_mode) in
  (forall resp result,
     answer = Ok resp -> is_http_error (status_code resp) = false ->
     json_body resp = Ok result ->
     outcome run = Ok (PuterVideo.read_result h result))
  /\ (forall resp,
        answer = Ok resp -> is_http_error (status_code resp) = true ->
        exists line,
          raise_for_status resp
          = Raise (HTTPError line (status_code resp) (text resp)
                     (match json_body resp with
                      | Ok j => Some j
                      | Raise _ => None
                      end))
          /\ outcome run
             = Ok (PuterVideo.failure
                     ("Puter API HTTP Error: "
                      ++ py_str h (default (JStr line)
                                     (nested_message (json_body resp))))))
  /\ (forall e,
        answer = Raise e -> carries_response e = false ->
        outcome run
        = Ok (PuterVideo.failure
                ("Failed to generate video with Puter: " ++ str_of_exn e)))
  /\ (forall resp e,
        answer = Ok resp -> is_http_error (status_code resp) = false ->
        json_body resp = Raise e -> carries_response e = false ->
        outcome run
        = Ok (PuterVideo.failure
                ("Failed to generate video with Puter: " ++ str_of_exn e))).
Proof.
  intros Htoken Htruthy Hprep run answer. subst run answer.
  destruct (puter_with_token w h image_data prompt model test_mode token
              Htoken Htruthy) as (t & _ & ->).
  rewrite Hprep.
  pose proof (call_driver_outcome w h token prompt model image_url test_mode)
    as Hcall.
  destruct (PuterVideo.call_driver w h token prompt model image_url test_mode)
    as [t' r].
  exact Hcall.
Qed.

(** A driver that answers 429 with a message, and one that renders. *)
Lemma X24_puter_outcome_witness :
  outcome (PuterVideo.generate_video_with_puter (puter overloaded) plain
             (Bytes (list_ascii_of_string "Man")) "slow zoom"
             "Wan-AI/Wan2.2-I2V-A14B" false)
  = Ok (PuterVideo.failure "Puter API HTTP Error: rate limit")
  /\ outcome (PuterVideo.generate_video_with_puter (puter rendered) plain
                (Bytes (list_ascii_of_string "Man")) "slow zoom"
                "Wan-AI/Wan2.2-I2V-A14B" false)
     = Ok (PuterVideo.video (JStr "https://puter.example/v.mp4")).
Proof.
  split.
  - destruct (proj1 (proj2 (X24_puter_outcome (puter overloaded) plain
                              (Bytes (list_ascii_of_string "Man")) "slow zoom"
                              "Wan-AI/Wan2.2-I2V-A14B" false (JStr "tok")
                              (png_uri (list_ascii_of_string "Man"))
                              eq_refl eq_refl eq_refl))
                _ eq_refl eq_refl) as (line & _ & Hrun).
    exact Hrun.
  - exact (proj1 (X24_puter_outcome (puter rendered) plain
                    (Bytes (list_ascii_of_string "Man")) "slow zoom"
                    "Wan-AI/Wan2.2-I2V-A14B" false (JStr "tok")
                    (png_uri (list_ascii_of_string "Man"))
                    eq_refl eq_refl eq_refl)
             _ _ eq_refl eq_refl eq_refl).
Defined.

(** ** The Replicate video service *)

Lemma prefix_lower p s :
  String.prefix p s = true -> String.prefix (lower p) (lower s) = true.
Proof.
  revert s. induction p as [|a p IH]; intros s; [destruct s; reflexivity|].
  destruct s as [|b s]; [discriminate|]. cbn [String.prefix lower].
  destruct (ascii_dec a b) as [->|]; [|discriminate].
  destruct (ascii_dec (lower_char b) (lower_char b)); [|congruence].
  apply IH.
Qed.

Lemma substring_of_lower p s :
  substring_of p s = true -> substring_of (lower p) (lower s) = true.
Proof.
  induction s as [|b s IH]; cbn [substring_of lower].
  - rewrite !orb_false_r. apply (prefix_lower p EmptyString).
  - intros [Hprefix|Hrest]%orb_true_iff; apply orb_true_iff.
    + left. apply (prefix_lower p (String b s) Hprefix).
    + right. apply IH, Hrest.
Qed.

Lemma explain_error e :
  exists msg, VideoGenerator.explain e = {[ "error" := JStr msg ]}.
Proof.
  unfold VideoGenerator.explain.
  destruct (substring_of "NSFW" _); [eexists; reflexivity|].
  destruct (substring_of "authentication" _); eexists; reflexivity.
Qed.

Lemma generate_video_with_replicate_cases h api_token image_data prompt :
  let run :=
    VideoGenerator.generate_video_with_replicate h api_token image_data
      prompt in
  let started := Print "🎬 Starting Replicate generation (Wan 2.1)..." in
  match setenv h "REPLICATE_API_TOKEN" api_token with
  | Raise e => run = ([], Ok (VideoGenerator.explain e))
  | Ok _ =>
      match replicate_run h api_token VideoGenerator.model_name image_data
              (VideoGenerator.run_input prompt) with
      | Raise e => run = ([started], Ok (VideoGenerator.explain e))
      | Ok output =>
          run = ([started],
                 Ok (if json_truthy output
                     then {[ "video_url" := output; "video_data" := output ]}
                     else VideoGenerator.no_output))
      end
  end.
Proof.
  intros run started. subst run started.
  unfold VideoGenerator.generate_video_with_replicate.
  destruct (setenv h _ _) as [[]|e]; [|reflexivity].
  io_simpl.
  destruct (replicate_run h _ _ _ _) as [output|e]; [|reflexivity].
  io_simpl. destruct (json_truthy output); reflexivity.
Qed.

(** X25.  [generate_video_with_replicate] never raises and makes no HTTP
    call of its own.  It returns either an object with the single member
    [error], or the output of the model under both [video_url] and
    [video_data]; the latter only when the token could be set, the model
    returned and its output is a true value.  A false output (nothing, an
    empty list, an empty text) gives the error of a missing output URL.
    The model is asked with the caller's prompt, and with the default
    prompt when there is none or it is empty. *)
Theorem X25_replicate_total h api_token image_data prompt :
  let run :=
    VideoGenerator.generate_video_with_replicate h api_token image_data
      prompt in
  let answer :=
    replicate_run h api_token VideoGenerator.model_name image_data
      (VideoGenerator.run_input prompt) in
  posts (trace run) = [] /\ gets (trace run) = []
  /\ (exists r,
        outcome run = Ok r
        /\ ((exists msg, r = {[ "error" := JStr msg ]})
            \/ (exists output,
                  setenv h "REPLICATE_API_TOKEN" api_token = Ok tt
                  /\ answer = Ok output /\ json_truthy output = true
                  /\ r = {[ "video_url" := output;
                            "video_data" := output ]})))
  /\ (forall output,
        setenv h "REPLICATE_API_TOKEN" api_token = Ok tt ->
        answer = Ok output ->
        outcome run
        = Ok (if json_truthy output
              then {[ "video_url" := output; "video_data" := output ]}
              else VideoGenerator.no_output))
  /\ (truthy_opt prompt = false ->
      VideoGenerator.run_input prompt !! "prompt"
      = Some (JStr VideoGenerator.default_prompt))
  /\ (forall s,
        prompt = Some s -> truthy s = true ->
        VideoGenerator.run_input prompt !! "prompt" = Some (JStr s)).
Proof.
  intros run answer. subst run answer.
  pose proof (generate_video_with_replicate_cases h api_token image_data
                prompt) as Hrun.
  cbv zeta in Hrun.
  destruct (setenv h "REPLICATE_API_TOKEN" api_token) as [[]|e].
  2: { rewrite Hrun. cbn [trace outcome fst snd].
       split; [reflexivity|]. split; [reflexivity|].
       split; [eexists; split; [reflexivity|left; apply explain_error]|].
       split; [discriminate|].
       split; [intros Hp|intros s -> Hs]; unfold VideoGenerator.run_input;
         rewrite lookup_insert_eq; [rewrite Hp|cbn [truthy_opt]; rewrite Hs];
         reflexivity. }
  destruct (replicate_run h api_token VideoGenerator.model_name image_data
              (VideoGenerator.run_input prompt)) as [output|e].
  2: { rewrite Hrun. cbn [trace outcome fst snd].
       split; [reflexivity|]. split; [reflexivity|].
       split; [eexists; split; [reflexivity|left; apply explain_error]|].
       split; [discriminate|].
       split; [intros Hp|intros s -> Hs]; unfold VideoGenerator.run_input;
         rewrite lookup_insert_eq; [rewrite Hp|cbn [truthy_opt]; rewrite Hs];
         reflexivity. }
  rewrite Hrun. cbn [trace outcome fst snd].
  split; [reflexivity|]. split; [reflexivity|].
  split.
  { eexists. split; [reflexivity|].
    destruct (json_truthy output) eqn:Htruthy.
    - right. exists output. repeat split; assumption.
    - left. eexists. reflexivity. }
  split; [intros ? _ [= <-]; reflexivity|].
  split; [intros Hp|intros s -> Hs]; unfold VideoGenerator.run_input;
    rewrite lookup_insert_eq; [rewrite Hp|cbn [truthy_opt]; rewrite Hs];
    reflexivity.
Qed.

(** X26.  How a failure of the Replicate client is reported.  A failure
    whose text has [NSFW], in capitals, is reported as the content filter,
    whatever else the text says.  Otherwise a failure whose text has the
    word [authentication] in any mix of capital and small letters is
    reported as a failed authentication.  Every other failure is reported
    with its own text after [Failed to generate video (Replicate): ]. *)
Theorem X26_replicate_error_classes h api_token image_data prompt e :
  setenv h "REPLICATE_API_TOKEN" api_token = Raise e
  \/ (setenv h "REPLICATE_API_TOKEN" api_token = Ok tt
      /\ replicate_run h api_token VideoGenerator.model_name image_data
           (VideoGenerator.run_input prompt) = Raise e) ->
  let result :=
    outcome (VideoGenerator.generate_video_with_replicate h api_token
               image_data prompt) in
  (substring_of "NSFW" (str_of_exn e) = true ->
   result = Ok VideoGenerator.content_filter)
  /\ (forall word,
        substring_of "NSFW" (str_of_exn e) = false ->
        lower word = "authentication" ->
        substring_of word (str_of_exn e) = true ->
        result = Ok VideoGenerator.authentication_failed)
  /\ (substring_of "NSFW" (str_of_exn e) = false ->
      substring_of "authentication" (lower (str_of_exn e)) = false ->
      result = Ok {[ "error" := JStr ("Failed to generate video (Replicate): "
                                      ++ str_of_exn e) ]}).
Proof.
  intros Hfail result. subst result.
  assert (Hrun : outcome (VideoGenerator.generate_video_with_replicate h
                            api_token image_data prompt)
                 = Ok (VideoGenerator.explain e)).
  { pose proof (generate_video_with_replicate_cases h api_token image_data
                  prompt) as Hrun.
    cbv zeta in Hrun.
    destruct Hfail as [Hset|[Hset Hcall]]; rewrite Hset in Hrun.
    - rewrite Hrun. reflexivity.
    - rewrite Hcall in Hrun. rewrite Hrun. reflexivity. }
  rewrite Hrun. unfold VideoGenerator.explain. repeat split.
  - intros ->. reflexivity.
  - intros word -> Hword Hin. apply substring_of_lower in Hin.
    rewrite Hword in Hin. rewrite Hin. reflexivity.
  - intros -> ->. reflexivity.
Qed.

(** A client that answers [Invalid Authentication token]. *)
Lemma X26_replicate_error_classes_witness :
  outcome (VideoGenerator.generate_video_with_replicate unauthorized "r8_token"
             (Value (JStr "https://shop.example/p.png")) None)
  = Ok VideoGenerator.authentication_failed.
Proof.
  apply (proj1 (proj2 (X26_replicate_error_classes unauthorized "r8_token"
                         (Value (JStr "https://shop.example/p.png")) None
                         (LibraryError "Invalid Authentication token")
                         (or_intror (conj eq_refl eq_refl))))
           "Authentication"); reflexivity.
Defined.

(** ** The overlay and prompt routes *)

Lemma _prepare_image_png_uri w payload :
  _prepare_image w (Some ("data:image/png;base64," ++ payload))
  = ([], Ok (Some "file", Some payload)).
Proof.
  unfold _prepare_image. cbn [truthy_opt default from_option id].
  change ("data:image/png;base64," ++ payload)
    with ("data:image/png;base64" ++ "," ++ payload).
  unfold split_comma_1_snd.
  rewrite (split_comma_1_app "data:image/png;base64" payload eq_refl).
  reflexivity.
Qed.


(** ** The logo script *)

Lemma attempt_gets w headers data :
  gets (trace (attempt w headers data)) = [].
Proof. unfold attempt, gets. provider_cases; reflexivity. Qed.

Lemma remove_background_summary w api_key image_data image_url sync
    content_moderation :
  exists t r,
    remove_background w api_key image_data image_url sync content_moderation
    = (t, r)
    /\ gets t = []
    /\ forall url headers data,
         (url, headers, data) ∈ posts t ->
         headers = headers_of api_key
         /\ request_data image_data image_url sync content_moderation
            = Ok data.
Proof.
  destruct (remove_background w api_key image_data image_url sync
              content_moderation) as [t r] eqn:Hrun.
  exists t, r. split; [reflexivity|].
  destruct (request_data image_data image_url sync content_moderation)
    as [data|e] eqn:Hdata.
  - pose proof (remove_background_trace w api_key image_data image_url sync
                  content_moderation data Hdata) as Htrace.
    pose proof (remove_background_posts w api_key image_data image_url sync
                  content_moderation data Hdata) as [Hposts _].
    rewrite Hrun in Htrace, Hposts. cbn [trace fst] in Htrace, Hposts.
    split; [rewrite Htrace; apply attempt_gets|].
    intros url headers data'. rewrite Hposts.
    intros (u & [= -> -> ->] & _)%list_elem_of_fmap. split; reflexivity.
  - unfold remove_background in Hrun. rewrite Hdata in Hrun.
    injection Hrun as <- <-. split; [reflexivity|].
    intros url headers data Hin. cbn in Hin. inversion Hin.
Qed.

Lemma replace_logo_writes w h result :
  exists t r,
    FixLogo.replace_logo w h result = (t, r)
    /\ posts t = [] /\ (length (gets t) <= 1)%nat
    /\ forall written,
         r = Ok (Some written) ->
         exists d u resp,
           result = JDict d /\ d !! "result_url" = Some (JStr u)
           /\ gets t = [u]
           /\ requests_get w u = Ok resp /\ status_code resp = 200
           /\ written = content resp
           /\ write_file h FixLogo.logo_path written = Ok tt.
Proof.
  unfold FixLogo.replace_logo.
  destruct result as [| | | |s|l|d];
    try (do 2 eexists; split; [reflexivity|]; split; [reflexivity|];
         split; [cbn; lia|]; discriminate).
  - cbn [FixLogo.py_in]. io_simpl.
    destruct (substring_of "result_url" s);
      do 2 eexists; (split; [reflexivity|]); (split; [reflexivity|]);
      (split; [cbn; lia|]); discriminate.
  - cbn [FixLogo.py_in]. io_simpl.
    destruct (existsb _ l);
      do 2 eexists; (split; [reflexivity|]); (split; [reflexivity|]);
      (split; [cbn; lia|]); discriminate.
  - cbn [FixLogo.py_in FixLogo.py_getitem]. io_simpl.
    unfold contains, getitem.
    destruct (d !! "result_url") as [url|] eqn:Hurl.
    2: { rewrite bool_decide_eq_false_2 by (intros [? [=]]).
         do 2 eexists. split; [reflexivity|]. split; [reflexivity|].
         split; [cbn; lia|]. discriminate. }
    rewrite bool_decide_eq_true_2 by eauto. io_simpl.
    destruct url as [| | | |u| |];
      try (do 2 eexists; split; [reflexivity|]; split; [reflexivity|];
           split; [cbn; lia|]; discriminate).
    io_simpl.
    destruct (requests_get w u) as [resp|e] eqn:Hget.
    2: { do 2 eexists. split; [reflexivity|]. split; [reflexivity|].
         split; [cbn; lia|]. discriminate. }
    io_simpl.
    destruct (status_code resp =? 200) eqn:Hstatus.
    2: { io_simpl. do 2 eexists. split; [reflexivity|]. split; [reflexivity|].
         split; [cbn; lia|]. discriminate. }
    destruct (write_file h FixLogo.logo_path (content resp)) as [[]|e]
      eqn:Hwrite.
    2: { io_simpl. do 2 eexists. split; [reflexivity|]. split; [reflexivity|].
         split; [cbn; lia|]. discriminate. }
    io_simpl. do 2 eexists. split; [reflexivity|]. split; [reflexivity|].
    split; [cbn; lia|]. intros written [= <-].
    exists d, u, resp. apply Z.eqb_eq in Hstatus. repeat split; assumption.
Qed.



(** A client that renders, asked without a prompt of the caller's. *)
Lemma X25_replicate_total_witness :
  outcome (VideoGenerator.generate_video_with_replicate replicating "r8_token"
             (Bytes (list_ascii_of_string "Man")) (Some EmptyString))
  = Ok {[ "video_url" :=
            JList [JStr "https://replicate.example/v.mp4";
                   JStr "cinematic product ad video"];
          "video_data" :=
            JList [JStr "https://replicate.example/v.mp4";
                   JStr "cinematic product ad video"] ]}.
Proof.
  exact (proj1 (proj2 (proj2 (proj2 (X25_replicate_total replicating "r8_token"
                                       (Bytes (list_ascii_of_string "Man"))
                                       (Some EmptyString)))))
           _ eq_refl eq_refl).
Defined.


(** ** The packshot and shadow operations *)

Lemma process_packshot w form image_url img_bytes :
  process w form (Some "packshot") image_url img_bytes
  = ([], Ok (service_reply
               (create_packshot w (BRIA_API_KEY w) img_bytes
                  (default "#FFFFFF" (form !! "bg_color"))))).
Proof.
  unfold process, dispatch, service_reply.
  rewrite bool_decide_eq_false_2 by discriminate.
  rewrite bool_decide_eq_true_2 by reflexivity.
  destruct (create_packshot w _ _ _) as [result|e]; io_simpl; [|reflexivity].
  destruct (respond_photography result); reflexivity.
Qed.

Lemma process_shadow w form image_url img_bytes :
  process w form (Some "shadow") image_url img_bytes
  = ([], Ok match py_int w (default (JInt 60) (JStr <$> form !! "intensity")) with
            | Ok intensity =>
                service_reply (add_shadow w (BRIA_API_KEY w) img_bytes intensity)
            | Raise e => error_reply (str_of_exn e) 500
            end).
Proof.
  unfold process, dispatch, service_reply.
  rewrite !bool_decide_eq_false_2 by discriminate.
  rewrite bool_decide_eq_true_2 by reflexivity.
  destruct (py_int w _) as [intensity|e]; io_simpl; [|reflexivity].
  destruct (add_shadow w _ _ _) as [result|e]; io_simpl; [|reflexivity].
  destruct (respond_photography result); reflexivity.
Qed.

Lemma api_process_photography_bytes w form image_file :
  truthy (default EmptyString (filename <$> image_file)) = true
  \/ truthy_opt (form !! "image_url") = true ->
  exists t,
    posts t = []
    /\ api_process_photography w form image_file
       = let '(t', r) :=
           process w form (form !! "operation") (form !! "image_url")
             (route_bytes w form image_file) in
         ((t ++ t')%list, r).
Proof.
  intros Himage. unfold api_process_photography, route_bytes.
  destruct (truthy (default EmptyString (filename <$> image_file))).
  { exists []. split; [reflexivity|].
    destruct (process w form _ _ _). reflexivity. }
  destruct Himage as [|Hurl]; [discriminate|]. rewrite Hurl.
  destruct (download_image_returns w (json_of_opt (form !! "image_url")))
    as (t & raw & Hdownload & Hposts).
  exists t. split; [exact Hposts|].
  unfold outcome_value. rewrite Hdownload. reflexivity.
Qed.


